(** * FlightOps MCP: query execution and orchestration

    A shallow embedding of [server.py], [tool_registry.py] and [client.py].

    Python values are an inductive type, the data store, the MCP session and
    the LLM are event alphabets of a small free monad with exceptions, and
    each Python function is a definition of the same name. Text is a
    [string] whose characters are code points below 256. *)

From Stdlib Require Import ZArith List String Ascii Bool Lia QArith.
Import ListNotations.

Set Warnings "-register-all".

Local Open Scope string_scope.
Local Open Scope Z_scope.

(** ** Python text: the [str] methods the sources call *)

Module PyStr.

(** [str.isspace] on one character, which is also the regular expression
    class [\s] of a text pattern. *)
Definition is_space (c : ascii) : bool :=
  let n := N_of_ascii c in
  (((9 <=? n) && (n <=? 13)) || ((28 <=? n) && (n <=? 32))
   || (n =? 133) || (n =? 160))%N.

Fixpoint lstrip (s : string) : string :=
  match s with
  | EmptyString => EmptyString
  | String c r => if is_space c then lstrip r else s
  end.

Fixpoint rstrip (s : string) : string :=
  match s with
  | EmptyString => EmptyString
  | String c r =>
      match rstrip r with
      | EmptyString => if is_space c then EmptyString else String c EmptyString
      | r' => String c r'
      end
  end.

(** [s.strip()] *)
Definition strip (s : string) : string := rstrip (lstrip s).

Definition lower_char (c : ascii) : ascii :=
  let n := N_of_ascii c in
  (if ((65 <=? n) && (n <=? 90))
      || ((192 <=? n) && (n <=? 222) && negb (n =? 215))
   then ascii_of_N (n + 32) else c)%N.

(** [s.lower()] *)
Fixpoint lower (s : string) : string :=
  match s with
  | EmptyString => EmptyString
  | String c r => String (lower_char c) (lower r)
  end.

Definition digit_val (c : ascii) : option Z :=
  let n := N_of_ascii c in
  if ((48 <=? n) && (n <=? 57))%N then Some (Z.of_N (n - 48)) else None.

Definition digit_char (k : Z) : ascii := ascii_of_N (48 + Z.to_N k).

(** Decimal digits of a natural number, most significant first; [fuel]
    bounds the number of digits. *)
Fixpoint digits_of (fuel : nat) (n : Z) (acc : string) : string :=
  match fuel with
  | O => acc
  | S fuel' =>
      let acc' := String (digit_char (n mod 10)) acc in
      if n / 10 =? 0 then acc' else digits_of fuel' (n / 10) acc'
  end.

(** [str(n)] for an int. *)
Definition str_of_int (n : Z) : string :=
  let a := Z.abs n in
  let ds := digits_of (S (Z.to_nat (Z.log2 a))) a EmptyString in
  if n <? 0 then String "-" ds else ds.

(** Where the scan of an integer literal stands: nothing read yet, after
    a digit, or after an underscore. *)
Inductive int_scan := AtStart | AfterDigit | AfterUnderscore.

Fixpoint int_digits (st : int_scan) (acc : Z) (s : string) : option Z :=
  match s with
  | EmptyString => match st with AfterDigit => Some acc | _ => None end
  | String c r =>
      match digit_val c with
      | Some d => int_digits AfterDigit (10 * acc + d) r
      | None =>
          if (c =? "_")%char
          then match st with
               | AfterDigit => int_digits AfterUnderscore acc r
               | _ => None
               end
          else None
      end
  end.

(** [sys.get_int_max_str_digits()], as the interpreter starts. *)
Definition max_str_digits : nat := 4300.

(** The digits of a literal; its underscores do not count. *)
Fixpoint count_digits (s : string) : nat :=
  match s with
  | EmptyString => O
  | String c r =>
      match digit_val c with
      | Some _ => S (count_digits r)
      | None => count_digits r
      end
  end.

(** The digits of a literal after its sign: more than
    [max_str_digits] of them is ValueError, as is a character that is
    no digit and an underscore out of place. *)
Definition int_literal (r : string) : option Z :=
  if (max_str_digits <? count_digits r)%nat then None
  else int_digits AtStart 0 r.

(** [int(s)] in base ten: surrounding whitespace, one optional sign,
    digits with single underscores between them, at most
    [max_str_digits] digits. [None] is ValueError. *)
Definition int_of_str (s : string) : option Z :=
  match strip s with
  | String "+" r => int_literal r
  | String "-" r => option_map Z.opp (int_literal r)
  | t => int_literal t
  end.

Fixpoint join (sep : string) (l : list string) : string :=
  match l with
  | [] => EmptyString
  | [x] => x
  | x :: r => x ++ sep ++ join sep r
  end.

End PyStr.

(** ** Dates: [datetime.strptime] and [strftime] on the formats of the server *)

Module PyDate.
Import PyStr.

Record date := mkDate { year : Z; month : Z; day : Z }.

Definition is_leap (y : Z) : bool :=
  (y mod 4 =? 0) && (negb (y mod 100 =? 0) || (y mod 400 =? 0)).

Definition days_in_month (y m : Z) : Z :=
  match m with
  | 1 => 31 | 2 => if is_leap y then 29 else 28 | 3 => 31 | 4 => 30
  | 5 => 31 | 6 => 30 | 7 => 31 | 8 => 31 | 9 => 30 | 10 => 31
  | 11 => 30 | 12 => 31 | _ => 0
  end.

(** The check of the [date] constructor: MINYEAR is 1, MAXYEAR 9999. *)
Definition valid_date (dt : date) : bool :=
  (1 <=? year dt) && (year dt <=? 9999)
  && (1 <=? month dt) && (month dt <=? 12)
  && (1 <=? day dt) && (day dt <=? days_in_month (year dt) (month dt)).

Inductive directive := DY | Dm | Dd | DB | Db.

(** One element of the regular expression a format compiles to: a literal
    character, a run of whitespace ([\s+]) or a directive's group. *)
Inductive item := Lit (c : ascii) | Spaces | Dir (d : directive).

Definition directive_of (c : ascii) : option directive :=
  match c with
  | "Y"%char => Some DY
  | "m"%char => Some Dm
  | "d"%char => Some Dd
  | "B"%char => Some DB
  | "b"%char => Some Db
  | _ => None
  end.

(** The format as a pattern: a directive becomes its group, a run of
    whitespace becomes [Spaces], anything else stands for itself. [None]
    is a directive outside the five the server uses. *)
Fixpoint compile (fmt : string) : option (list item) :=
  match fmt with
  | EmptyString => Some []
  | String "%" (String c r) =>
      match directive_of c, compile r with
      | Some d, Some its => Some (Dir d :: its)
      | _, _ => None
      end
  | String "%" EmptyString => None
  | String c r =>
      match compile r with
      | Some its =>
          if is_space c
          then match its with
               | Spaces :: _ => Some its
               | _ => Some (Spaces :: its)
               end
          else Some (Lit c :: its)
      | None => None
      end
  end.

Definition month_names : list string :=
  ["january"; "february"; "march"; "april"; "may"; "june"; "july";
   "august"; "september"; "october"; "november"; "december"].

Definition month_abbrs : list string :=
  ["jan"; "feb"; "mar"; "apr"; "may"; "jun"; "jul"; "aug"; "sep"; "oct";
   "nov"; "dec"].

(** Names with their month number. *)
Fixpoint numbered (k : Z) (l : list string) : list (string * Z) :=
  match l with
  | [] => []
  | x :: r => (x, k) :: numbered (k + 1) r
  end.

Fixpoint insert_by_length (x : string * Z) (l : list (string * Z))
  : list (string * Z) :=
  match l with
  | [] => [x]
  | y :: r =>
      if (String.length (fst y) <=? String.length (fst x))%nat
      then x :: l else y :: insert_by_length x r
  end.

(** The alternation of a name group lists the longest names first, names
    of one length in calendar order. *)
Definition longest_first (l : list (string * Z)) : list (string * Z) :=
  fold_right insert_by_length [] l.

(** The text left after [name], matched without regard to case. *)
Fixpoint match_name (name s : string) : option string :=
  match name, s with
  | EmptyString, _ => Some s
  | String a n', String b s' =>
      if (lower_char b =? lower_char a)%char then match_name n' s' else None
  | String _ _, EmptyString => None
  end.

(** The fields [_strptime] collects; the defaults are 1900, 1 and 1. *)
Definition init : date := mkDate 1900 1 1.

Definition set_year (dt : date) (v : Z) := mkDate v (month dt) (day dt).
Definition set_month (dt : date) (v : Z) := mkDate (year dt) v (day dt).
Definition set_day (dt : date) (v : Z) := mkDate (year dt) (month dt) v.

Definition in_range (lo hi : Z) (c : ascii) : option Z :=
  match digit_val c with
  | Some v => if (lo <=? v) && (v <=? hi) then Some v else None
  | None => None
  end.

(** Two characters [a] in [lo1..hi1] and [b] in [lo2..hi2]. *)
Definition two (lo1 hi1 lo2 hi2 : Z) (s : string) : list (Z * string) :=
  match s with
  | String a (String b r) =>
      match in_range lo1 hi1 a, in_range lo2 hi2 b with
      | Some x, Some y => [(10 * x + y, r)]
      | _, _ => []
      end
  | _ => []
  end.

Definition one (lo hi : Z) (s : string) : list (Z * string) :=
  match s with
  | String a r =>
      match in_range lo hi a with
      | Some x => [(x, r)]
      | None => []
      end
  | _ => []
  end.

(** [(?P<Y>\d\d\d\d)] *)
Definition group_Y (s : string) : list (Z * string) :=
  match s with
  | String a (String b (String c (String d r))) =>
      match digit_val a, digit_val b, digit_val c, digit_val d with
      | Some x, Some y, Some z, Some w =>
          [(1000 * x + 100 * y + 10 * z + w, r)]
      | _, _, _, _ => []
      end
  | _ => []
  end.

(** [(?P<m>1[0-2]|0[1-9]|[1-9])] *)
Definition group_m (s : string) : list (Z * string) :=
  two 1 1 0 2 s ++ two 0 0 1 9 s ++ one 1 9 s.

(** [(?P<d>3[0-1]|[1-2]\d|0[1-9]|[1-9]| [1-9])] *)
Definition group_d (s : string) : list (Z * string) :=
  two 3 3 0 1 s ++ two 1 2 0 9 s ++ two 0 0 1 9 s ++ one 1 9 s
  ++ match s with
     | String " " r => one 1 9 r
     | _ => []
     end.

Definition group_names (names : list string) (s : string)
  : list (Z * string) :=
  flat_map (fun nk : string * Z =>
              match match_name (fst nk) s with
              | Some r => [(snd nk, r)]
              | None => []
              end)
           (longest_first (numbered 1 names)).

(** [\s+], the longest run first. *)
Fixpoint spaces (s : string) : list string :=
  match s with
  | String c r => if is_space c then spaces r ++ [r] else []
  | EmptyString => []
  end.

(** Every way [it] matches a prefix of [s], in the order the matcher
    tries them, each with the fields so far and the text left. *)
Definition match_item (it : item) (s : string) (dt : date)
  : list (date * string) :=
  match it with
  | Lit c =>
      match s with
      | String x r =>
          if (lower_char x =? lower_char c)%char then [(dt, r)] else []
      | EmptyString => []
      end
  | Spaces => map (fun r => (dt, r)) (spaces s)
  | Dir DY => map (fun vr => (set_year dt (fst vr), snd vr)) (group_Y s)
  | Dir Dm => map (fun vr => (set_month dt (fst vr), snd vr)) (group_m s)
  | Dir Dd => map (fun vr => (set_day dt (fst vr), snd vr)) (group_d s)
  | Dir DB =>
      map (fun vr => (set_month dt (fst vr), snd vr))
          (group_names month_names s)
  | Dir Db =>
      map (fun vr => (set_month dt (fst vr), snd vr))
          (group_names month_abbrs s)
  end.

Fixpoint match_items (its : list item) (s : string) (dt : date)
  : list (date * string) :=
  match its with
  | [] => [(dt, s)]
  | it :: rest =>
      flat_map (fun p => match_items rest (snd p) (fst p))
               (match_item it s dt)
  end.

(** [datetime.strptime(s, fmt)]; [None] is ValueError: no match, text
    left over after the match, or a day the calendar does not have. *)
Definition strptime (s fmt : string) : option date :=
  match compile fmt with
  | None => None
  | Some its =>
      match match_items its s init with
      | [] => None
      | (dt, rest) :: _ =>
          match rest with
          | EmptyString => if valid_date dt then Some dt else None
          | String _ _ => None
          end
      end
  end.

Definition pad2 (n : Z) : string :=
  String (digit_char (n / 10 mod 10))
         (String (digit_char (n mod 10)) EmptyString).

Definition pad4 (n : Z) : string :=
  String (digit_char (n / 1000 mod 10))
    (String (digit_char (n / 100 mod 10))
       (String (digit_char (n / 10 mod 10))
          (String (digit_char (n mod 10)) EmptyString))).

(** [dt.strftime("%Y-%m-%d")]. The interpreter hands the format to the
    C library, which prints [%Y] as the year in decimal, without
    padding: a year below 1000 has fewer than four digits. *)
Definition strftime_Y_m_d (dt : date) : string :=
  str_of_int (year dt) ++ "-" ++ pad2 (month dt) ++ "-" ++ pad2 (day dt).

End PyDate.

(** ** Python values *)

Module Py.
Import PyStr.

(** What [json.loads] returns and what a stored document holds. A float
    is carried by its [repr], on which no arithmetic is done; [PObj] is
    any other object (an ObjectId, a datetime), carried by its [str] and
    its [repr]. A dict keeps its keys in insertion order. *)
Inductive value :=
| PNone
| PBool (b : bool)
| PInt (n : Z)
| PFloat (repr : string)
| PStr (s : string)
| PList (l : list value)
| PDict (d : list (string * value))
| PObj (str_of repr_of : string).

Definition dict := list (string * value).

Definition dq : string := String "034"%char EmptyString.
Definition nl : string := String "010"%char EmptyString.

(** [bool(v)] *)
Definition truthy (v : value) : bool :=
  match v with
  | PNone => false
  | PBool b => b
  | PInt n => negb (n =? 0)
  | PFloat r => negb ((r =? "0.0") || (r =? "-0.0"))%string
  | PStr s => negb (s =? "")%string
  | PList l => match l with [] => false | _ => true end
  | PDict d => match d with [] => false | _ => true end
  | PObj _ _ => true
  end.

(** [d.get(k)] *)
Fixpoint dict_get (k : string) (d : dict) : option value :=
  match d with
  | [] => None
  | (k', v) :: r => if (k' =? k)%string then Some v else dict_get k r
  end.

(** [k in d] *)
Definition dict_in (k : string) (d : dict) : bool :=
  match dict_get k d with Some _ => true | None => false end.

(** [d.pop(k)], for the dict that is left: no binding of [k] stays. *)
Fixpoint dict_pop (k : string) (d : dict) : dict :=
  match d with
  | [] => []
  | (k', v) :: r =>
      if (k' =? k)%string then dict_pop k r else (k', v) :: dict_pop k r
  end.

(** [d[k] = v]: a key already there keeps its place. *)
Fixpoint dict_set (k : string) (v : value) (d : dict) : dict :=
  match d with
  | [] => [(k, v)]
  | (k', v') :: r =>
      if (k' =? k)%string then (k, v) :: r else (k', v') :: dict_set k v r
  end.

Definition hex_digit (n : N) : ascii :=
  (if n <? 10 then ascii_of_N (48 + n) else ascii_of_N (87 + n))%N.

Definition hex2 (c : ascii) : string :=
  let n := N_of_ascii c in
  String (hex_digit (n / 16)) (String (hex_digit (n mod 16)) EmptyString).

Definition char (c : ascii) : string := String c EmptyString.

(** One character of [repr(s)] inside the quote [q]. *)
Definition repr_char (q c : ascii) : string :=
  let n := N_of_ascii c in
  (if (c =? q)%char || (c =? "\")%char then String "\" (char c)
   else if n =? 9 then "\t"
   else if n =? 10 then "\n"
   else if n =? 13 then "\r"
   else if (n <? 32) || (n =? 127) || ((128 <=? n) && (n <=? 160))
           || (n =? 173)
        then "\x" ++ hex2 c
   else char c)%N.

Fixpoint has_char (c : ascii) (s : string) : bool :=
  match s with
  | EmptyString => false
  | String x r => (x =? c)%char || has_char c r
  end.

Fixpoint flat_chars (f : ascii -> string) (s : string) : string :=
  match s with
  | EmptyString => EmptyString
  | String c r => f c ++ flat_chars f r
  end.

(** [repr(s)] for a str. *)
Definition repr_str (s : string) : string :=
  let q := if has_char "'" s && negb (has_char "034" s)
           then "034"%char else "'"%char in
  String q (flat_chars (repr_char q) s ++ char q).

(** [repr(v)] *)
Fixpoint repr (v : value) : string :=
  match v with
  | PNone => "None"
  | PBool true => "True"
  | PBool false => "False"
  | PInt n => str_of_int n
  | PFloat r => r
  | PStr s => repr_str s
  | PList l => "[" ++ join ", " (map repr l) ++ "]"
  | PDict d =>
      "{" ++ join ", "
               (map (fun kv => match kv with
                               | (k, x) => repr_str k ++ ": " ++ repr x
                               end) d)
      ++ "}"
  | PObj _ r => r
  end.

(** [str(v)] *)
Definition str (v : value) : string :=
  match v with
  | PStr s => s
  | PObj s _ => s
  | _ => repr v
  end.

End Py.

(** ** [json.dumps] *)

Module Json.
Import PyStr Py.

Definition escape_char (c : ascii) : string :=
  let n := N_of_ascii c in
  (if n =? 34 then String "\" dq
   else if n =? 92 then "\\"
   else if n =? 10 then "\n"
   else if n =? 13 then "\r"
   else if n =? 9 then "\t"
   else if n =? 8 then "\b"
   else if n =? 12 then "\f"
   else if (n <? 32) || (126 <? n) then "\u00" ++ hex2 c
   else char c)%N.

(** A str as a JSON string, with [ensure_ascii]. *)
Definition quote (s : string) : string :=
  dq ++ flat_chars escape_char s ++ dq.

Definition float_text (r : string) : string :=
  if (r =? "nan")%string then "NaN"
  else if (r =? "inf")%string then "Infinity"
  else if (r =? "-inf")%string then "-Infinity"
  else r.

Fixpoint blanks (n : nat) : string :=
  match n with
  | O => EmptyString
  | S k => String " " (blanks k)
  end.

(** The line break and indentation before an item at depth [level];
    nothing when no indent is asked for. *)
Definition newline_indent (indent : option nat) (level : nat) : string :=
  match indent with
  | None => EmptyString
  | Some w => nl ++ blanks (w * level)
  end.

Definition item_separator (indent : option nat) : string :=
  match indent with
  | None => ", "
  | Some _ => ","
  end.

Definition bracket (indent : option nat) (level : nat)
           (opening closing : string) (items : list string) : string :=
  match items with
  | [] => opening ++ closing
  | _ =>
      opening ++ newline_indent indent (S level)
      ++ join (item_separator indent ++ newline_indent indent (S level)) items
      ++ newline_indent indent level ++ closing
  end.

(** The text [json.dumps(v, indent=indent, default=str)] produces. *)
Fixpoint encode (indent : option nat) (level : nat) (v : value) : string :=
  match v with
  | PNone => "null"
  | PBool true => "true"
  | PBool false => "false"
  | PInt n => str_of_int n
  | PFloat r => float_text r
  | PStr s => quote s
  | PList l => bracket indent level "[" "]" (map (encode indent (S level)) l)
  | PDict d =>
      bracket indent level "{" "}"
              (map (fun kv => match kv with
                              | (k, x) =>
                                  quote k ++ ": " ++ encode indent (S level) x
                              end) d)
  | PObj s _ => quote s
  end.

(** Whether [json.dumps] accepts [v] with no [default]: no object of a
    foreign class inside. *)
Fixpoint serializable (v : value) : bool :=
  match v with
  | PList l => forallb serializable l
  | PDict d => forallb (fun kv => serializable (snd kv)) d
  | PObj _ _ => false
  | _ => true
  end.

End Json.

(** ** Effects: events, exceptions and state *)

Module Effects.

(** The text of an exception, [str(e)]. *)
Definition exn := string.

Inductive outcome (R : Type) : Type :=
| Ok (r : R)
| Raise (e : exn).
Arguments Ok {R} r.
Arguments Raise {R} e.

(** A computation that awaits the replies of its collaborators. *)
Inductive prog (E : Type -> Type) (A : Type) : Type :=
| Ret (a : A)
| Vis (X : Type) (ev : E X) (k : X -> prog E A).
Arguments Ret {E A} a.
Arguments Vis {E A X} ev k.

Fixpoint pbind {E : Type -> Type} {A B : Type}
         (p : prog E A) (f : A -> prog E B) : prog E B :=
  match p with
  | Ret a => f a
  | Vis ev k => Vis ev (fun x => pbind (k x) f)
  end.

(** Python code over the module or object state [S]: it returns or
    raises, and leaves a state behind either way. *)
Definition py (E : Type -> Type) (S R : Type) : Type :=
  S -> prog E (outcome R * S).

Definition ret {E : Type -> Type} {S R : Type} (r : R) : py E S R :=
  fun s => Ret (Ok r, s).

Definition raise {E : Type -> Type} {S R : Type} (e : exn) : py E S R :=
  fun s => Ret (Raise e, s).

Definition bind {E : Type -> Type} {S A B : Type}
           (p : py E S A) (f : A -> py E S B) : py E S B :=
  fun s => pbind (p s) (fun os =>
                          match fst os with
                          | Ok a => f a (snd os)
                          | Raise e => Ret (Raise e, snd os)
                          end).

(** [try: p  except Exception as e: h e] *)
Definition try_except {E : Type -> Type} {S R : Type}
           (p : py E S R) (h : exn -> py E S R) : py E S R :=
  fun s => pbind (p s) (fun os =>
                          match fst os with
                          | Ok r => Ret (Ok r, snd os)
                          | Raise e => h e (snd os)
                          end).

Definition get {E : Type -> Type} {S : Type} : py E S S :=
  fun s => Ret (Ok s, s).

Definition put {E : Type -> Type} {S : Type} (s : S) : py E S unit :=
  fun _ => Ret (Ok tt, s).

(** Await a collaborator, whose reply is a value or an exception. *)
Definition await {E : Type -> Type} {S X : Type} (ev : E (exn + X)%type)
  : py E S X :=
  fun s => Vis ev (fun r => match r with
                            | inl e => Ret (Raise e, s)
                            | inr x => Ret (Ok x, s)
                            end).

(** One request made to a collaborator. *)
Record call (E : Type -> Type) : Type :=
  Call { reply_type : Type; request : E reply_type }.
Arguments Call {E reply_type} request.
Arguments reply_type {E} c.
Arguments request {E} c.

(** The collaborators: from a world [W], the reply to each request. *)
Definition env (E : Type -> Type) (W : Type) : Type :=
  forall X : Type, E X -> W -> X * W.

(** Run [p] against [h]: the result, the world left, and the requests
    made, first to last. *)
Fixpoint exec {E : Type -> Type} {A W : Type}
         (h : env E W) (p : prog E A) (w : W) : A * W * list (call E) :=
  match p with
  | Ret a => (a, w, [])
  | Vis ev k =>
      let (x, w1) := h _ ev w in
      let '(a, w2, tr) := exec h (k x) w1 in
      (a, w2, Call ev :: tr)
  end.

End Effects.

(** ** server.py *)

Module Server.
Import PyStr PyDate Py Json Effects.

(** What the server asks of the collection: [find_one(query, projection)]
    and [find(query).sort(key, direction).limit(limit)] read to its end. *)
Inductive storeE : Type -> Type :=
| FindOne (query projection : dict) : storeE (exn + option dict)%type
| FindSortLimit (query : value) (sort_key : string) (direction limit : Z)
  : storeE (exn + list dict)%type.

(** The module's global: whether the Motor client has been created. *)
Record globals := Globals { _mongo_client : bool }.

Definition tool (R : Type) : Type := py storeE globals R.

Notation "x <- p ;; q" := (bind p (fun x => q))
  (at level 61, p at next level, right associativity).

(** Creating the client does no I/O; the handles it returns are the
    events' implicit receiver. The database and the collection are
    taken to be configured: with [MONGO_DB] or [MONGO_COLLECTION]
    unset, indexing the client raises inside the caller's [try], which
    the tools answer like a failure of the store: with their 500 or
    503 error, having asked the store nothing. *)
Definition get_mongodb_client : tool unit :=
  g <- get ;;
  if _mongo_client g then ret tt else put (Globals true).

Definition normalize_flight_number (flight_number : value) : option Z :=
  match flight_number with
  | PNone => None
  | PStr EmptyString => None
  | PBool b => Some (Z.b2z b)
  | PInt n => Some n
  | v => int_of_str (strip (str v))
  end.

Definition formats : list string :=
  ["%Y-%m-%d"; "%d-%m-%Y"; "%Y/%m/%d"; "%d/%m/%Y";
   "%B %d, %Y"; "%d %B %Y"; "%b %d, %Y"; "%d %b %Y"].

(** The loop of [validate_date] over [fmts]. *)
Fixpoint first_parse (fmts : list string) (date_str : string)
  : option string :=
  match fmts with
  | [] => None
  | fmt :: rest =>
      match strptime date_str fmt with
      | Some dt => Some (strftime_Y_m_d dt)
      | None => first_parse rest date_str
      end
  end.

Definition validate_date (date_str : string) : option string :=
  if (date_str =? "")%string then None else first_parse formats date_str.

(** [date_of_origin] is the server's [dob], a str or None. *)
Definition make_query (carrier : string) (flight_number : option Z)
           (date_of_origin : option string) : dict :=
  let query : dict := [] in
  let query :=
    if truthy (PStr carrier)
    then dict_set "flightLegState.carrier" (PStr carrier) query
    else query in
  let query :=
    match flight_number with
    | Some n => dict_set "flightLegState.flightNumber" (PInt n) query
    | None => query
    end in
  match date_of_origin with
  | Some d =>
      if truthy (PStr d)
      then dict_set "flightLegState.dateOfOrigin" (PStr d) query
      else query
  | None => query
  end.

Definition response_ok (data : value) : string :=
  encode (Some 2%nat) 0 (PDict [("ok", PBool true); ("data", data)]).

Definition response_error (msg : string) (code : Z) : string :=
  encode (Some 2%nat) 0
         (PDict [("ok", PBool false);
                 ("error", PDict [("message", PStr msg);
                                  ("code", PInt code)])]).

(** [if k in doc: doc.pop(k)] for [_id] and [_class]. *)
Definition strip_internal (doc : dict) : dict :=
  let doc := if dict_in "_id" doc then dict_pop "_id" doc else doc in
  if dict_in "_class" doc then dict_pop "_class" doc else doc.

Definition _fetch_one_async (query projection : dict) : tool string :=
  try_except
    (_ <- get_mongodb_client ;;
     result <- await (FindOne query projection) ;;
     match result with
     | None | Some [] =>
         (* [if not result]: None, or a document with no field *)
         ret (response_error "No matching document found." 404)
     | Some doc => ret (response_ok (PDict (strip_internal doc)))
     end)
    (fun exc => ret (response_error ("DB query failed: " ++ exc) 500)).

Definition health_check : tool string :=
  try_except
    (_ <- get_mongodb_client ;;
     doc <- await (FindOne [] [("_id", PInt 1)]) ;;
     ret (response_ok
            (PDict [("status", PStr "ok");
                    ("db_connected",
                     PBool (match doc with Some _ => true | None => false end))])))
    (fun e => ret (response_error "DB unreachable" 503)).

(** A projection dict: each path mapped to 1. *)
Definition paths (l : list string) : dict := map (fun p => (p, PInt 1)) l.

(** [normalize_flight_number(flight_number) if flight_number else None] *)
Definition fn_of (flight_number : string) : option Z :=
  if truthy (PStr flight_number)
  then normalize_flight_number (PStr flight_number) else None.

(** [validate_date(date_of_origin) if date_of_origin else None] *)
Definition dob_of (date_of_origin : string) : option string :=
  if truthy (PStr date_of_origin) then validate_date date_of_origin else None.

(** [date_of_origin and not dob] *)
Definition rejected (date_of_origin : string) (dob : option string) : bool :=
  truthy (PStr date_of_origin)
  && negb (match dob with Some d => truthy (PStr d) | None => false end).

Definition basic_info_projection : dict :=
  paths ["flightLegState.carrier"; "flightLegState.flightNumber";
         "flightLegState.suffix"; "flightLegState.dateOfOrigin";
         "flightLegState.seqNumber"; "flightLegState.startStation";
         "flightLegState.endStation"; "flightLegState.startStationICAO";
         "flightLegState.endStationICAO";
         "flightLegState.scheduledStartTime";
         "flightLegState.scheduledEndTime"; "flightLegState.flightStatus";
         "flightLegState.operationalStatus"; "flightLegState.flightType";
         "flightLegState.blockTimeSch"; "flightLegState.blockTimeActual";
         "flightLegState.flightHoursActual"].

Definition get_flight_basic_info (carrier flight_number date_of_origin : string)
  : tool string :=
  let fn := fn_of flight_number in
  let dob := dob_of date_of_origin in
  if rejected date_of_origin dob
  then ret (response_error
              "Invalid date_of_origin format. Expected YYYY-MM-DD or common date formats"
              400)
  else _fetch_one_async (make_query carrier fn dob) basic_info_projection.

Definition operation_times_projection : dict :=
  paths ["flightLegState.carrier"; "flightLegState.flightNumber";
         "flightLegState.dateOfOrigin"; "flightLegState.startStation";
         "flightLegState.endStation"; "flightLegState.scheduledStartTime";
         "flightLegState.scheduledEndTime";
         "flightLegState.operation.estimatedTimes";
         "flightLegState.operation.actualTimes";
         "flightLegState.taxiOutTime"; "flightLegState.taxiInTime";
         "flightLegState.blockTimeSch"; "flightLegState.blockTimeActual";
         "flightLegState.flightHoursActual"].

Definition get_operation_times (carrier flight_number date_of_origin : string)
  : tool string :=
  let fn := fn_of flight_number in
  let dob := dob_of date_of_origin in
  if rejected date_of_origin dob
  then ret (response_error "Invalid date format." 400)
  else _fetch_one_async (make_query carrier fn dob) operation_times_projection.

Definition equipment_projection : dict :=
  paths ["flightLegState.carrier"; "flightLegState.flightNumber";
         "flightLegState.dateOfOrigin";
         "flightLegState.equipment.plannedAircraftType";
         "flightLegState.equipment.aircraft";
         "flightLegState.equipment.aircraftConfiguration";
         "flightLegState.equipment.aircraftRegistration";
         "flightLegState.equipment.assignedAircraftTypeIATA";
         "flightLegState.equipment.assignedAircraftTypeICAO";
         "flightLegState.equipment.assignedAircraftTypeIndigo";
         "flightLegState.equipment.assignedAircraftConfiguration";
         "flightLegState.equipment.tailLock";
         "flightLegState.equipment.onwardFlight";
         "flightLegState.equipment.actualOnwardFlight"].

Definition get_equipment_info (carrier flight_number date_of_origin : string)
  : tool string :=
  let fn := fn_of flight_number in
  let dob := dob_of date_of_origin in
  _fetch_one_async (make_query carrier fn dob) equipment_projection.

Definition delay_projection : dict :=
  paths ["flightLegState.carrier"; "flightLegState.flightNumber";
         "flightLegState.dateOfOrigin"; "flightLegState.startStation";
         "flightLegState.endStation"; "flightLegState.scheduledStartTime";
         "flightLegState.operation.actualTimes.offBlock";
         "flightLegState.delays"].

Definition get_delay_summary (carrier flight_number date_of_origin : string)
  : tool string :=
  let fn := fn_of flight_number in
  let dob := dob_of date_of_origin in
  _fetch_one_async (make_query carrier fn dob) delay_projection.

Definition fuel_projection : dict :=
  paths ["flightLegState.carrier"; "flightLegState.flightNumber";
         "flightLegState.dateOfOrigin"; "flightLegState.startStation";
         "flightLegState.endStation"; "flightLegState.operation.fuel";
         "flightLegState.operation.flightPlan.offBlockFuel";
         "flightLegState.operation.flightPlan.takeoffFuel";
         "flightLegState.operation.flightPlan.landingFuel";
         "flightLegState.operation.flightPlan.holdFuel"].

Definition get_fuel_summary (carrier flight_number date_of_origin : string)
  : tool string :=
  let fn := fn_of flight_number in
  let dob := dob_of date_of_origin in
  _fetch_one_async (make_query carrier fn dob) fuel_projection.

Definition passenger_projection : dict :=
  paths ["flightLegState.carrier"; "flightLegState.flightNumber";
         "flightLegState.dateOfOrigin"; "flightLegState.pax"].

Definition get_passenger_info (carrier flight_number date_of_origin : string)
  : tool string :=
  let fn := fn_of flight_number in
  let dob := dob_of date_of_origin in
  _fetch_one_async (make_query carrier fn dob) passenger_projection.

Definition crew_projection : dict :=
  paths ["flightLegState.carrier"; "flightLegState.flightNumber";
         "flightLegState.dateOfOrigin"; "flightLegState.crewConnections"].

Definition get_crew_info (carrier flight_number date_of_origin : string)
  : tool string :=
  let fn := fn_of flight_number in
  let dob := dob_of date_of_origin in
  _fetch_one_async (make_query carrier fn dob) crew_projection.

(** The single-document lookup tools the server registers. *)
Inductive lookup_tool :=
| BasicInfo | OperationTimes | EquipmentInfo | DelaySummary | FuelSummary
| PassengerInfo | CrewInfo.

Definition lookup_name (t : lookup_tool) : string :=
  match t with
  | BasicInfo => "get_flight_basic_info"
  | OperationTimes => "get_operation_times"
  | EquipmentInfo => "get_equipment_info"
  | DelaySummary => "get_delay_summary"
  | FuelSummary => "get_fuel_summary"
  | PassengerInfo => "get_passenger_info"
  | CrewInfo => "get_crew_info"
  end.

Definition lookup (t : lookup_tool)
  : string -> string -> string -> tool string :=
  match t with
  | BasicInfo => get_flight_basic_info
  | OperationTimes => get_operation_times
  | EquipmentInfo => get_equipment_info
  | DelaySummary => get_delay_summary
  | FuelSummary => get_fuel_summary
  | PassengerInfo => get_passenger_info
  | CrewInfo => get_crew_info
  end.

(** Whether the tool returns on [date_of_origin and not dob] before it
    builds its query. *)
Definition checks_date (t : lookup_tool) : bool :=
  match t with
  | BasicInfo | OperationTimes => true
  | _ => false
  end.

Definition projection_of (t : lookup_tool) : dict :=
  match t with
  | BasicInfo => basic_info_projection
  | OperationTimes => operation_times_projection
  | EquipmentInfo => equipment_projection
  | DelaySummary => delay_projection
  | FuelSummary => fuel_projection
  | PassengerInfo => passenger_projection
  | CrewInfo => crew_projection
  end.

(** The example of valid syntax in the message of a rejected filter. *)
Definition filter_example : string :=
  "'{" ++ dq ++ "flightLegState.carrier" ++ dq ++ ": " ++ dq ++ "6E" ++ dq
  ++ "}'".

Section RawQuery.
(** [json.loads]: the value, or the text of the JSONDecodeError. *)
Variable json_loads : string -> exn + value.

Definition raw_mongodb_query (query_json : string) (limit : Z)
  : tool string :=
  try_except
    (_ <- get_mongodb_client ;;
     match json_loads query_json with
     | inl e =>
         ret (response_error
                ("Invalid JSON query: " ++ e ++ ". Example: "
                 ++ filter_example) 400)
     | inr query =>
         let limit := Z.min (Z.max 1 limit) 50 in
         cursor <- await (FindSortLimit query "flightLegState.dateOfOrigin"
                                        (-1) limit) ;;
         let docs := map strip_internal cursor in
         match docs with
         | [] => ret (response_error "No documents found for given query." 404)
         | _ =>
             ret (response_ok
                    (PDict [("count", PInt (Z.of_nat (List.length docs)));
                            ("documents", PList (map PDict docs))]))
         end
     end)
    (fun exc => ret (response_error ("raw query failed: " ++ exc) 500)).
End RawQuery.

End Server.

(** ** tool_registry.py *)

Module ToolRegistry.

Record meta := Meta { args : list string; desc : string }.

Definition lookup_args : list string :=
  ["carrier"; "flight_number"; "date_of_origin"].

(** The catalog, in the order of the dict literal. *)
Definition TOOLS : list (string * meta) :=
  [("get_flight_basic_info",
    Meta lookup_args
         "Fetch basic flight information including carrier, flight number, stations, scheduled times, and flight status.");
   ("get_equipment_info",
    Meta lookup_args
         "Get aircraft equipment details: aircraft type, tail number (registration), and configuration.");
   ("get_operation_times",
    Meta lookup_args
         "Return estimated and actual operation times: takeoff, landing, departure, arrival, and block times.");
   ("get_fuel_summary",
    Meta lookup_args
         "Retrieve fuel summary including planned vs actual fuel consumption for the flight.");
   ("get_delay_summary",
    Meta lookup_args
         "Get delay information including delay reasons, durations, and total delay time.");
   ("health_check",
    Meta []
         "Check the health status of the MCP server and database connection.");
   ("raw_mongodb_query",
    Meta ["query_json"; "limit"]
         "Run a raw MongoDB query (JSON format) for debugging purposes.")].

(** [name in TOOLS] *)
Definition has_tool (name : string) (tools : list (string * meta)) : bool :=
  existsb (fun e => (fst e =? name)%string) tools.

End ToolRegistry.

(** ** client.py *)

Module Client.
Import PyStr Py Json Effects ToolRegistry.

Record message := Message { role : string; content : string }.

(** An item of a tool result: one with a [text], or any other. *)
Inductive content_item := TextContent (text : string) | OtherContent.

(** What the client asks of the MCP transport and session and of the
    LLM API. *)
Inductive clientE : Type -> Type :=
| OpenTransport (url : string) : clientE (exn + unit)%type
| InitSession : clientE (exn + unit)%type
| CallTool (name : value) (arguments : dict)
  : clientE (exn + list content_item)%type
| ChatCompletion (model : string) (messages : list message)
                 (temperature : Q) (max_tokens : Z)
  : clientE (exn + string)%type.

(** The fields of [FlightOpsMCPClient] the calls read: [session] is
    whether [self.session] is set. *)
Record client := Self { base_url : string; session : bool }.

Definition method (R : Type) : Type := py clientE client R.

Notation "x <- p ;; q" := (bind p (fun x => q))
  (at level 61, p at next level, right associativity).

Definition _build_tool_prompt (tools : list (string * meta)) : string :=
  let lines :=
    map (fun e => match e with
                  | (name, m) =>
                      "- " ++ name ++ "(" ++ join ", " (args m) ++ "): "
                      ++ desc m
                  end) tools in
  join nl lines.

Definition SYSTEM_PROMPT_PLAN : string :=
  nl ++ join nl
    ["You are an assistant that converts user questions into MCP tool calls.";
     "Use only these tools exactly as defined below:";
     "";
     _build_tool_prompt TOOLS;
     "";
     "Rules:";
     "1. Output only valid JSON.";
     "2. Always return a top-level key 'plan' as a list.";
     "3. If user asks something general like 'details of flight', use get_flight_basic_info.";
     "4. Do not invent tool names.";
     "5. If carrier or date not mentioned, omit them instead of writing 'unknown'.";
     "6. only use " ++ dq ++ "tool" ++ dq ++ " as key not " ++ dq ++ "name"
     ++ dq]
  ++ nl.

Definition SYSTEM_PROMPT_SUMMARIZE : string :=
  nl ++ join nl
    ["You are an assistant that summarizes tool outputs into a concise answer.";
     "Focus on clarity and readability."]
  ++ nl.

(** The transport is entered first; [self.session] is set before the
    session is entered and initialised, and stays set if that fails. *)
Definition connect : method unit :=
  self <- get ;;
  _ <- await (OpenTransport (base_url self)) ;;
  _ <- put (Self (base_url self) true) ;;
  await InitSession.

(** [type(v).__name__] *)
Definition type_name (v : value) : string :=
  match v with
  | PNone => "NoneType"
  | PBool _ => "bool"
  | PInt _ => "int"
  | PFloat _ => "float"
  | PStr _ => "str"
  | PList _ => "list"
  | PDict _ => "dict"
  | PObj _ _ => "object"
  end.

Definition attribute_error (v : value) (attr : string) : exn :=
  "'" ++ type_name v ++ "' object has no attribute '" ++ attr ++ "'".

(** [for step in plan]: the elements of a list, the characters of a
    str, the keys of a dict; nothing else of these values iterates. *)
Definition iterate (v : value) : exn + list value :=
  match v with
  | PList l => inr l
  | PStr s => inr (map (fun c => PStr (char c)) (list_ascii_of_string s))
  | PDict d => inr (map (fun kv => PStr (fst kv)) d)
  | _ => inl ("'" ++ type_name v ++ "' object is not iterable")
  end.

(** The dict comprehension of [run_query] keeps an argument when
    [v is not None and str(v).strip() != "" and str(v).lower() != "unknown"]. *)
Definition keep_arg (v : value) : bool :=
  match v with
  | PNone => false
  | _ =>
      negb (strip (str v) =? "")%string
      && negb (lower (str v) =? "unknown")%string
  end.

Definition clean_args (args : dict) : dict :=
  filter (fun kv => keep_arg (snd kv)) args.

(** A key of these values that a dict accepts. *)
Definition hashable (v : value) : bool :=
  match v with
  | PList _ | PDict _ => false
  | _ => true
  end.

(** The key [json.dumps] writes for a dict key. *)
Definition json_key (v : value) : option string :=
  match v with
  | PStr s => Some s
  | PInt n => Some (str_of_int n)
  | PBool true => Some "true"
  | PBool false => Some "false"
  | PFloat r => Some (float_text r)
  | PNone => Some "null"
  | _ => None
  end.

(** The step results: each [{tool: resp}] as the pair of its key and
    its value. *)
Definition results := list (value * value).

(** [results] as [json.dumps] sees it, when it accepts it. *)
Fixpoint results_value (rs : results) : option (list value) :=
  match rs with
  | [] => Some []
  | (t, r) :: rest =>
      match json_key t, results_value rest with
      | Some k, Some l =>
          if serializable r then Some (PDict [(k, r)] :: l) else None
      | _, _ => None
      end
  end.

(** What [run_query] returns: [{"error": ...}] or
    [{"plan": ..., "results": ..., "summary": ...}]. *)
Inductive run_result :=
| RunError (error : string)
| RunResult (plan : value) (rs : results) (summary : value).

(** The [messages] of [plan_tools]. *)
Definition plan_messages (user_query : string) : list message :=
  [Message "system" SYSTEM_PROMPT_PLAN; Message "user" user_query].

(** The [messages] of [summarize_results]; [rs] is the results list as
    [json.dumps] sees it. *)
Definition summary_messages (user_query : string) (plan : value)
           (rs : list value) : list message :=
  [Message "system" SYSTEM_PROMPT_SUMMARIZE;
   Message "user" ("Question:" ++ nl ++ user_query);
   Message "assistant" ("Plan:" ++ nl ++ encode (Some 2%nat) 0 plan);
   Message "assistant" ("Results:" ++ nl ++ encode (Some 2%nat) 0 (PList rs))].

Section Collaborators.
(** [json.loads]: the value, or the text of the JSONDecodeError. *)
Variable json_loads : string -> exn + value.
(** The model identifier read from the environment. *)
Variable GROQ_MODEL : string.

(** The loop of [invoke_tool] over [result.content]: the items that
    have a text, parsed as JSON where they parse. *)
Definition content_items (content : list content_item) : list value :=
  flat_map (fun item =>
              match item with
              | TextContent text =>
                  match json_loads text with
                  | inr v => [v]
                  | inl _ => [PStr text]
                  end
              | OtherContent => []
              end) content.

(** What [invoke_tool] returns once [call_tool] has returned. *)
Definition tool_reply (content : list content_item) : value :=
  match content with
  | [] => PDict [("error", PStr "No content in response")]
  | _ =>
      match content_items content with
      | [x] => x
      | items => PDict [("results", PList items)]
      end
  end.

Definition invoke_tool (tool_name : value) (args : dict) : method value :=
  try_except
    (self <- get ;;
     _ <- (if session self then ret tt else connect) ;;
     result <- await (CallTool tool_name args) ;;
     ret (tool_reply result))
    (fun e => ret (PDict [("error", PStr e)])).

Definition _call_groq (messages : list message) (temperature : Q)
           (max_tokens : Z) : method string :=
  try_except
    (await (ChatCompletion GROQ_MODEL messages temperature max_tokens))
    (fun e => ret (encode None 0 (PDict [("error", PStr e)]))).

Definition plan_tools (user_query : string) : method value :=
  content <- _call_groq (plan_messages user_query) (1 # 10) 2048 ;;
  match json_loads content with
  | inr (PDict plan) =>
      if dict_in "plan" plan then ret (PDict plan)
      else ret (PDict [("plan", PList [])])
  | inr _ => ret (PDict [("plan", PList [])])
  | inl _ => ret (PDict [("plan", PList [])])
  end.

Definition summarize_results (user_query : string) (plan : value)
           (rs : results) : method value :=
  match results_value rs with
  | Some l =>
      if serializable plan
      then
        summary <- _call_groq (summary_messages user_query plan l)
                              (3 # 10) 2048 ;;
        ret (PDict [("summary", PStr summary)])
      else raise "Object is not JSON serializable"
  | None => raise "Object is not JSON serializable"
  end.

(** One turn of the loop of [run_query]. *)
Definition run_step (step : value) (rs : results) : method results :=
  match step with
  | PDict d =>
      let tool := match dict_get "tool" d with Some v => v | None => PNone end in
      let args :=
        match dict_get "arguments" d with Some v => v | None => PDict [] end in
      match args with
      | PDict a =>
          let args := clean_args a in
          if negb (truthy tool) then ret rs
          else
            resp <- invoke_tool tool args ;;
            if hashable tool then ret (rs ++ [(tool, resp)])%list
            else raise ("unhashable type: '" ++ type_name tool ++ "'")
      | _ => raise (attribute_error args "items")
      end
  | _ => raise (attribute_error step "get")
  end.

Fixpoint run_steps (steps : list value) (rs : results) : method results :=
  match steps with
  | [] => ret rs
  | step :: rest =>
      rs' <- run_step step rs ;;
      run_steps rest rs'
  end.

Definition run_query (user_query : string) : method run_result :=
  plan_data <- plan_tools user_query ;;
  match plan_data with
  | PDict d =>
      let plan :=
        match dict_get "plan" d with Some v => v | None => PList [] end in
      if negb (truthy plan)
      then ret (RunError "LLM did not produce a valid tool plan.")
      else
        match iterate plan with
        | inr steps =>
            rs <- run_steps steps [] ;;
            summary <- summarize_results user_query plan rs ;;
            ret (RunResult plan rs summary)
        | inl e => raise e
        end
  | _ => raise (attribute_error plan_data "get")
  end.

End Collaborators.

End Client.

(** ** What the orchestrator is compared with *)

Module Plan.
Import PyStr Py Json Effects Client.

(** [step.get("tool")] of a step that is a dict. *)
Definition step_tool (step : value) : value :=
  match step with
  | PDict d => match dict_get "tool" d with Some v => v | None => PNone end
  | _ => PNone
  end.

(** [step.get("arguments", {})] of a step whose arguments are a dict. *)
Definition step_args (step : value) : dict :=
  match step with
  | PDict d => match dict_get "arguments" d with Some (PDict a) => a | _ => [] end
  | _ => []
  end.

(** A step of the shape the planner is asked for: an object whose
    [arguments], when present, are an object, and whose [tool], when
    present, is a scalar. *)
Definition well_formed_step (step : value) : bool :=
  match step with
  | PDict d =>
      match dict_get "arguments" d with
      | None | Some (PDict _) => true
      | Some _ => false
      end
      && match json_key (step_tool step) with Some _ => true | None => false end
  | _ => false
  end.

(** The executor calls a plan asks for, in plan order: one for each
    step whose tool name is not blank, with the cleaned arguments. *)
Definition executed_calls (steps : list value) : list (value * dict) :=
  map (fun step => (step_tool step, clean_args (step_args step)))
      (filter (fun step => truthy (step_tool step)) steps).

(** The text [_call_groq] returns for a reply of the API. *)
Definition completion_text (reply : exn + string) : string :=
  match reply with
  | inr content => content
  | inl e => encode None 0 (PDict [("error", PStr e)])
  end.

(** Whether a request is one to the LLM. *)
Definition is_chat (c : call clientE) : bool :=
  match request c with
  | ChatCompletion _ _ _ _ => true
  | _ => false
  end.

Section Sequence.
Variable json_loads : string -> exn + value.

(** [json.loads] returns plain JSON values, which [json.dumps]
    accepts. *)
Definition loads_plain : Prop :=
  forall s v, json_loads s = inr v -> serializable v = true.

Notation "x <- p ;; q" := (bind p (fun x => q))
  (at level 61, p at next level, right associativity).

(** [invoke_tool] on each call in turn, collecting what it returns. *)
Fixpoint invoke_each (calls : list (value * dict)) : method (list value) :=
  match calls with
  | [] => ret []
  | (tool, args) :: rest =>
      resp <- invoke_tool json_loads tool args ;;
      resps <- invoke_each rest ;;
      ret (resp :: resps)
  end.
End Sequence.

End Plan.

(** ** Collaborators to run the definitions against *)

Module Demo.
Import PyStr Py Json Effects.

(** A store with one flight: 6E 215 of 2024-06-23. *)
Definition flight : dict :=
  [("_id", PObj "665f1c2ab7e4" "ObjectId('665f1c2ab7e4')");
   ("_class", PStr "FlightLeg");
   ("flightLegState",
    PDict [("carrier", PStr "6E"); ("flightNumber", PInt 215);
           ("dateOfOrigin", PStr "2024-06-23")])].

Definition store : env Server.storeE unit :=
  fun X ev w =>
    match ev in Server.storeE X return X * unit with
    | Server.FindOne query _ =>
        (match dict_get "flightLegState.flightNumber" query with
         | Some (PInt 215) | None => inr (Some flight)
         | Some _ => inr None
         end, w)
    | Server.FindSortLimit _ _ _ _ => (inr [flight], w)
    end.

(** A store whose collection is empty. *)
Definition empty_store : env Server.storeE unit :=
  fun X ev w =>
    match ev in Server.storeE X return X * unit with
    | Server.FindOne _ _ => (inr None, w)
    | Server.FindSortLimit _ _ _ _ => (inr [], w)
    end.

(** A plan of four steps: the second one has no tool name, the third
    one fails in the executor, the last one has no arguments. *)
Definition steps : list value :=
  [PDict [("tool", PStr "get_flight_basic_info");
          ("arguments", PDict [("carrier", PStr "unknown");
                               ("flight_number", PStr "215")])];
   PDict [("tool", PStr "");
          ("arguments", PDict [("flight_number", PStr "215")])];
   PDict [("tool", PStr "get_delay_summary");
          ("arguments", PDict [("flight_number", PStr "215")])];
   PDict [("tool", PStr "get_fuel_summary")]].

Definition plan : value := PList steps.

(** The plan as the text of an LLM, and the answer of a lookup tool as
    the text of the server. *)
Definition plan_text : string := encode None 0 (PDict [("plan", plan)]).

Definition flight_text : string :=
  Server.response_ok (PDict (Server.strip_internal flight)).

(** A [json.loads] that knows these two texts. *)
Definition loads (s : string) : exn + value :=
  if (s =? plan_text)%string then inr (PDict [("plan", plan)])
  else if (s =? flight_text)%string
       then inr (PDict [("ok", PBool true);
                        ("data", PDict (Server.strip_internal flight))])
       else inl "Expecting value: line 1 column 1 (char 0)".

Definition self : Client.client := Client.Self "http://127.0.0.1:8000" true.

Definition model : string := "llama3-70b-8192".

Definition question : string := "Why was 6E 215 late on June 23, 2024?".

(** An LLM that answers the planner with [answer] and the summarizer
    with a sentence, and a session whose delay tool fails. *)
Definition world (answer : string) : env Client.clientE unit :=
  fun X ev w =>
    match ev in Client.clientE X return X * unit with
    | Client.OpenTransport _ => (inr tt, w)
    | Client.InitSession => (inr tt, w)
    | Client.CallTool name _ =>
        (match name with
         | PStr "get_delay_summary" => inl "Connection closed"
         | _ => inr [Client.TextContent flight_text]
         end, w)
    | Client.ChatCompletion _ messages _ _ =>
        (inr (if (List.length messages =? 2)%nat then answer
              else "Flight 6E 215 left on time."), w)
    end.

End Demo.

(** ** Texts the properties are stated on *)

Module Shapes.
Import PyStr PyDate Py.

(** Whether every character of [s] satisfies [p]. *)
Fixpoint all_chars (p : ascii -> bool) (s : string) : bool :=
  match s with
  | EmptyString => true
  | String c r => p c && all_chars p r
  end.

(** The characters a decimal integer literal can hold: a digit, a sign,
    an underscore, whitespace. *)
Definition int_char (c : ascii) : bool :=
  match digit_val c with
  | Some _ => true
  | None => (c =? "_")%char || (c =? "+")%char || (c =? "-")%char || is_space c
  end.

(** [calendar.month_name] and [calendar.month_abbr], as [%B] and [%b]
    print them. *)
Definition month_text (m : Z) : string :=
  match m with
  | 1 => "January" | 2 => "February" | 3 => "March" | 4 => "April"
  | 5 => "May" | 6 => "June" | 7 => "July" | 8 => "August"
  | 9 => "September" | 10 => "October" | 11 => "November"
  | 12 => "December" | _ => EmptyString
  end.

Definition month_abbr (m : Z) : string :=
  match m with
  | 1 => "Jan" | 2 => "Feb" | 3 => "Mar" | 4 => "Apr" | 5 => "May"
  | 6 => "Jun" | 7 => "Jul" | 8 => "Aug" | 9 => "Sep" | 10 => "Oct"
  | 11 => "Nov" | 12 => "Dec" | _ => EmptyString
  end.

(** The eight ways of writing a date that [validate_date] lists, in the
    order of its formats. *)
Inductive style :=
| YmdDash | DmyDash | YmdSlash | DmySlash
| MonthDayYear | DayMonthYear | AbbrDayYear | DayAbbrYear.

Definition style_format (st : style) : string :=
  match st with
  | YmdDash => "%Y-%m-%d"
  | DmyDash => "%d-%m-%Y"
  | YmdSlash => "%Y/%m/%d"
  | DmySlash => "%d/%m/%Y"
  | MonthDayYear => "%B %d, %Y"
  | DayMonthYear => "%d %B %Y"
  | AbbrDayYear => "%b %d, %Y"
  | DayAbbrYear => "%d %b %Y"
  end.

(** [dt.strftime(style_format st)], days and months on two digits. *)
Definition render (st : style) (dt : date) : string :=
  let y := pad4 (year dt) in
  let m := pad2 (month dt) in
  let d := pad2 (day dt) in
  match st with
  | YmdDash => y ++ "-" ++ m ++ "-" ++ d
  | DmyDash => d ++ "-" ++ m ++ "-" ++ y
  | YmdSlash => y ++ "/" ++ m ++ "/" ++ d
  | DmySlash => d ++ "/" ++ m ++ "/" ++ y
  | MonthDayYear => month_text (month dt) ++ " " ++ d ++ ", " ++ y
  | DayMonthYear => d ++ " " ++ month_text (month dt) ++ " " ++ y
  | AbbrDayYear => month_abbr (month dt) ++ " " ++ d ++ ", " ++ y
  | DayAbbrYear => d ++ " " ++ month_abbr (month dt) ++ " " ++ y
  end.

(** A character that is neither whitespace nor a sign. *)
Definition plain (c : ascii) : bool :=
  negb (is_space c) && negb (c =? "+")%char && negb (c =? "-")%char.

(** The name of a month as a format prints it, in full or abbreviated,
    with the group and the directive that read it. *)
Definition month_word (full : bool) (m : Z) : string :=
  if full then month_text m else month_abbr m.

Definition month_group (full : bool) : list string :=
  if full then month_names else month_abbrs.

Definition month_dir (full : bool) : directive := if full then DB else Db.

(** Whether [s] holds four digits in a row somewhere, and whether an
    item of a pattern is the year. *)
Fixpoint has_year (s : string) : bool :=
  match s with
  | EmptyString => false
  | String _ r => match group_Y s with [] => has_year r | _ => true end
  end.

Definition is_year (it : item) : bool :=
  match it with Dir DY => true | _ => false end.

End Shapes.

(** ** Plans and servers that fail *)

Module Faults.
Import PyStr Py Json Effects Client Plan.

(** The exception the loop of [run_query] raises on a step, if any: a
    step that is no dict has no [get], arguments that are no dict have
    no [items]. *)
Definition malformed (step : value) : option exn :=
  match step with
  | PDict d =>
      match dict_get "arguments" d with
      | None | Some (PDict _) => None
      | Some a => Some (attribute_error a "items")
      end
  | _ => Some (attribute_error step "get")
  end.

(** The exception of [run_query] on a plan that is not a list. *)
Definition plan_error (plan : value) : exn :=
  match plan with
  | PStr _ | PDict _ => attribute_error (PStr "") "get"
  | _ => "'" ++ type_name plan ++ "' object is not iterable"
  end.

(** A plan that is the name of a tool, and a plan whose second step is
    the name of a tool. *)
Definition name_plan : value := PStr "get_flight_basic_info".

Definition name_plan_text : string :=
  encode None 0 (PDict [("plan", name_plan)]).

Definition mixed_steps : list value :=
  [PDict [("tool", PStr "get_flight_basic_info");
          ("arguments", PDict [("flight_number", PStr "215")])];
   PStr "get_delay_summary";
   PDict [("tool", PStr "get_fuel_summary")]].

Definition mixed_plan_text : string :=
  encode None 0 (PDict [("plan", PList mixed_steps)]).

(** A filter of the raw-query tool. *)
Definition carrier_filter : value :=
  PDict [("flightLegState.carrier", PStr "6E")].

Definition carrier_filter_text : string := encode None 0 carrier_filter.

(** A [json.loads] that knows these texts and those of [Demo]. *)
Definition loads (s : string) : exn + value :=
  if (s =? name_plan_text)%string then inr (PDict [("plan", name_plan)])
  else if (s =? carrier_filter_text)%string then inr carrier_filter
  else if (s =? mixed_plan_text)%string
       then inr (PDict [("plan", PList mixed_steps)])
       else Demo.loads s.

(** A server that accepts the connection and fails the handshake, and
    a server that is down. The LLM is the one of [Demo]. *)
Definition half_open (answer : string) : env clientE unit :=
  fun X ev w =>
    match ev in clientE X return X * unit with
    | OpenTransport _ => (inr tt, w)
    | InitSession => (inl "Session terminated", w)
    | CallTool _ _ => (inl "Connection closed", w)
    | ChatCompletion m messages t n =>
        Demo.world answer _ (ChatCompletion m messages t n) w
    end.

Definition unreachable (answer : string) : env clientE unit :=
  fun X ev w =>
    match ev in clientE X return X * unit with
    | OpenTransport _ => (inl "All connection attempts failed", w)
    | InitSession => (inl "Session terminated", w)
    | CallTool _ _ => (inl "Connection closed", w)
    | ChatCompletion m messages t n =>
        Demo.world answer _ (ChatCompletion m messages t n) w
    end.

End Faults.

(** * Properties *)

(** ** Running a computation *)

Section Exec.
Import Effects.
Context {E : Type -> Type} {A W : Type}.

Lemma exec_vis (h : env E W) (X : Type) (ev : E X) (k : X -> prog E A)
      (w w1 : W) (x : X) :
  h X ev w = (x, w1) ->
  exec h (Vis ev k) w
  = (fst (fst (exec h (k x) w1)), snd (fst (exec h (k x) w1)),
     Call ev :: snd (exec h (k x) w1)).
Proof.
  intros Hh. simpl. rewrite Hh.
  destruct (exec h (k x) w1) as [[a w2] tr]. reflexivity.
Qed.

End Exec.

(** ** Dicts *)

Section Dicts.
Import Py.

Lemma dict_get_pop_same (k : string) (d : dict) :
  dict_get k (dict_pop k d) = None.
Proof.
  induction d as [|[k' v] r IH]; simpl; [reflexivity|].
  destruct (String.eqb k' k) eqn:Hk; [exact IH|].
  simpl. rewrite Hk. exact IH.
Qed.

Lemma dict_get_pop_other (k k0 : string) (d : dict) :
  k0 <> k -> dict_get k0 (dict_pop k d) = dict_get k0 d.
Proof.
  intros Hne. induction d as [|[k' v] r IH]; simpl; [reflexivity|].
  destruct (String.eqb k' k) eqn:Hk.
  - apply String.eqb_eq in Hk. subst k'.
    destruct (String.eqb k k0) eqn:Hk0; [|exact IH].
    apply String.eqb_eq in Hk0. congruence.
  - simpl. rewrite IH. reflexivity.
Qed.

Lemma dict_in_pop_same (k : string) (d : dict) :
  dict_in k (dict_pop k d) = false.
Proof. unfold dict_in. rewrite dict_get_pop_same. reflexivity. Qed.

Lemma dict_in_get (k : string) (d : dict) :
  dict_in k d = false -> dict_get k d = None.
Proof. unfold dict_in. destruct (dict_get k d); [discriminate|reflexivity]. Qed.

End Dicts.

(** ** The server's fetch contract *)

Section ServerProperties.
Import PyStr PyDate Py Json Effects Server.
Context {W : Type}.
Variable h : env storeE W.

Lemma strip_internal_no_id (doc : dict) :
  dict_get "_id" (strip_internal doc) = None.
Proof.
  unfold strip_internal.
  destruct (dict_in "_id" doc) eqn:Hid.
  - destruct (dict_in "_class" (dict_pop "_id" doc)).
    + rewrite dict_get_pop_other by discriminate. apply dict_get_pop_same.
    + apply dict_get_pop_same.
  - destruct (dict_in "_class" doc).
    + rewrite dict_get_pop_other by discriminate. apply dict_in_get, Hid.
    + apply dict_in_get, Hid.
Qed.

Lemma strip_internal_no_class (doc : dict) :
  dict_get "_class" (strip_internal doc) = None.
Proof.
  unfold strip_internal.
  set (d1 := if dict_in "_id" doc then dict_pop "_id" doc else doc).
  destruct (dict_in "_class" d1) eqn:Hc.
  - apply dict_get_pop_same.
  - apply dict_in_get, Hc.
Qed.

Lemma strip_internal_keeps (doc : dict) (k : string) :
  k <> "_id" -> k <> "_class" ->
  dict_get k (strip_internal doc) = dict_get k doc.
Proof.
  intros H1 H2. unfold strip_internal.
  destruct (dict_in "_id" doc);
    match goal with
    | |- context [if ?b then _ else _] => destruct b
    end;
    rewrite ?dict_get_pop_other by assumption; reflexivity.
Qed.

(** [_fetch_one_async] makes one [find_one] and maps its reply. *)
Lemma fetch_one_exec (query projection : dict) (g : globals) (w w1 : W)
      (reply : exn + option dict) :
  h _ (FindOne query projection) w = (reply, w1) ->
  exec h (_fetch_one_async query projection g) w
  = ((Ok match reply with
         | inl exc => response_error ("DB query failed: " ++ exc) 500
         | inr None | inr (Some []) =>
             response_error "No matching document found." 404
         | inr (Some doc) => response_ok (PDict (strip_internal doc))
         end, Globals true), w1, [Call (FindOne query projection)]).
Proof.
  intros Hh. destruct g as [[|]];
    cbv beta iota zeta delta
        [_fetch_one_async try_except bind get_mongodb_client get put ret
         await pbind fst snd _mongo_client];
    rewrite (exec_vis h _ _ _ w w1 reply Hh);
    destruct reply as [exc|[[|b doc]|]]; reflexivity.
Qed.

Lemma response_ok_not_error (data : value) (msg : string) (code : Z) :
  response_ok data <> response_error msg code.
Proof.
  unfold response_ok, response_error. cbn. intros H.
  injection H as H. discriminate H.
Qed.

(** A tool that does not check the date fetches with whatever
    [validate_date] returned. *)
Lemma unchecked_lookup_fetches (t : lookup_tool)
      (carrier flight_number date_of_origin : string) :
  checks_date t = false ->
  lookup t carrier flight_number date_of_origin
  = _fetch_one_async
      (make_query carrier (fn_of flight_number) (dob_of date_of_origin))
      (projection_of t).
Proof. destruct t; intros Hc; try discriminate Hc; reflexivity. Qed.

(** Such a tool, given a date no format accepts, fetches with no
    constraint on the date. *)
Lemma unchecked_lookup_drops_bad_date (t : lookup_tool)
      (carrier flight_number date_of_origin : string) :
  checks_date t = false ->
  validate_date date_of_origin = None ->
  lookup t carrier flight_number date_of_origin
  = _fetch_one_async (make_query carrier (fn_of flight_number) None)
                     (projection_of t).
Proof.
  intros Hc Hv. rewrite unchecked_lookup_fetches by exact Hc.
  unfold dob_of. rewrite Hv.
  destruct (truthy (PStr date_of_origin)); reflexivity.
Qed.

Lemma dob_of_truthy (date_of_origin d : string) :
  dob_of date_of_origin = Some d -> truthy (PStr d) = true.
Proof.
  unfold dob_of, validate_date.
  destruct (truthy (PStr date_of_origin)); [|discriminate].
  destruct (String.eqb date_of_origin ""); [discriminate|].
  generalize formats. intros fmts. induction fmts as [|fmt rest IH]; simpl.
  - discriminate.
  - destruct (strptime date_of_origin fmt) as [dt|]; [|exact IH].
    intros H. injection H as <-. cbn [truthy]. unfold strftime_Y_m_d.
    destruct (str_of_int (year dt)); reflexivity.
Qed.

(** X6. A tool that checks the date answers 400 and asks the store
    nothing when a date is given and does not parse. *)
Lemma checked_lookup_rejects (t : lookup_tool)
      (carrier flight_number date_of_origin : string) (g : globals) (w : W) :
  checks_date t = true ->
  date_of_origin <> "" ->
  validate_date date_of_origin = None ->
  exists msg,
    msg <> "" /\
    exec h (lookup t carrier flight_number date_of_origin g) w
    = ((Ok (response_error msg 400), g), w, []).
Proof.
  intros Hc Hne Hv.
  assert (Hr : rejected date_of_origin (dob_of date_of_origin) = true).
  { unfold rejected, dob_of.
    assert (Ht : truthy (PStr date_of_origin) = true).
    { simpl. apply Bool.negb_true_iff, String.eqb_neq, Hne. }
    rewrite Ht, Hv. reflexivity. }
  destruct t; try discriminate Hc; simpl;
    unfold get_flight_basic_info, get_operation_times; rewrite Hr;
    eexists; (split; [|reflexivity]); discriminate.
Qed.

(** C1, at an input where it fails. [get_equipment_info] with the date
    23-13-2024, which no format accepts, asks the store for a document
    of carrier 6E and flight 215 of any date, where the claim has a
    400-class error and no fetch; [get_flight_basic_info] on the same
    arguments does answer 400 without a fetch. *)
Theorem equipment_info_fetches_on_bad_date (g : globals) (w : W) :
  validate_date "23-13-2024" = None
  /\ snd (exec h (get_equipment_info "6E" "215" "23-13-2024" g) w)
     = [Call (FindOne [("flightLegState.carrier", PStr "6E");
                       ("flightLegState.flightNumber", PInt 215)]
                      equipment_projection)]
  /\ exec h (get_flight_basic_info "6E" "215" "23-13-2024" g) w
     = ((Ok (response_error
               "Invalid date_of_origin format. Expected YYYY-MM-DD or common date formats"
               400), g), w, []).
Proof.
  assert (Hv : validate_date "23-13-2024" = None) by (vm_compute; reflexivity).
  split; [exact Hv|]. split.
  - destruct (h _ (FindOne (make_query "6E" (fn_of "215") (dob_of "23-13-2024"))
                           equipment_projection) w) as [reply w1] eqn:Hh.
    unfold get_equipment_info. rewrite (fetch_one_exec _ _ g w w1 reply Hh).
    reflexivity.
  - reflexivity.
Qed.

(** C6. Every single-document lookup tool that reaches its fetch makes
    one [find_one] with the query it built and its own projection. No
    document gives the 404 error "No matching document found."; an
    exception of the store gives a 500 error whose message ends with
    the cause; a document gives the Ok response with the document
    without [_id] and [_class], its other fields untouched. *)
Theorem lookup_fetch_outcome (t : lookup_tool)
        (carrier flight_number date_of_origin : string) (g : globals)
        (w w1 : W) (reply : exn + option dict) :
  checks_date t && rejected date_of_origin (dob_of date_of_origin) = false ->
  h _ (FindOne (make_query carrier (fn_of flight_number)
                           (dob_of date_of_origin))
               (projection_of t)) w = (reply, w1) ->
  exists out,
    exec h (lookup t carrier flight_number date_of_origin g) w
    = ((Ok out, Globals true), w1,
       [Call (FindOne (make_query carrier (fn_of flight_number)
                                  (dob_of date_of_origin))
                      (projection_of t))])
    /\ (reply = inr None ->
        out = response_error "No matching document found." 404)
    /\ (forall cause, reply = inl cause ->
        out = response_error ("DB query failed: " ++ cause) 500)
    /\ (forall doc, reply = inr (Some doc) -> doc <> [] ->
        out = response_ok (PDict (strip_internal doc))
        /\ dict_get "_id" (strip_internal doc) = None
        /\ dict_get "_class" (strip_internal doc) = None
        /\ forall k, k <> "_id" -> k <> "_class" ->
                     dict_get k (strip_internal doc) = dict_get k doc).
Proof.
  intros Hguard Hh.
  assert (Hl : lookup t carrier flight_number date_of_origin
               = _fetch_one_async
                   (make_query carrier (fn_of flight_number)
                               (dob_of date_of_origin))
                   (projection_of t)).
  { destruct t; simpl in Hguard; simpl;
      unfold get_flight_basic_info, get_operation_times;
      rewrite ?Hguard; reflexivity. }
  rewrite Hl, (fetch_one_exec _ _ g w w1 reply Hh).
  eexists. split; [reflexivity|]. repeat split.
  - intros ->. reflexivity.
  - intros cause ->. reflexivity.
  - subst reply. destruct doc; [congruence|reflexivity].
  - apply strip_internal_no_id.
  - apply strip_internal_no_class.
  - apply strip_internal_keeps; assumption.
Qed.

(** C10. [health_check] makes one [find_one] of any document. When the
    probe returns and finds none, the answer is the Ok response with
    [db_connected] false; the answer is the 503 error "DB unreachable"
    exactly when the probe raises. *)
Theorem health_check_outcome (g : globals) (w w1 : W)
        (reply : exn + option dict) :
  h _ (FindOne [] [("_id", PInt 1)]) w = (reply, w1) ->
  exists out,
    exec h (health_check g) w
    = ((Ok out, Globals true), w1, [Call (FindOne [] [("_id", PInt 1)])])
    /\ (reply = inr None ->
        out = response_ok (PDict [("status", PStr "ok");
                                  ("db_connected", PBool false)]))
    /\ (forall doc, reply = inr (Some doc) ->
        out = response_ok (PDict [("status", PStr "ok");
                                  ("db_connected", PBool true)]))
    /\ (out = response_error "DB unreachable" 503
        <-> exists e, reply = inl e).
Proof.
  intros Hh.
  destruct g as [[|]];
    cbv beta iota zeta delta
        [health_check try_except bind get_mongodb_client get put ret await
         pbind fst snd _mongo_client];
    rewrite (exec_vis h _ _ _ w w1 reply Hh);
    destruct reply as [e|[doc|]]; cbn [exec fst snd];
    eexists; (split; [reflexivity|]);
    (split; [intros H; first [discriminate H | reflexivity]|]);
    (split; [intros doc' H; first [discriminate H | reflexivity]|]);
    (split;
     [ intros H;
       first [ eexists; reflexivity
             | exfalso; exact (response_ok_not_error _ _ _ H) ]
     | intros [e' H]; first [discriminate H | reflexivity] ]).
Qed.

End ServerProperties.

(** ** The raw-query tool *)

Section RawQueryProperties.
Import PyStr Py Json Effects Server.
Context {W : Type}.
Variable h : env storeE W.
Variable json_loads : string -> exn + value.

Lemma append_assoc (a b c : string) : (a ++ b) ++ c = a ++ (b ++ c).
Proof. induction a as [|x a IH]; simpl; [reflexivity|]. now rewrite IH. Qed.

(** [raw_mongodb_query] on a filter that parses makes one [find] with
    the clamped limit and maps its reply. *)
Lemma raw_query_exec (query_json : string) (limit : Z) (g : globals)
      (w w1 : W) (query : value) (reply : exn + list dict) :
  json_loads query_json = inr query ->
  h _ (FindSortLimit query "flightLegState.dateOfOrigin" (-1)
                     (Z.min (Z.max 1 limit) 50)) w = (reply, w1) ->
  exec h (raw_mongodb_query json_loads query_json limit g) w
  = ((Ok match reply with
         | inl exc => response_error ("raw query failed: " ++ exc) 500
         | inr cursor =>
             match map strip_internal cursor with
             | [] => response_error "No documents found for given query." 404
             | docs =>
                 response_ok
                   (PDict [("count", PInt (Z.of_nat (List.length docs)));
                           ("documents", PList (map PDict docs))])
             end
         end, Globals true), w1,
     [Call (FindSortLimit query "flightLegState.dateOfOrigin" (-1)
                          (Z.min (Z.max 1 limit) 50))]).
Proof.
  intros Hj Hh. destruct g as [[|]];
    cbv beta iota zeta delta
        [raw_mongodb_query try_except bind get_mongodb_client get put ret
         await pbind fst snd _mongo_client];
    rewrite Hj; cbv beta iota zeta delta [pbind fst snd];
    rewrite (exec_vis h _ _ _ w w1 reply Hh);
    destruct reply as [exc|cursor]; cbn [exec fst snd pbind];
    try reflexivity;
    destruct (map strip_internal cursor); reflexivity.
Qed.


End RawQueryProperties.

(** ** Dates: what [strftime] prints and the first format reads back *)

Section DateProperties.
Import PyStr PyDate Server.

Lemma digit_val_char (k : Z) :
  0 <= k <= 9 -> digit_val (digit_char k) = Some k.
Proof.
  intros Hk.
  assert (Hc : k = 0 \/ k = 1 \/ k = 2 \/ k = 3 \/ k = 4 \/ k = 5 \/ k = 6
               \/ k = 7 \/ k = 8 \/ k = 9) by lia.
  repeat (destruct Hc as [->|Hc]; [reflexivity|]). subst k. reflexivity.
Qed.

Lemma group_Y_pad4 (y : Z) (rest : string) :
  0 <= y <= 9999 -> group_Y (pad4 y ++ rest) = [(y, rest)].
Proof.
  intros Hy. unfold pad4, group_Y. cbn [append].
  rewrite !digit_val_char by (Z.div_mod_to_equations; lia).
  f_equal. f_equal. Z.div_mod_to_equations. lia.
Qed.

Lemma group_m_pad2 (m : Z) (rest : string) :
  1 <= m <= 12 -> hd_error (group_m (pad2 m ++ rest)) = Some (m, rest).
Proof.
  intros Hm.
  assert (Hc : m = 1 \/ m = 2 \/ m = 3 \/ m = 4 \/ m = 5 \/ m = 6 \/ m = 7
               \/ m = 8 \/ m = 9 \/ m = 10 \/ m = 11 \/ m = 12) by lia.
  repeat (destruct Hc as [->|Hc]; [reflexivity|]). subst m. reflexivity.
Qed.

Lemma group_d_pad2 (d : Z) (rest : string) :
  1 <= d <= 31 -> hd_error (group_d (pad2 d ++ rest)) = Some (d, rest).
Proof.
  intros Hd.
  assert (Hc : d = 1 \/ d = 2 \/ d = 3 \/ d = 4 \/ d = 5 \/ d = 6 \/ d = 7
               \/ d = 8 \/ d = 9 \/ d = 10 \/ d = 11 \/ d = 12 \/ d = 13
               \/ d = 14 \/ d = 15 \/ d = 16 \/ d = 17 \/ d = 18 \/ d = 19
               \/ d = 20 \/ d = 21 \/ d = 22 \/ d = 23 \/ d = 24 \/ d = 25
               \/ d = 26 \/ d = 27 \/ d = 28 \/ d = 29 \/ d = 30 \/ d = 31)
    by lia.
  repeat (destruct Hc as [->|Hc]; [reflexivity|]). subst d. reflexivity.
Qed.

Lemma hd_error_map {A B : Type} (f : A -> B) (l : list A) (a : A) :
  hd_error l = Some a -> hd_error (map f l) = Some (f a).
Proof. destruct l; simpl; [discriminate|]. now intros [= ->]. Qed.

(** The matcher commits to the first way an item matches whenever the
    rest of the pattern matches after it. *)
Lemma match_items_first (it : item) (rest : list item) (s s1 : string)
      (dt dt1 : date) (r : date * string) :
  hd_error (match_item it s dt) = Some (dt1, s1) ->
  hd_error (match_items rest s1 dt1) = Some r ->
  hd_error (match_items (it :: rest) s dt) = Some r.
Proof.
  intros H1 H2. cbn [match_items].
  destruct (match_item it s dt) as [|p l]; [discriminate|].
  injection H1 as ->. cbn [flat_map fst snd].
  destruct (match_items rest s1 dt1) as [|r' l']; [discriminate|].
  exact H2.
Qed.

Lemma days_in_month_le (y m : Z) : days_in_month y m <= 31.
Proof.
  unfold days_in_month.
  repeat match goal with
         | |- context [match ?x with _ => _ end] => destruct x
         end; lia.
Qed.

Lemma valid_date_bounds (dt : date) :
  valid_date dt = true ->
  1 <= year dt <= 9999 /\ 1 <= month dt <= 12 /\ 1 <= day dt <= 31.
Proof.
  unfold valid_date. intros H.
  repeat (apply andb_prop in H; destruct H as [H ?]).
  pose proof (days_in_month_le (year dt) (month dt)). lia.
Qed.

Lemma strptime_of_first (its : list item) (s fmt : string) (dt : date) :
  compile fmt = Some its ->
  hd_error (match_items its s init) = Some (dt, EmptyString) ->
  valid_date dt = true ->
  strptime s fmt = Some dt.
Proof.
  intros Hc Hh Hv. unfold strptime. rewrite Hc.
  destruct (match_items its s init) as [|[dt' rest] l]; [discriminate|].
  injection Hh as -> ->. rewrite Hv. reflexivity.
Qed.

(** A year of four digits is printed as these digits. *)
Lemma str_of_int_pad4 (y : Z) : 1000 <= y <= 9999 -> str_of_int y = pad4 y.
Proof.
  intros Hy. unfold str_of_int.
  replace (y <? 0) with false by (symmetry; apply Z.ltb_ge; lia).
  rewrite Z.abs_eq by lia.
  assert (Hf : exists f, Z.to_nat (Z.log2 y) = S (S (S f))).
  { assert (9 <= Z.log2 y)
      by (change 9 with (Z.log2 512); apply Z.log2_le_mono; lia).
    exists (Z.to_nat (Z.log2 y) - 3)%nat. lia. }
  destruct Hf as [f ->]. cbn [digits_of].
  replace (y / 10 =? 0) with false
    by (symmetry; apply Z.eqb_neq; Z.div_mod_to_equations; lia).
  replace (y / 10 / 10 =? 0) with false
    by (symmetry; apply Z.eqb_neq; Z.div_mod_to_equations; lia).
  replace (y / 10 / 10 / 10 =? 0) with false
    by (symmetry; apply Z.eqb_neq; Z.div_mod_to_equations; lia).
  replace (y / 10 / 10 / 10 / 10 =? 0) with true
    by (symmetry; apply Z.eqb_eq; Z.div_mod_to_equations; lia).
  rewrite !Z.div_div by lia. reflexivity.
Qed.

(** The text printed for a date the calendar has, of a year from 1000
    on, parses under the first format of the server to that date. *)
Lemma strptime_strftime (dt : date) :
  valid_date dt = true -> 1000 <= year dt ->
  strptime (strftime_Y_m_d dt) "%Y-%m-%d" = Some dt.
Proof.
  intros Hv H4. destruct (valid_date_bounds dt Hv) as (Hy & Hm & Hd).
  assert (Hhd : hd_error
                  (match_items [Dir DY; Lit "-"; Dir Dm; Lit "-"; Dir Dd]
                               (strftime_Y_m_d dt) init)
                = Some (dt, EmptyString)).
  { unfold strftime_Y_m_d. rewrite str_of_int_pad4 by lia.
    apply match_items_first
      with (dt1 := set_year init (year dt))
           (s1 := "-" ++ pad2 (month dt) ++ "-" ++ pad2 (day dt)).
    { cbn [match_item]. rewrite group_Y_pad4 by lia. reflexivity. }
    apply match_items_first
      with (dt1 := set_year init (year dt))
           (s1 := pad2 (month dt) ++ "-" ++ pad2 (day dt));
      [reflexivity|].
    apply match_items_first
      with (dt1 := set_month (set_year init (year dt)) (month dt))
           (s1 := "-" ++ pad2 (day dt)).
    { cbn [match_item].
      rewrite (hd_error_map _ _ _ (group_m_pad2 _ _ Hm)). reflexivity. }
    apply match_items_first
      with (dt1 := set_month (set_year init (year dt)) (month dt))
           (s1 := pad2 (day dt) ++ EmptyString);
      [reflexivity|].
    apply match_items_first
      with (dt1 := set_day (set_month (set_year init (year dt)) (month dt))
                           (day dt))
           (s1 := EmptyString).
    { cbn [match_item].
      rewrite (hd_error_map _ _ _ (group_d_pad2 _ _ Hd)). reflexivity. }
    destruct dt; reflexivity. }
  apply strptime_of_first
    with (its := [Dir DY; Lit "-"; Dir Dm; Lit "-"; Dir Dd]);
    [reflexivity|exact Hhd|exact Hv].
Qed.

Lemma strptime_valid (s fmt : string) (dt : date) :
  strptime s fmt = Some dt -> valid_date dt = true.
Proof.
  unfold strptime. destruct (compile fmt) as [its|]; [|discriminate].
  destruct (match_items its s init) as [|[dt' rest] l]; [discriminate|].
  destruct rest; [|discriminate].
  destruct (valid_date dt') eqn:Hv; [|discriminate].
  now intros [= <-].
Qed.

Lemma first_parse_some (fmts : list string) (date_str r : string) :
  first_parse fmts date_str = Some r ->
  exists dt, valid_date dt = true /\ r = strftime_Y_m_d dt.
Proof.
  induction fmts as [|fmt rest IH]; simpl; [discriminate|].
  destruct (strptime date_str fmt) as [dt|] eqn:Hp; [|exact IH].
  intros [= <-]. exists dt. split; [|reflexivity].
  exact (strptime_valid _ _ _ Hp).
Qed.

(** C8, at an input where it fails. The date 0999-01-05 is in the
    first accepted format; [validate_date] returns for it the text
    999-01-05, of nine characters, the year printed without padding,
    and does not accept that text: applied to its own output it
    returns None, where the claim has the output returned again. *)
Theorem validate_date_output_is_rejected :
  validate_date "0999-01-05" = Some "999-01-05"
  /\ validate_date "999-01-05" = None.
Proof. split; vm_compute; reflexivity. Qed.

End DateProperties.

(** ** Sequencing *)

Section ExecBind.
Import Effects.
Context {E : Type -> Type} {W : Type}.
Variable h : env E W.

Lemma exec_pbind {A B : Type} (p : prog E A) (f : A -> prog E B) (w : W) :
  exec h (pbind p f) w
  = (fst (fst (exec h (f (fst (fst (exec h p w)))) (snd (fst (exec h p w))))),
     snd (fst (exec h (f (fst (fst (exec h p w)))) (snd (fst (exec h p w))))),
     (snd (exec h p w)
      ++ snd (exec h (f (fst (fst (exec h p w)))) (snd (fst (exec h p w)))))%list).
Proof.
  revert w. induction p as [a|X ev k IH]; intros w.
  - cbn. destruct (exec h (f a) w) as [[b w2] tr2]. reflexivity.
  - cbn. destruct (h X ev w) as [x w1]. rewrite IH.
    destruct (exec h (k x) w1) as [[a w2] tr1]. cbn.
    destruct (exec h (f a) w2) as [[b w3] tr2]. reflexivity.
Qed.

Context {S : Type}.

Lemma exec_bind_ok {A B : Type} (p : py E S A) (f : A -> py E S B)
      (s s1 : S) (w w1 w2 : W) (a : A) (r : outcome B * S)
      (tr1 tr2 tr : list (call E)) :
  exec h (p s) w = ((Ok a, s1), w1, tr1) ->
  exec h (f a s1) w1 = (r, w2, tr2) ->
  tr = (tr1 ++ tr2)%list ->
  exec h (bind p f s) w = (r, w2, tr).
Proof.
  intros H1 H2 ->. unfold bind. rewrite exec_pbind, H1. cbn. rewrite H2.
  reflexivity.
Qed.

Lemma exec_bind_raise {A B : Type} (p : py E S A) (f : A -> py E S B)
      (s s1 : S) (w w1 : W) (e : exn) (tr1 : list (call E)) :
  exec h (p s) w = ((Raise e, s1), w1, tr1) ->
  exec h (bind p f s) w = ((Raise e, s1), w1, tr1).
Proof.
  intros H1. unfold bind. rewrite exec_pbind, H1. cbn.
  rewrite app_nil_r. reflexivity.
Qed.

Lemma exec_try_ok {A : Type} (p : py E S A) (hd : exn -> py E S A)
      (s s1 : S) (w w1 : W) (a : A) (tr1 : list (call E)) :
  exec h (p s) w = ((Ok a, s1), w1, tr1) ->
  exec h (try_except p hd s) w = ((Ok a, s1), w1, tr1).
Proof.
  intros H1. unfold try_except. rewrite exec_pbind, H1. cbn.
  rewrite app_nil_r. reflexivity.
Qed.

Lemma exec_try_raise {A : Type} (p : py E S A) (hd : exn -> py E S A)
      (s s1 : S) (w w1 w2 : W) (e : exn) (r : outcome A * S)
      (tr1 tr2 tr : list (call E)) :
  exec h (p s) w = ((Raise e, s1), w1, tr1) ->
  exec h (hd e s1) w1 = (r, w2, tr2) ->
  tr = (tr1 ++ tr2)%list ->
  exec h (try_except p hd s) w = (r, w2, tr).
Proof.
  intros H1 H2 ->. unfold try_except. rewrite exec_pbind, H1. cbn.
  rewrite H2. reflexivity.
Qed.

Lemma exec_await {X : Type} (ev : E (exn + X)%type) (s : S) (w w1 : W)
      (reply : exn + X) :
  h _ ev w = (reply, w1) ->
  exec h (await ev s) w
  = ((match reply with inl e => Raise e | inr x => Ok x end, s), w1,
     [Call ev]).
Proof.
  intros Hh. unfold await. rewrite (exec_vis h _ _ _ w w1 reply Hh).
  destruct reply; reflexivity.
Qed.

End ExecBind.

(** ** The catalog and the cleaning of arguments *)

Section CatalogProperties.
Import PyStr Py Json Effects ToolRegistry Client.

(** C3, where it fails. The catalog has the basic-info, equipment,
    operation-times, fuel, delay, health-check and raw-query tools, in
    that order, and no entry for [get_passenger_info] nor for
    [get_crew_info], which the server registers. *)
Theorem catalog_lacks_passenger_and_crew :
  map fst TOOLS
  = ["get_flight_basic_info"; "get_equipment_info"; "get_operation_times";
     "get_fuel_summary"; "get_delay_summary"; "health_check";
     "raw_mongodb_query"]
  /\ has_tool (Server.lookup_name Server.PassengerInfo) TOOLS = false
  /\ has_tool (Server.lookup_name Server.CrewInfo) TOOLS = false
  /\ Server.lookup_name Server.PassengerInfo = "get_passenger_info"
  /\ Server.lookup_name Server.CrewInfo = "get_crew_info".
Proof. repeat split. Qed.

(** Every argument the cleaning keeps is not None, is not blank once
    trimmed, and is not the word unknown once lowercased. *)
Lemma clean_args_kept (args : dict) (k : string) (v : value) :
  In (k, v) (clean_args args) ->
  In (k, v) args /\ v <> PNone /\ strip (str v) <> ""
  /\ lower (str v) <> "unknown".
Proof.
  unfold clean_args. rewrite filter_In. cbn [snd]. intros [Hin Hk].
  split; [exact Hin|].
  destruct v; try discriminate Hk; (split; [discriminate|]);
    cbn [keep_arg] in Hk; apply andb_prop in Hk; destruct Hk as [H1 H2];
    apply Bool.negb_true_iff in H1, H2;
    apply String.eqb_neq in H1, H2; split; assumption.
Qed.

(** An argument that is None, blank once trimmed, or the word unknown
    in any case is not among the cleaned arguments. *)
Lemma clean_args_drops (args : dict) (k : string) (v : value) :
  v = PNone \/ strip (str v) = "" \/ lower (str v) = "unknown" ->
  ~ In (k, v) (clean_args args).
Proof.
  intros Hv Hin. apply clean_args_kept in Hin.
  destruct Hin as (_ & H0 & H1 & H2). destruct Hv as [?|[?|?]]; congruence.
Qed.

(** C2, where it fails. The value [" unknown "] is the word unknown
    once trimmed and lowercased, but the cleaning lowercases without
    trimming: the argument stays in the mapping. *)
Theorem padded_unknown_is_kept :
  lower (strip (str (PStr " unknown "))) = "unknown"
  /\ clean_args [("carrier", PStr " unknown "); ("flight_number", PStr "215")]
     = [("carrier", PStr " unknown "); ("flight_number", PStr "215")]
  /\ clean_args [("carrier", PStr "Unknown"); ("flight_number", PStr "215")]
     = [("flight_number", PStr "215")].
Proof. repeat split. Qed.

(** C9. The listing of the catalog is a function of the catalog alone:
    it is the seven lines below, one per entry in the order of the
    catalog, and every request [plan_tools] makes, whatever the
    question, the client and the model, carries it in the same system
    message. *)
Theorem build_tool_prompt_fixed :
  _build_tool_prompt TOOLS
  = join nl
      ["- get_flight_basic_info(carrier, flight_number, date_of_origin): Fetch basic flight information including carrier, flight number, stations, scheduled times, and flight status.";
       "- get_equipment_info(carrier, flight_number, date_of_origin): Get aircraft equipment details: aircraft type, tail number (registration), and configuration.";
       "- get_operation_times(carrier, flight_number, date_of_origin): Return estimated and actual operation times: takeoff, landing, departure, arrival, and block times.";
       "- get_fuel_summary(carrier, flight_number, date_of_origin): Retrieve fuel summary including planned vs actual fuel consumption for the flight.";
       "- get_delay_summary(carrier, flight_number, date_of_origin): Get delay information including delay reasons, durations, and total delay time.";
       "- health_check(): Check the health status of the MCP server and database connection.";
       "- raw_mongodb_query(query_json, limit): Run a raw MongoDB query (JSON format) for debugging purposes."]
  /\ (forall q1 q2 : string,
        hd_error (plan_messages q1) = hd_error (plan_messages q2))
  /\ (forall q : string,
        exists before after,
          hd_error (plan_messages q)
          = Some (Message "system"
                          (before ++ _build_tool_prompt TOOLS ++ after))).
Proof.
  split; [vm_compute; reflexivity|]. split; [reflexivity|].
  intros q.
  exists (nl ++ "You are an assistant that converts user questions into MCP tool calls."
          ++ nl ++ "Use only these tools exactly as defined below:" ++ nl
          ++ nl).
  eexists. cbn [plan_messages hd_error]. f_equal. f_equal.
  unfold SYSTEM_PROMPT_PLAN.
  generalize (_build_tool_prompt TOOLS). intros listing.
  cbn [join]. rewrite !append_assoc. cbn [append].
  repeat f_equal.
Qed.

End CatalogProperties.

(** ** The orchestrator *)

Section ClientProperties.
Import PyStr Py Json Effects ToolRegistry Client Plan.
Context {W : Type}.
Variable h : env clientE W.
Variable json_loads : string -> exn + value.
Variable GROQ_MODEL : string.

Lemma call_groq_exec (messages : list message) (temperature : Q)
      (max_tokens : Z) (self : client) (w w1 : W) (reply : exn + string) :
  h _ (ChatCompletion GROQ_MODEL messages temperature max_tokens) w
  = (reply, w1) ->
  exec h (_call_groq GROQ_MODEL messages temperature max_tokens self) w
  = ((Ok (completion_text reply), self), w1,
     [Call (ChatCompletion GROQ_MODEL messages temperature max_tokens)]).
Proof.
  intros Hh. unfold _call_groq.
  destruct reply as [e|content].
  - eapply exec_try_raise;
      [exact (exec_await h _ self w w1 _ Hh)|reflexivity|reflexivity].
  - eapply exec_try_ok. exact (exec_await h _ self w w1 _ Hh).
Qed.

(** What [plan_tools] makes of the text of the LLM. *)
Lemma plan_tools_exec (user_query : string) (self : client) (w w1 : W)
      (reply : exn + string) :
  h _ (ChatCompletion GROQ_MODEL (plan_messages user_query) (1 # 10) 2048) w
  = (reply, w1) ->
  exec h (plan_tools json_loads GROQ_MODEL user_query self) w
  = ((Ok match json_loads (completion_text reply) with
         | inr (PDict plan) =>
             if dict_in "plan" plan then PDict plan
             else PDict [("plan", PList [])]
         | _ => PDict [("plan", PList [])]
         end, self), w1,
     [Call (ChatCompletion GROQ_MODEL (plan_messages user_query)
                           (1 # 10) 2048)]).
Proof.
  intros Hh. unfold plan_tools.
  eapply exec_bind_ok;
    [exact (call_groq_exec _ _ _ self w w1 reply Hh)| |reflexivity].
  destruct (json_loads (completion_text reply)) as [e|[]];
    try reflexivity.
  destruct (dict_in "plan" d); reflexivity.
Qed.


Lemma content_items_plain (content : list content_item) :
  loads_plain json_loads ->
  forallb serializable (content_items json_loads content) = true.
Proof.
  intros Hl. induction content as [|item rest IH]; [reflexivity|].
  unfold content_items in *. cbn [flat_map]. rewrite forallb_app, IH.
  destruct item as [text|]; [|reflexivity].
  destruct (json_loads text) as [e|v] eqn:Hj; [reflexivity|].
  cbn [forallb]. rewrite (Hl _ _ Hj). reflexivity.
Qed.

Lemma tool_reply_plain (content : list content_item) :
  loads_plain json_loads ->
  serializable (tool_reply json_loads content) = true.
Proof.
  intros Hl. pose proof (content_items_plain content Hl) as Hc.
  unfold tool_reply. destruct content as [|item rest]; [reflexivity|].
  destruct (content_items json_loads (item :: rest)) as [|x [|y l]];
    [reflexivity| |].
  - cbn [forallb] in Hc. apply andb_prop in Hc. apply Hc.
  - cbn [serializable forallb snd]. cbn [forallb] in Hc.
    rewrite Hc. reflexivity.
Qed.

(** With the session up, [invoke_tool] makes the one call; an exception
    of the call becomes the value [{"error": text}]. *)
Lemma invoke_tool_connected (tool : value) (args : dict) (self : client)
      (w w1 : W) (reply : exn + list content_item) :
  session self = true ->
  h _ (CallTool tool args) w = (reply, w1) ->
  exec h (invoke_tool json_loads tool args self) w
  = ((Ok match reply with
         | inl e => PDict [("error", PStr e)]
         | inr content => tool_reply json_loads content
         end, self), w1, [Call (CallTool tool args)]).
Proof.
  intros Hs Hh. destruct self as [url s]. cbn [session] in Hs. subst s.
  cbv beta iota zeta delta
      [invoke_tool try_except bind get put ret await pbind fst snd session].
  rewrite (exec_vis h _ _ _ w w1 reply Hh).
  destruct reply; reflexivity.
Qed.

(** [invoke_tool] always returns: whatever the transport, the session
    and the tool do, the caller gets a plain value and no exception,
    and the LLM is not asked anything. *)
Lemma invoke_tool_returns (tool : value) (args : dict) (self : client)
      (w : W) :
  loads_plain json_loads ->
  exists resp self' w' tr,
    exec h (invoke_tool json_loads tool args self) w
    = ((Ok resp, self'), w', tr)
    /\ serializable resp = true
    /\ forallb (fun c => negb (is_chat c)) tr = true.
Proof.
  intros Hl. destruct self as [url [|]].
  - destruct (h _ (CallTool tool args) w) as [reply w1] eqn:Hh.
    rewrite (invoke_tool_connected tool args (Self url true) w w1 reply
                                   eq_refl Hh).
    do 4 eexists. split; [reflexivity|]. split; [|reflexivity].
    destruct reply; [reflexivity|apply tool_reply_plain, Hl].
  - cbv beta iota zeta delta
        [invoke_tool try_except bind get put ret await pbind fst snd session
         connect base_url].
    destruct (h _ (OpenTransport url) w) as [r1 w1] eqn:H1.
    rewrite (exec_vis h _ _ _ w w1 r1 H1).
    destruct r1 as [e|[]]; cbv beta iota.
    { do 4 eexists. split; [reflexivity|]. split; reflexivity. }
    destruct (h _ InitSession w1) as [r2 w2] eqn:H2.
    rewrite (exec_vis h _ _ _ w1 w2 r2 H2).
    destruct r2 as [e|[]]; cbv beta iota.
    { do 4 eexists. split; [reflexivity|]. split; reflexivity. }
    destruct (h _ (CallTool tool args) w2) as [r3 w3] eqn:H3.
    rewrite (exec_vis h _ _ _ w2 w3 r3 H3).
    destruct r3 as [e|content]; cbv beta iota.
    { do 4 eexists. split; [reflexivity|]. split; reflexivity. }
    do 4 eexists. split; [reflexivity|]. split; [|reflexivity].
    apply tool_reply_plain, Hl.
Qed.

(** The turn of the loop on a well-formed step: nothing for a blank
    tool name, else one [invoke_tool] and one pair appended. *)
Lemma run_step_well_formed (step : value) (rs : results) :
  well_formed_step step = true ->
  run_step json_loads step rs
  = if negb (truthy (step_tool step)) then ret rs
    else bind (invoke_tool json_loads (step_tool step)
                           (clean_args (step_args step)))
              (fun resp => ret (rs ++ [(step_tool step, resp)])%list).
Proof.
  destruct step; try discriminate.
  unfold well_formed_step, step_tool, step_args, run_step.
  destruct (dict_get "arguments" d) as [[]|]; try discriminate;
    destruct (dict_get "tool" d) as [[| | | | | | |]|];
    cbn; intros H; try discriminate H; reflexivity.
Qed.

Lemma results_value_combine (tools resps : list value) :
  Forall (fun t => json_key t <> None) tools ->
  forallb serializable resps = true ->
  exists l, results_value (combine tools resps) = Some l.
Proof.
  intros Ht. revert resps.
  induction Ht as [|t tools Hk Ht IH]; intros resps Hs.
  - exists []. reflexivity.
  - destruct resps as [|r resps]; [exists []; reflexivity|].
    cbn [forallb] in Hs. apply andb_prop in Hs. destruct Hs as [Hr Hs].
    destruct (IH resps Hs) as [l Hl].
    cbn [combine results_value]. rewrite Hl, Hr.
    destruct (json_key t) as [k|]; [|congruence].
    eexists. reflexivity.
Qed.

Lemma executed_tools_keyed (steps : list value) :
  Forall (fun step => well_formed_step step = true) steps ->
  Forall (fun t => json_key t <> None) (map fst (executed_calls steps)).
Proof.
  intros Hwf. unfold executed_calls. rewrite map_map. cbn [fst].
  induction Hwf as [|step steps Hs Hwf IH]; [constructor|].
  cbn [filter]. destruct (truthy (step_tool step)); [|exact IH].
  cbn [map]. constructor; [|exact IH].
  destruct step; try discriminate Hs. unfold well_formed_step in Hs.
  apply andb_prop in Hs. destruct Hs as [_ Hs].
  destruct (json_key (step_tool (PDict d))); [discriminate|discriminate Hs].
Qed.

(** The loop of [run_query] is the sequence of the executor calls of
    the steps that name a tool: it never raises, and appends one pair
    per call, in order. *)
Lemma run_steps_spec (steps : list value) :
  loads_plain json_loads ->
  Forall (fun step => well_formed_step step = true) steps ->
  forall (rs0 : results) (self : client) (w : W),
  exists resps self' w' tr,
    exec h (invoke_each json_loads (executed_calls steps) self) w
    = ((Ok resps, self'), w', tr)
    /\ exec h (run_steps json_loads steps rs0 self) w
       = ((Ok (rs0 ++ combine (map fst (executed_calls steps)) resps)%list,
           self'), w', tr)
    /\ List.length resps = List.length (executed_calls steps)
    /\ forallb serializable resps = true
    /\ forallb (fun c => negb (is_chat c)) tr = true.
Proof.
  intros Hl Hwf. induction Hwf as [|step steps Hs Hwf IH]; intros rs0 self w.
  - exists [], self, w, []. cbn. rewrite app_nil_r. repeat split.
  - cbn [run_steps]. rewrite (run_step_well_formed step _ Hs).
    unfold executed_calls in *. cbn [filter].
    destruct (truthy (step_tool step)); cbn [negb map].
    + destruct (invoke_tool_returns (step_tool step)
                  (clean_args (step_args step)) self w Hl)
        as (resp & self1 & w1 & tr1 & Hi & Hp & Hc).
      destruct (IH (rs0 ++ [(step_tool step, resp)])%list self1 w1)
        as (resps & self' & w' & tr2 & He & Hr & Hn & Hps & Hcs).
      exists (resp :: resps), self', w', (tr1 ++ tr2)%list.
      split.
      { cbn [invoke_each].
        eapply exec_bind_ok; [exact Hi| |reflexivity].
        eapply exec_bind_ok; [exact He|reflexivity|].
        rewrite app_nil_r. reflexivity. }
      split.
      { eapply exec_bind_ok; [| |reflexivity].
        - eapply exec_bind_ok; [exact Hi|reflexivity|].
          symmetry. apply app_nil_r.
        - cbv beta. etransitivity; [exact Hr|]. cbn [fst map combine].
          rewrite <- app_assoc. reflexivity. }
      split; [cbn [List.length]; rewrite Hn; reflexivity|].
      split; [cbn [forallb]; rewrite Hp, Hps; reflexivity|].
      rewrite forallb_app, Hc, Hcs. reflexivity.
    + destruct (IH rs0 self w)
        as (resps & self' & w' & tr2 & He & Hr & Hn & Hps & Hcs).
      exists resps, self', w', tr2.
      split; [exact He|]. split; [|repeat split; assumption].
      eapply exec_bind_ok; [reflexivity|exact Hr|reflexivity].
Qed.

(** With the session up, the requests of the calls are the calls. *)
Lemma invoke_each_connected (calls : list (value * dict)) (self : client)
      (w : W) :
  session self = true ->
  snd (fst (fst (exec h (invoke_each json_loads calls self) w))) = self
  /\ snd (exec h (invoke_each json_loads calls self) w)
     = map (fun c => Call (CallTool (fst c) (snd c))) calls.
Proof.
  intros Hs. revert w. induction calls as [|[tool args] rest IH]; intros w.
  - split; reflexivity.
  - destruct (h _ (CallTool tool args) w) as [reply w1] eqn:Hh.
    pose proof (invoke_tool_connected tool args self w w1 reply Hs Hh) as Hi.
    destruct (IH w1) as [IH1 IH2].
    destruct (exec h (invoke_each json_loads rest self) w1)
      as [[[o self1] w2] tr2] eqn:He.
    cbn [fst snd] in IH1, IH2. subst self1 tr2.
    cbn [invoke_each].
    destruct o as [resps|e].
    + erewrite exec_bind_ok; [| exact Hi | | reflexivity].
      2:{ eapply exec_bind_ok; [exact He|reflexivity|reflexivity]. }
      cbn [fst snd map app]. rewrite app_nil_r. split; reflexivity.
    + erewrite exec_bind_ok; [| exact Hi | | reflexivity].
      2:{ eapply exec_bind_raise. exact He. }
      cbn [fst snd map app]. split; reflexivity.
Qed.

Lemma dict_get_plain (k : string) (d : dict) (v : value) :
  serializable (PDict d) = true -> dict_get k d = Some v ->
  serializable v = true.
Proof.
  cbn [serializable]. induction d as [|[k' v'] r IH]; [discriminate|].
  cbn [forallb snd dict_get]. intros Hs Hg.
  apply andb_prop in Hs. destruct Hs as [Hv Hr].
  destruct (String.eqb k' k); [|exact (IH Hr Hg)].
  injection Hg as <-. exact Hv.
Qed.

(** C5. For a non-empty plan of well-formed steps, [run_query] is the
    planner's request, then the executor calls of the steps that name
    a tool, in plan order and with cleaned arguments, then the
    summarizer's request. A step with a blank tool name (absent, null
    or empty: the code's [not tool]) makes no call and no pair; every
    other step adds exactly one pair (tool, what the executor
    returned), in plan order. The executor never raises,
    so the calls after a failed one are made all the same. The
    summarizer is asked last, with all the pairs. *)
Theorem run_query_runs_plan_in_order (user_query : string) (self : client)
        (w w1 : W) (reply : exn + string) (d : dict) (steps : list value) :
  loads_plain json_loads ->
  h _ (ChatCompletion GROQ_MODEL (plan_messages user_query) (1 # 10) 2048) w
  = (reply, w1) ->
  json_loads (completion_text reply) = inr (PDict d) ->
  dict_get "plan" d = Some (PList steps) ->
  steps <> [] ->
  Forall (fun step => well_formed_step step = true) steps ->
  exists resps self' w2 tr l,
    let calls := executed_calls steps in
    let rs := combine (map fst calls) resps in
    let summarize :=
      ChatCompletion GROQ_MODEL (summary_messages user_query (PList steps) l)
                     (3 # 10) 2048 in
    exec h (invoke_each json_loads calls self) w1
    = ((Ok resps, self'), w2, tr)
    /\ List.length resps = List.length calls
    /\ forallb (fun c => negb (is_chat c)) tr = true
    /\ results_value rs = Some l
    /\ exec h (run_query json_loads GROQ_MODEL user_query self) w
       = ((Ok (RunResult
                 (PList steps) rs
                 (PDict [("summary",
                          PStr (completion_text (fst (h _ summarize w2))))])),
           self'),
          snd (h _ summarize w2),
          (Call (ChatCompletion GROQ_MODEL (plan_messages user_query)
                                (1 # 10) 2048)
           :: tr ++ [Call summarize])%list)
    /\ (session self = true ->
        self' = self
        /\ tr = map (fun c => Call (CallTool (fst c) (snd c))) calls).
Proof.
  intros Hl Hh Hj Hplan Hne Hwf.
  destruct (run_steps_spec steps Hl Hwf [] self w1)
    as (resps & self' & w2 & tr & He & Hr & Hn & Hps & Hcs).
  destruct (results_value_combine _ resps (executed_tools_keyed steps Hwf)
                                  Hps) as [l Hrv].
  exists resps, self', w2, tr, l. cbv zeta.
  split; [exact He|]. split; [exact Hn|]. split; [exact Hcs|].
  split; [exact Hrv|]. split.
  - pose proof (plan_tools_exec user_query self w w1 reply Hh) as Hp.
    rewrite Hj in Hp.
    assert (Hin : dict_in "plan" d = true)
      by (unfold dict_in; rewrite Hplan; reflexivity).
    rewrite Hin in Hp.
    assert (Hsp : serializable (PList steps) = true)
      by exact (dict_get_plain _ _ _ (Hl _ _ Hj) Hplan).
    destruct (h _ (ChatCompletion GROQ_MODEL
                     (summary_messages user_query (PList steps) l)
                     (3 # 10) 2048) w2) as [reply2 w3] eqn:Hh2.
    unfold run_query.
    eapply exec_bind_ok; [exact Hp| |reflexivity].
    cbn beta iota. rewrite Hplan.
    destruct steps as [|s0 steps']; [congruence|].
    cbn [truthy negb iterate].
    eapply exec_bind_ok; [exact Hr| |reflexivity].
    cbn [app].
    eapply exec_bind_ok; [|reflexivity|].
    + unfold summarize_results. rewrite Hrv, Hsp.
      eapply exec_bind_ok;
        [exact (call_groq_exec _ _ _ self' w2 w3 reply2 Hh2)
        |reflexivity|reflexivity].
    + reflexivity.
  - intros Hs.
    destruct (invoke_each_connected (executed_calls steps) self w1 Hs)
      as [H1 H2].
    rewrite He in H1, H2. cbn [fst snd] in H1, H2. split; assumption.
Qed.

End ClientProperties.

(** ** The properties at concrete inputs *)

Section Examples.
Import PyStr PyDate Py Json Effects Server Client Plan.

(** C6 on the stored flight: the basic-info tool returns its document
    without [_id] and [_class]. *)
Lemma lookup_fetch_outcome_witness :
  checks_date BasicInfo
  && rejected "June 23, 2024" (dob_of "June 23, 2024") = false
  /\ Demo.store _ (FindOne (make_query "6E" (fn_of "215")
                                       (dob_of "June 23, 2024"))
                           (projection_of BasicInfo)) tt
     = (inr (Some Demo.flight), tt)
  /\ exists out,
      exec Demo.store
           (lookup BasicInfo "6E" "215" "June 23, 2024" (Globals false)) tt
      = ((Ok out, Globals true), tt,
         [Call (FindOne (make_query "6E" (fn_of "215")
                                    (dob_of "June 23, 2024"))
                        (projection_of BasicInfo))])
      /\ (@inr exn (option dict) (Some Demo.flight) = inr None ->
          out = response_error "No matching document found." 404)
      /\ (forall cause, @inr exn (option dict) (Some Demo.flight) = inl cause ->
          out = response_error ("DB query failed: " ++ cause) 500)
      /\ (forall doc, @inr exn (option dict) (Some Demo.flight) = inr (Some doc) ->
          doc <> [] ->
          out = response_ok (PDict (strip_internal doc))
          /\ dict_get "_id" (strip_internal doc) = None
          /\ dict_get "_class" (strip_internal doc) = None
          /\ forall k, k <> "_id" -> k <> "_class" ->
                       dict_get k (strip_internal doc) = dict_get k doc).
Proof.
  split; [reflexivity|]. split; [reflexivity|].
  apply (lookup_fetch_outcome Demo.store BasicInfo "6E" "215"
                              "June 23, 2024" (Globals false) tt tt
                              (inr (Some Demo.flight)));
    reflexivity.
Defined.

(** C10 on an empty collection. *)
Lemma health_check_outcome_witness :
  Demo.empty_store _ (FindOne [] [("_id", PInt 1)]) tt = (inr None, tt)
  /\ exists out,
      exec Demo.empty_store (health_check (Globals false)) tt
      = ((Ok out, Globals true), tt, [Call (FindOne [] [("_id", PInt 1)])])
      /\ (@inr exn (option dict) None = inr None ->
          out = response_ok (PDict [("status", PStr "ok");
                                    ("db_connected", PBool false)]))
      /\ (forall doc, @inr exn (option dict) None = inr (Some doc) ->
          out = response_ok (PDict [("status", PStr "ok");
                                    ("db_connected", PBool true)]))
      /\ (out = response_error "DB unreachable" 503
          <-> exists e, @inr exn (option dict) None = inl e).
Proof.
  split; [reflexivity|].
  apply (health_check_outcome Demo.empty_store (Globals false) tt tt
                              (inr None)).
  reflexivity.
Defined.

Lemma demo_loads_plain : loads_plain Demo.loads.
Proof.
  intros s v. unfold Demo.loads.
  destruct (String.eqb s Demo.plan_text); [intros [= <-]; reflexivity|].
  destruct (String.eqb s Demo.flight_text);
    [intros [= <-]; reflexivity|discriminate].
Qed.


(** C5 on a plan of four steps, the second blank, the third failing:
    three pairs come back, in plan order. *)
Lemma run_query_runs_plan_in_order_witness :
  exists resps self' w2 tr l,
    let calls := executed_calls Demo.steps in
    let rs := combine (map fst calls) resps in
    let summarize :=
      ChatCompletion Demo.model
                     (summary_messages Demo.question (PList Demo.steps) l)
                     (3 # 10) 2048 in
    exec (Demo.world Demo.plan_text) (invoke_each Demo.loads calls Demo.self) tt
    = ((Ok resps, self'), w2, tr)
    /\ List.length resps = List.length calls
    /\ forallb (fun c => negb (is_chat c)) tr = true
    /\ results_value rs = Some l
    /\ exec (Demo.world Demo.plan_text)
            (run_query Demo.loads Demo.model Demo.question Demo.self) tt
       = ((Ok (RunResult
                 (PList Demo.steps) rs
                 (PDict [("summary",
                          PStr (completion_text
                                  (fst (Demo.world Demo.plan_text _ summarize w2))))])),
           self'),
          snd (Demo.world Demo.plan_text _ summarize w2),
          (Call (ChatCompletion Demo.model (plan_messages Demo.question)
                                (1 # 10) 2048)
           :: tr ++ [Call summarize])%list)
    /\ (session Demo.self = true ->
        self' = Demo.self
        /\ tr = map (fun c => Call (CallTool (fst c) (snd c))) calls).
Proof.
  apply (run_query_runs_plan_in_order
           (Demo.world Demo.plan_text) Demo.loads Demo.model Demo.question Demo.self
           tt tt (inr Demo.plan_text) [("plan", Demo.plan)] Demo.steps).
  - exact demo_loads_plain.
  - reflexivity.
  - reflexivity.
  - reflexivity.
  - discriminate.
  - repeat constructor.
Defined.

(** Each accepted format on the same day. *)
Example validate_date_formats :
  map validate_date
      ["2024-06-23"; "23-06-2024"; "2024/06/23"; "23/06/2024";
       "June 23, 2024"; "23 June 2024"; "Jun 23, 2024"; "23 jun 2024";
       "2024-6-3"; "June  3,  2024"; "2024-06- 3"; "MAY 05, 2024";
       "2024-02-29"]
  = [Some "2024-06-23"; Some "2024-06-23"; Some "2024-06-23";
     Some "2024-06-23"; Some "2024-06-23"; Some "2024-06-23";
     Some "2024-06-23"; Some "2024-06-23"; Some "2024-06-03";
     Some "2024-06-03"; Some "2024-06-03"; Some "2024-05-05";
     Some "2024-02-29"].
Proof. vm_compute. reflexivity. Qed.

(** What no format accepts: a month 13, the 30th of February, the 29th
    of February 2023, text before or after the date, a year on two
    digits, a comma with no space after it, and no date at all. *)
Example validate_date_rejects :
  map validate_date
      ["23-13-2024"; "2024-02-30"; "2023-02-29"; " 2024-06-23";
       "2024-06-23T10:00"; "23/06/24"; "June 3,2024"; ""; "tomorrow"]
  = [None; None; None; None; None; None; None; None; None].
Proof. vm_compute. reflexivity. Qed.

Example normalize_flight_number_examples :
  map normalize_flight_number
      [PStr "215"; PStr " 215 "; PInt 215; PStr "6E215"; PStr ""; PNone;
       PStr "-7"; PStr "1_000"]
  = [Some 215; Some 215; Some 215; None; None; None; Some (-7); Some 1000].
Proof. vm_compute. reflexivity. Qed.

(** The basic-info tool on the stored flight, end to end. *)
Example basic_info_on_stored_flight :
  exec Demo.store
       (get_flight_basic_info "6E" "215" "June 23, 2024" (Globals false)) tt
  = ((Ok Demo.flight_text, Globals true), tt,
     [Call (FindOne [("flightLegState.carrier", PStr "6E");
                     ("flightLegState.flightNumber", PInt 215);
                     ("flightLegState.dateOfOrigin", PStr "2024-06-23")]
                    basic_info_projection)]).
Proof. vm_compute. reflexivity. Qed.

(** The plan of four steps against a session whose delay tool fails:
    three pairs, the failed one an error value between the two others,
    and the five requests in order. *)
Example run_query_on_demo_plan :
  let doc := PDict [("ok", PBool true);
                    ("data", PDict (strip_internal Demo.flight))] in
  let rs := [(PStr "get_flight_basic_info", doc);
             (PStr "get_delay_summary",
              PDict [("error", PStr "Connection closed")]);
             (PStr "get_fuel_summary", doc)] in
  exists l,
    results_value rs = Some l
    /\ exec (Demo.world Demo.plan_text)
            (run_query Demo.loads Demo.model Demo.question Demo.self) tt
       = ((Ok (RunResult Demo.plan rs
                         (PDict [("summary",
                                  PStr "Flight 6E 215 left on time.")])),
           Demo.self), tt,
          [Call (ChatCompletion Demo.model (plan_messages Demo.question)
                                (1 # 10) 2048);
           Call (CallTool (PStr "get_flight_basic_info")
                          [("flight_number", PStr "215")]);
           Call (CallTool (PStr "get_delay_summary")
                          [("flight_number", PStr "215")]);
           Call (CallTool (PStr "get_fuel_summary") []);
           Call (ChatCompletion Demo.model
                                (summary_messages Demo.question Demo.plan l)
                                (3 # 10) 2048)]).
Proof. eexists. split; vm_compute; reflexivity. Qed.

End Examples.

(** ** Flight numbers: what reads as an integer *)

Section FlightNumberProperties.
Import PyStr Py Shapes Server Effects.

Lemma digit_char_not_space (k : Z) :
  0 <= k <= 9 -> is_space (digit_char k) = false.
Proof.
  intros Hk.
  assert (Hc : k = 0 \/ k = 1 \/ k = 2 \/ k = 3 \/ k = 4 \/ k = 5 \/ k = 6
               \/ k = 7 \/ k = 8 \/ k = 9) by lia.
  repeat (destruct Hc as [->|Hc]; [reflexivity|]). subst k. reflexivity.
Qed.

Lemma int_digits_digit (st : int_scan) (acc k : Z) (s : string) :
  0 <= k <= 9 ->
  int_digits st acc (String (digit_char k) s)
  = int_digits AfterDigit (10 * acc + k) s.
Proof.
  intros Hk. cbn [int_digits]. rewrite digit_val_char by exact Hk. reflexivity.
Qed.

Lemma digits_of_S (fuel : nat) (n : Z) (s : string) :
  digits_of (S fuel) n s
  = if n / 10 =? 0 then String (digit_char (n mod 10)) s
    else digits_of fuel (n / 10) (String (digit_char (n mod 10)) s).
Proof. reflexivity. Qed.

(** Reading back the digits [digits_of] writes: the number comes after
    whatever was read before. *)
Lemma int_digits_digits_of (fuel : nat) :
  forall n, 0 <= n < 10 ^ Z.of_nat (S fuel) ->
  exists m, forall st acc s,
    int_digits st acc (digits_of (S fuel) n s)
    = int_digits AfterDigit (acc * m + n) s.
Proof.
  induction fuel as [|fuel IH]; intros n Hn.
  - change (10 ^ Z.of_nat 1) with 10 in Hn.
    exists 10. intros st acc s. rewrite digits_of_S.
    assert (Hd : n / 10 = 0) by (apply Z.div_small; lia).
    rewrite Hd. change (0 =? 0) with true. cbv iota.
    rewrite Z.mod_small by lia.
    rewrite int_digits_digit by lia. f_equal. lia.
  - destruct (n / 10 =? 0) eqn:Hz.
    + apply Z.eqb_eq in Hz. exists 10. intros st acc s.
      rewrite digits_of_S, Hz. change (0 =? 0) with true. cbv iota.
      assert (Hm : n mod 10 = n)
        by (pose proof (Z.div_mod n 10 ltac:(lia)); lia).
      rewrite Hm, int_digits_digit; [f_equal; lia|].
      pose proof (Z.mod_pos_bound n 10 ltac:(lia)). lia.
    + destruct (IH (n / 10)) as [m Hm].
      { split; [apply Z.div_pos; lia|].
        apply Z.div_lt_upper_bound; [lia|].
        replace (Z.of_nat (S (S fuel))) with (Z.succ (Z.of_nat (S fuel)))
          in Hn by lia.
        rewrite Z.pow_succ_r in Hn by lia. lia. }
      exists (10 * m). intros st acc s.
      rewrite digits_of_S, Hz, Hm.
      pose proof (Z.mod_pos_bound n 10 ltac:(lia)) as Hb.
      rewrite int_digits_digit by lia. f_equal.
      pose proof (Z.div_mod n 10 ltac:(lia)). lia.
Qed.

Lemma digits_fuel (a : Z) :
  0 <= a -> a < 10 ^ Z.of_nat (S (Z.to_nat (Z.log2 a))).
Proof.
  intros Ha.
  replace (Z.of_nat (S (Z.to_nat (Z.log2 a)))) with (Z.succ (Z.log2 a))
    by (pose proof (Z.log2_nonneg a); lia).
  destruct (Z.eq_dec a 0) as [->|Hne]; [reflexivity|].
  pose proof (Z.log2_spec a ltac:(lia)) as [_ Hlt].
  eapply Z.lt_le_trans; [exact Hlt|].
  apply Z.pow_le_mono_l. pose proof (Z.log2_nonneg a). lia.
Qed.

(** The decimal text of a natural number reads back as the number. *)
Lemma int_digits_str_of_nat (a : Z) (st : int_scan) :
  0 <= a ->
  int_digits st 0 (digits_of (S (Z.to_nat (Z.log2 a))) a EmptyString) = Some a.
Proof.
  intros Ha.
  destruct (int_digits_digits_of (Z.to_nat (Z.log2 a)) a) as [m Hm].
  { split; [exact Ha|apply digits_fuel, Ha]. }
  rewrite Hm. reflexivity.
Qed.

(** [digits_of] writes digits only. *)
Lemma digits_of_all_digits (fuel : nat) :
  forall n s, 0 <= n ->
  all_chars (fun c => negb (is_space c) && negb (c =? "+")%char
                      && negb (c =? "-")%char) s = true ->
  all_chars (fun c => negb (is_space c) && negb (c =? "+")%char
                      && negb (c =? "-")%char) (digits_of fuel n s) = true.
Proof.
  assert (Hd : forall k, 0 <= k <= 9 ->
               negb (is_space (digit_char k)) && negb (digit_char k =? "+")%char
               && negb (digit_char k =? "-")%char = true).
  { intros k Hk.
    assert (Hc : k = 0 \/ k = 1 \/ k = 2 \/ k = 3 \/ k = 4 \/ k = 5 \/ k = 6
                 \/ k = 7 \/ k = 8 \/ k = 9) by lia.
    repeat (destruct Hc as [->|Hc]; [reflexivity|]). subst k. reflexivity. }
  induction fuel as [|fuel IH]; intros n s Hn Hs; [exact Hs|].
  rewrite digits_of_S.
  assert (Hs' : all_chars (fun c => negb (is_space c) && negb (c =? "+")%char
                                    && negb (c =? "-")%char)
                          (String (digit_char (n mod 10)) s) = true).
  { cbn [all_chars]. rewrite Hs, Hd; [reflexivity|].
    pose proof (Z.mod_pos_bound n 10 ltac:(lia)). lia. }
  destruct (n / 10 =? 0); [exact Hs'|].
  apply IH; [apply Z.div_pos; lia|exact Hs'].
Qed.

Lemma lstrip_no_space (p : ascii -> bool) (s : string) :
  (forall c, p c = true -> is_space c = false) ->
  all_chars p s = true -> lstrip s = s.
Proof.
  intros Hp. destruct s as [|c r]; [reflexivity|]. cbn [all_chars lstrip].
  intros H. apply andb_prop in H. destruct H as [Hc _].
  rewrite (Hp c Hc). reflexivity.
Qed.

Lemma rstrip_no_space (p : ascii -> bool) (s : string) :
  (forall c, p c = true -> is_space c = false) ->
  all_chars p s = true -> rstrip s = s.
Proof.
  intros Hp. induction s as [|c r IH]; [reflexivity|]. cbn [all_chars rstrip].
  intros H. apply andb_prop in H. destruct H as [Hc Hr].
  rewrite (IH Hr). destruct r; [rewrite (Hp c Hc)|]; reflexivity.
Qed.


Lemma all_chars_app (p : ascii -> bool) (a b : string) :
  all_chars p (a ++ b) = all_chars p a && all_chars p b.
Proof.
  induction a as [|c a IH]; [reflexivity|]. cbn [append all_chars].
  rewrite IH. apply andb_assoc.
Qed.

Lemma lstrip_app_spaces (pre s : string) :
  all_chars is_space pre = true -> lstrip (pre ++ s) = lstrip s.
Proof.
  induction pre as [|c pre IH]; [reflexivity|]. cbn [all_chars append lstrip].
  intros H. apply andb_prop in H. destruct H as [Hc Hp].
  rewrite Hc. exact (IH Hp).
Qed.

Lemma rstrip_spaces (post : string) :
  all_chars is_space post = true -> rstrip post = EmptyString.
Proof.
  induction post as [|c post IH]; [reflexivity|]. cbn [all_chars rstrip].
  intros H. apply andb_prop in H. destruct H as [Hc Hp].
  rewrite (IH Hp), Hc. reflexivity.
Qed.

Lemma rstrip_app_spaces (s post : string) :
  all_chars is_space post = true -> rstrip (s ++ post) = rstrip s.
Proof.
  intros Hp. induction s as [|c s IH]; [exact (rstrip_spaces post Hp)|].
  cbn [append rstrip]. rewrite IH. reflexivity.
Qed.

(** [int] of a text that starts with no sign reads its digits. *)
Lemma int_of_str_unsigned (t : string) :
  strip t = t ->
  match t with
  | String c _ => negb (c =? "+")%char && negb (c =? "-")%char
  | EmptyString => true
  end = true ->
  int_of_str t = int_literal t.
Proof.
  intros Hs Hc. unfold int_of_str. rewrite Hs.
  destruct t as [|c r]; [reflexivity|].
  destruct c as [[|] [|] [|] [|] [|] [|] [|] [|]];
    try reflexivity; discriminate Hc.
Qed.

Lemma plain_not_space (c : ascii) : plain c = true -> is_space c = false.
Proof.
  unfold plain. intros H. apply andb_prop in H. destruct H as [H _].
  apply andb_prop in H. destruct H as [H _].
  apply negb_true_iff in H. exact H.
Qed.

(** The decimal text of an integer of at most [max_str_digits]
    digits, with any whitespace around it, is read back as the
    integer. *)
Lemma int_of_str_str_of_int (n : Z) (pre post : string) :
  (count_digits (str_of_int n) <= max_str_digits)%nat ->
  all_chars is_space pre = true ->
  all_chars is_space post = true ->
  let s := pre ++ str_of_int n ++ post in
  s <> EmptyString /\ strip s = str_of_int n /\ int_of_str (strip s) = Some n.
Proof.
  intros Hlen Hpre Hpost s.
  set (a := Z.abs n).
  set (ds := digits_of (S (Z.to_nat (Z.log2 a))) a EmptyString).
  assert (Ha : 0 <= a) by (unfold a; lia).
  assert (Hlit : int_literal ds = int_digits AtStart 0 ds).
  { unfold int_literal.
    replace (max_str_digits <? count_digits ds)%nat with false;
      [reflexivity|].
    symmetry. apply Nat.ltb_ge.
    assert (Hcd : count_digits (str_of_int n) = count_digits ds)
      by (unfold str_of_int; fold a; fold ds; destruct (n <? 0); reflexivity).
    rewrite <- Hcd. exact Hlen. }
  assert (Hds : all_chars plain ds = true)
    by (apply digits_of_all_digits; [exact Ha|reflexivity]).
  assert (Hread : forall st, int_digits st 0 ds = Some a)
    by (intros st; apply int_digits_str_of_nat, Ha).
  assert (Hne : ds <> EmptyString).
  { intros He. specialize (Hread AtStart). rewrite He in Hread.
    discriminate Hread. }
  assert (Hbody : str_of_int n = if n <? 0 then String "-" ds else ds)
    by reflexivity.
  assert (Hns : all_chars (fun c => negb (is_space c)) (str_of_int n) = true).
  { rewrite Hbody. destruct (n <? 0); cbn [all_chars];
      [change (negb (is_space "-")) with true; cbn [andb]|];
      clear - Hds; induction ds as [|c r IH]; try reflexivity;
      cbn [all_chars] in *; apply andb_prop in Hds; destruct Hds as [Hc Hr];
      rewrite (plain_not_space c Hc), (IH Hr); reflexivity. }
  assert (Hnsp : forall c, negb (is_space c) = true -> is_space c = false)
    by (intros c; apply negb_true_iff).
  assert (Hfirst : exists c r, str_of_int n = String c r).
  { rewrite Hbody. destruct (n <? 0); [eauto|].
    destruct ds as [|c r]; [congruence|eauto]. }
  assert (Hstrip_body : strip (str_of_int n) = str_of_int n).
  { unfold strip.
    rewrite (lstrip_no_space _ _ Hnsp Hns). apply (rstrip_no_space _ _ Hnsp Hns). }
  assert (Hstrip : strip s = str_of_int n).
  { unfold s, strip. rewrite (lstrip_app_spaces _ _ Hpre).
    destruct Hfirst as (c & r & Hcr).
    assert (Hl : lstrip (str_of_int n ++ post) = str_of_int n ++ post).
    { rewrite Hcr in Hns |- *. cbn [append lstrip all_chars] in *.
      apply andb_prop in Hns. destruct Hns as [Hc _].
      apply negb_true_iff in Hc. rewrite Hc. reflexivity. }
    rewrite Hl, (rstrip_app_spaces _ _ Hpost).
    apply (rstrip_no_space _ _ Hnsp Hns). }
  split; [|split; [exact Hstrip|]].
  - unfold s. destruct Hfirst as (c & r & Hcr). rewrite Hcr.
    destruct pre; discriminate.
  - rewrite Hstrip. rewrite Hbody in Hstrip_body |- *.
    destruct (n <? 0) eqn:Hneg.
    + unfold int_of_str. rewrite Hstrip_body.
      rewrite Hlit, Hread. cbn [option_map]. f_equal.
      apply Z.ltb_lt in Hneg. unfold a. lia.
    + rewrite (int_of_str_unsigned ds Hstrip_body).
      * rewrite Hlit, Hread. f_equal. apply Z.ltb_ge in Hneg. unfold a. lia.
      * destruct ds as [|c r]; [reflexivity|].
        cbn [all_chars] in Hds. apply andb_prop in Hds. destruct Hds as [Hc _].
        unfold plain in Hc. rewrite <- andb_assoc in Hc.
        apply andb_prop in Hc. apply Hc.
Qed.

(** X1. The decimal text of an integer of at most 4300 digits, the
    most [int] converts, with any whitespace around it, normalizes to
    that integer. *)
Theorem normalize_flight_number_reads_decimal (n : Z) (pre post : string) :
  (count_digits (str_of_int n) <= max_str_digits)%nat ->
  all_chars is_space pre = true ->
  all_chars is_space post = true ->
  normalize_flight_number (PStr (pre ++ str_of_int n ++ post)) = Some n
  /\ fn_of (pre ++ str_of_int n ++ post) = Some n.
Proof.
  intros Hlen Hpre Hpost.
  destruct (int_of_str_str_of_int n pre post Hlen Hpre Hpost)
    as (Hne & Hs & Hi).
  assert (Hn : normalize_flight_number (PStr (pre ++ str_of_int n ++ post))
               = Some n).
  { unfold normalize_flight_number.
    destruct (pre ++ str_of_int n ++ post) as [|c r] eqn:He; [congruence|].
    exact Hi. }
  split; [exact Hn|].
  unfold fn_of. rewrite Hn.
  destruct (pre ++ str_of_int n ++ post); [congruence|reflexivity].
Qed.


Lemma all_chars_lstrip (p : ascii -> bool) (s : string) :
  (forall c, is_space c = true -> p c = true) ->
  all_chars p (lstrip s) = all_chars p s.
Proof.
  intros Hp. induction s as [|c r IH]; [reflexivity|]. cbn [lstrip all_chars].
  destruct (is_space c) eqn:Hc; [|reflexivity].
  rewrite IH, (Hp c Hc). reflexivity.
Qed.

Lemma all_chars_rstrip (p : ascii -> bool) (s : string) :
  (forall c, is_space c = true -> p c = true) ->
  all_chars p (rstrip s) = all_chars p s.
Proof.
  intros Hp. induction s as [|c r IH]; [reflexivity|]. cbn [rstrip all_chars].
  destruct (rstrip r) as [|c' r'] eqn:Hr.
  - rewrite <- IH. destruct (is_space c) eqn:Hc.
    + rewrite (Hp c Hc). reflexivity.
    + cbn [all_chars]. reflexivity.
  - cbn [all_chars] in *. rewrite IH. reflexivity.
Qed.

Lemma int_char_space (c : ascii) : is_space c = true -> int_char c = true.
Proof.
  intros Hc. unfold int_char. destruct (digit_val c); [reflexivity|].
  rewrite Hc. apply orb_true_r.
Qed.

Lemma all_chars_strip (s : string) :
  all_chars int_char (strip s) = all_chars int_char s.
Proof.
  unfold strip.
  rewrite (all_chars_rstrip _ _ int_char_space).
  apply (all_chars_lstrip _ _ int_char_space).
Qed.

(** A character that no integer literal holds stops the reading. *)
Lemma int_digits_foreign (s : string) :
  all_chars int_char s = false ->
  forall st acc, int_digits st acc s = None.
Proof.
  induction s as [|c r IH]; [discriminate|].
  cbn [all_chars int_digits]. intros H st acc.
  unfold int_char in H.
  destruct (digit_val c) as [d|].
  - cbn [andb] in H. apply IH, H.
  - destruct (c =? "_")%char.
    + cbn [orb andb] in H. destruct st; try reflexivity. apply IH, H.
    + reflexivity.
Qed.

Lemma int_literal_foreign (s : string) :
  all_chars int_char s = false -> int_literal s = None.
Proof.
  intros H. unfold int_literal.
  destruct (max_str_digits <? count_digits s)%nat; [reflexivity|].
  apply int_digits_foreign, H.
Qed.

Lemma int_of_str_foreign (s : string) :
  all_chars int_char s = false -> int_of_str s = None.
Proof.
  intros H. rewrite <- all_chars_strip in H. unfold int_of_str.
  destruct (strip s) as [|c r]; [discriminate H|].
  assert (Hd : int_literal (String c r) = None)
    by (apply int_literal_foreign, H).
  assert (Hr : int_char c = true -> int_literal r = None).
  { intros Hc. apply int_literal_foreign. cbn [all_chars] in H.
    rewrite Hc in H. exact H. }
  destruct c as [[|] [|] [|] [|] [|] [|] [|] [|]];
    try apply Hd; rewrite Hr; reflexivity.
Qed.

(** X2. A flight number that holds a character no integer literal has (a
    letter, a dot, ...) normalizes to None, and every lookup tool then
    behaves as if no flight number had been given: no error, no
    constraint on the flight number. *)
Theorem foreign_flight_number_is_ignored (flight_number : string) :
  all_chars int_char flight_number = false ->
  normalize_flight_number (PStr flight_number) = None
  /\ forall (t : lookup_tool) (carrier date_of_origin : string),
       lookup t carrier flight_number date_of_origin
       = lookup t carrier "" date_of_origin.
Proof.
  intros H.
  assert (Hn : normalize_flight_number (PStr flight_number) = None).
  { unfold normalize_flight_number.
    destruct flight_number as [|c r]; [reflexivity|].
    cbn [str]. apply int_of_str_foreign. rewrite all_chars_strip. exact H. }
  split; [exact Hn|].
  assert (Hf : fn_of flight_number = fn_of "").
  { unfold fn_of. rewrite Hn.
    destruct (truthy (PStr flight_number)); reflexivity. }
  intros t carrier date_of_origin.
  destruct t; cbn [lookup];
    unfold get_flight_basic_info, get_operation_times, get_equipment_info,
      get_delay_summary, get_fuel_summary, get_passenger_info, get_crew_info;
    rewrite Hf; reflexivity.
Qed.

End FlightNumberProperties.

(** ** Dates: what the formats accept and reject *)

Section DateShapes.
Import PyStr PyDate Py Shapes Server.

(** No item that follows a day in a format matches a digit. *)
Lemma separator_not_digit (it : item) (k : Z) (r : string) (dt : date) :
  it = Lit "-" \/ it = Lit "/" \/ it = Lit "," \/ it = Spaces ->
  0 <= k <= 9 ->
  match_item it (String (digit_char k) r) dt = [].
Proof.
  intros Hit Hk.
  assert (Hc : k = 0 \/ k = 1 \/ k = 2 \/ k = 3 \/ k = 4 \/ k = 5 \/ k = 6
               \/ k = 7 \/ k = 8 \/ k = 9) by lia.
  destruct Hit as [-> | [-> | [-> | ->]]];
    repeat (destruct Hc as [->|Hc]; [reflexivity|]); subst k; reflexivity.
Qed.

(** What a day group leaves of a text that starts with a digit: the
    text after that digit, or after the digit that follows. *)
Lemma group_d_rests (k : Z) (b : ascii) (r : string) :
  0 <= k <= 9 ->
  Forall (fun vr => snd vr = r \/ snd vr = String b r)
         (group_d (String (digit_char k) (String b r))).
Proof.
  intros Hk.
  assert (Hc : k = 0 \/ k = 1 \/ k = 2 \/ k = 3 \/ k = 4 \/ k = 5 \/ k = 6
               \/ k = 7 \/ k = 8 \/ k = 9) by lia.
  repeat (destruct Hc as [->|Hc];
          [unfold group_d, two, one; cbn;
           repeat match goal with
                  | |- context [in_range ?lo ?hi b] =>
                      destruct (in_range lo hi b)
                  end;
           cbn; repeat (first [apply Forall_nil | apply Forall_cons]);
           cbn; auto|]).
  subst k. unfold group_d, two, one; cbn;
    repeat match goal with
           | |- context [in_range ?lo ?hi b] => destruct (in_range lo hi b)
           end;
    cbn; repeat (first [apply Forall_nil | apply Forall_cons]); cbn; auto.
Qed.

Lemma flat_map_nil {A B : Type} (f : A -> list B) (l : list A) :
  Forall (fun x => f x = []) l -> flat_map f l = [].
Proof.
  induction 1 as [|x l Hx Hl IH]; [reflexivity|].
  cbn [flat_map]. rewrite Hx, IH. reflexivity.
Qed.

(** A format that starts with a day does not match a text whose first
    character is a digit when what follows the day matches neither
    after that digit nor after the next one. *)
Lemma day_first_fails (its : list item) (k : Z) (b : ascii) (r : string)
      (dt : date) :
  0 <= k <= 9 ->
  (forall dt', match_items its r dt' = []) ->
  (forall dt', match_items its (String b r) dt' = []) ->
  match_items (Dir Dd :: its) (String (digit_char k) (String b r)) dt = [].
Proof.
  intros Hk H1 H2. cbn [match_items match_item].
  apply flat_map_nil. rewrite Forall_map.
  eapply Forall_impl; [|exact (group_d_rests k b r Hk)].
  intros [v s] [Hs|Hs]; cbn [fst snd] in *; subst s; [apply H1|apply H2].
Qed.

Lemma item_first_fails (it : item) (its : list item) (s : string) (dt : date) :
  match_item it s dt = [] -> match_items (it :: its) s dt = [].
Proof. intros H. cbn [match_items]. rewrite H. reflexivity. Qed.

Lemma strptime_no_match (its : list item) (s fmt : string) :
  compile fmt = Some its -> match_items its s init = [] ->
  strptime s fmt = None.
Proof. intros Hc Hm. unfold strptime. rewrite Hc, Hm. reflexivity. Qed.

Lemma strptime_leftover (its : list item) (s fmt : string) (dt : date)
      (c : ascii) (rest : string) :
  compile fmt = Some its ->
  hd_error (match_items its s init) = Some (dt, String c rest) ->
  strptime s fmt = None.
Proof.
  intros Hc Hh. unfold strptime. rewrite Hc.
  destruct (match_items its s init) as [|[dt' r] l]; [reflexivity|].
  injection Hh as -> ->. reflexivity.
Qed.

(** A month-name group matches no text that starts with a digit. *)
Lemma names_not_digit (names : list string) (k : Z) (r : string) :
  names = month_names \/ names = month_abbrs ->
  0 <= k <= 9 -> group_names names (String (digit_char k) r) = [].
Proof.
  intros Hn Hk.
  assert (Hc : k = 0 \/ k = 1 \/ k = 2 \/ k = 3 \/ k = 4 \/ k = 5 \/ k = 6
               \/ k = 7 \/ k = 8 \/ k = 9) by lia.
  destruct Hn as [->| ->];
    repeat (destruct Hc as [->|Hc]; [reflexivity|]); subst k; reflexivity.
Qed.

Lemma digit_bounds (n : Z) : 0 <= n mod 10 <= 9.
Proof. pose proof (Z.mod_pos_bound n 10 ltac:(lia)). lia. Qed.


(** The parse of an ISO text under the first format stops where the
    day ends. *)
Lemma iso_head (dt : date) (suffix : string) :
  valid_date dt = true ->
  hd_error (match_items [Dir DY; Lit "-"; Dir Dm; Lit "-"; Dir Dd]
                        (render YmdDash dt ++ suffix) init)
  = Some (dt, suffix).
Proof.
  intros Hv. destruct (valid_date_bounds dt Hv) as (Hy & Hm & Hd).
  unfold render. rewrite !append_assoc.
  apply match_items_first
    with (dt1 := set_year init (year dt))
         (s1 := "-" ++ pad2 (month dt) ++ "-" ++ pad2 (day dt) ++ suffix).
  { cbn [match_item]. rewrite group_Y_pad4 by lia. reflexivity. }
  apply match_items_first
    with (dt1 := set_year init (year dt))
         (s1 := pad2 (month dt) ++ "-" ++ pad2 (day dt) ++ suffix);
    [reflexivity|].
  apply match_items_first
    with (dt1 := set_month (set_year init (year dt)) (month dt))
         (s1 := "-" ++ pad2 (day dt) ++ suffix).
  { cbn [match_item].
    rewrite (hd_error_map _ _ _ (group_m_pad2 _ _ Hm)). reflexivity. }
  apply match_items_first
    with (dt1 := set_month (set_year init (year dt)) (month dt))
         (s1 := pad2 (day dt) ++ suffix);
    [reflexivity|].
  apply match_items_first
    with (dt1 := set_day (set_month (set_year init (year dt)) (month dt))
                         (day dt))
         (s1 := suffix).
  { cbn [match_item].
    rewrite (hd_error_map _ _ _ (group_d_pad2 _ _ Hd)). reflexivity. }
  destruct dt; reflexivity.
Qed.

(** A text that starts with four digits is a date under the formats
    that start with the year only. *)
Lemma year_first_text (y : Z) (tail : string) (fmt : string)
      (its : list item) :
  compile fmt = Some its ->
  match its with
  | Dir Dd :: it :: _ =>
      it = Lit "-" \/ it = Lit "/" \/ it = Lit "," \/ it = Spaces
  | Dir DB :: _ | Dir Db :: _ => True
  | _ => False
  end ->
  strptime (pad4 y ++ tail) fmt = None.
Proof.
  intros Hc Hits. apply (strptime_no_match its _ _ Hc).
  unfold pad4. cbn [append].
  destruct its as [|[c| |[| | | |]] its]; try contradiction.
  - destruct its as [|it its]; [contradiction|].
    apply day_first_fails; [apply digit_bounds| |];
      intros dt'; apply item_first_fails, separator_not_digit;
      solve [exact Hits | apply digit_bounds].
  - apply item_first_fails. cbn [match_item].
    rewrite names_not_digit; [reflexivity|now left|apply digit_bounds].
  - apply item_first_fails. cbn [match_item].
    rewrite names_not_digit; [reflexivity|now right|apply digit_bounds].
Qed.

(** X4. An ISO date, the year on four digits, followed by anything at
    all (a time of day, a blank, a letter) is no date for
    [validate_date]. *)
Theorem validate_date_rejects_trailing_text (dt : date) (c : ascii)
        (rest : string) :
  valid_date dt = true ->
  validate_date (render YmdDash dt ++ String c rest) = None.
Proof.
  intros Hv. destruct (valid_date_bounds dt Hv) as (Hy & Hm & Hd).
  unfold validate_date.
  replace (String.eqb (render YmdDash dt ++ String c rest) "") with false
    by (unfold render, pad4; reflexivity).
  unfold formats. cbn [first_parse].
  rewrite (strptime_leftover _ _ "%Y-%m-%d" dt c rest eq_refl
                             (iso_head dt (String c rest) Hv)).
  assert (Hs : render YmdDash dt ++ String c rest
               = pad4 (year dt)
                 ++ ("-" ++ pad2 (month dt) ++ "-" ++ pad2 (day dt)
                     ++ String c rest)).
  { unfold render. rewrite !append_assoc. reflexivity. }
  rewrite Hs.
  rewrite (year_first_text _ _ "%d-%m-%Y" _ eq_refl) by (cbn; auto).
  rewrite (year_first_text _ _ "%d/%m/%Y" _ eq_refl) by (cbn; auto).
  rewrite (year_first_text _ _ "%B %d, %Y" _ eq_refl) by exact I.
  rewrite (year_first_text _ _ "%d %B %Y" _ eq_refl) by (cbn; auto).
  rewrite (year_first_text _ _ "%b %d, %Y" _ eq_refl) by exact I.
  rewrite (year_first_text _ _ "%d %b %Y" _ eq_refl) by (cbn; auto).
  assert (H3 : strptime (pad4 (year dt)
                         ++ ("-" ++ pad2 (month dt) ++ "-" ++ pad2 (day dt)
                             ++ String c rest)) "%Y/%m/%d" = None).
  { apply (strptime_no_match
             [Dir DY; Lit "/"; Dir Dm; Lit "/"; Dir Dd] _ "%Y/%m/%d" eq_refl).
    cbn [match_items match_item]. rewrite group_Y_pad4 by lia. reflexivity. }
  rewrite H3. reflexivity.
Qed.


Lemma group_Y_short (a b c : ascii) (r : string) :
  digit_val c = None -> group_Y (String a (String b (String c r))) = [].
Proof.
  intros H. unfold group_Y. destruct r; [reflexivity|].
  destruct (digit_val a); [|reflexivity].
  destruct (digit_val b); [|reflexivity].
  rewrite H. reflexivity.
Qed.

Lemma group_Y_end (y : Z) :
  0 <= y <= 9999 -> group_Y (pad4 y) = [(y, EmptyString)].
Proof.
  intros Hy. unfold pad4, group_Y.
  rewrite !digit_val_char by (Z.div_mod_to_equations; lia).
  f_equal. f_equal. Z.div_mod_to_equations. lia.
Qed.

(** A format that starts with the year does not match a text whose
    third character is not a digit. *)
Lemma year_first_fails (its : list item) (fmt : string) (d : Z) (c : ascii)
      (r : string) :
  compile fmt = Some (Dir DY :: its) -> digit_val c = None ->
  strptime (pad2 d ++ String c r) fmt = None.
Proof.
  intros Hc Hd. apply (strptime_no_match _ _ _ Hc).
  apply item_first_fails. unfold pad2. cbn [append match_item].
  rewrite group_Y_short by exact Hd. reflexivity.
Qed.

(** A format that starts with a day does not match a two-digit day
    followed by another separator than its own. *)
Lemma other_separator_fails (it : item) (its : list item) (fmt : string)
      (d : Z) (c : ascii) (r : string) :
  compile fmt = Some (Dir Dd :: it :: its) ->
  it = Lit "-" \/ it = Lit "/" \/ it = Lit "," \/ it = Spaces ->
  (forall dt, match_item it (String c r) dt = []) ->
  strptime (pad2 d ++ String c r) fmt = None.
Proof.
  intros Hc Hit Hsep. apply (strptime_no_match _ _ _ Hc).
  unfold pad2. cbn [append].
  apply day_first_fails; [apply digit_bounds| |]; intros dt'.
  - apply item_first_fails, Hsep.
  - apply item_first_fails, separator_not_digit;
      [exact Hit|apply digit_bounds].
Qed.

Lemma spaces_digit (k : Z) (r : string) :
  0 <= k <= 9 -> spaces (String (digit_char k) r) = [].
Proof.
  intros Hk.
  assert (Hc : k = 0 \/ k = 1 \/ k = 2 \/ k = 3 \/ k = 4 \/ k = 5 \/ k = 6
               \/ k = 7 \/ k = 8 \/ k = 9) by lia.
  repeat (destruct Hc as [->|Hc]; [reflexivity|]). subst k. reflexivity.
Qed.

Lemma spaces_before_digit (k : Z) (r : string) (dt : date) :
  0 <= k <= 9 ->
  match_item Spaces (String " " (String (digit_char k) r)) dt
  = [(dt, String (digit_char k) r)].
Proof.
  intros Hk. cbn [match_item].
  change (spaces (String " " (String (digit_char k) r)))
    with (spaces (String (digit_char k) r) ++ [String (digit_char k) r])%list.
  rewrite spaces_digit by exact Hk. reflexivity.
Qed.

Lemma spaces_before_year (y : Z) (dt : date) :
  match_item Spaces (String " " (pad4 y)) dt = [(dt, pad4 y)].
Proof. unfold pad4. apply spaces_before_digit, digit_bounds. Qed.

Lemma spaces_before_day (d : Z) (r : string) (dt : date) :
  match_item Spaces (String " " (pad2 d ++ r)) dt = [(dt, pad2 d ++ r)].
Proof. unfold pad2. cbn [append]. apply spaces_before_digit, digit_bounds. Qed.

Ltac months m Hm :=
  let Hc := fresh "Hc" in
  assert (Hc : m = 1 \/ m = 2 \/ m = 3 \/ m = 4 \/ m = 5 \/ m = 6 \/ m = 7
               \/ m = 8 \/ m = 9 \/ m = 10 \/ m = 11 \/ m = 12) by lia;
  clear Hm;
  repeat (destruct Hc as [->|Hc]; [|]); [..|subst m].

Lemma month_word_parses (full : bool) (m : Z) (r : string) :
  1 <= m <= 12 ->
  group_names (month_group full) (month_word full m ++ String " " r)
  = [(m, String " " r)].
Proof.
  intros Hm. destruct full; months m Hm; reflexivity.
Qed.

Lemma abbr_is_no_full_name (m : Z) (r : string) :
  1 <= m <= 12 -> m <> 5 ->
  group_names month_names (month_abbr m ++ String " " r) = [].
Proof.
  intros Hm H5. months m Hm; try reflexivity. contradiction.
Qed.

Lemma month_word_no_year (full : bool) (m : Z) (r : string) :
  1 <= m <= 12 -> group_Y (month_word full m ++ String " " r) = [].
Proof.
  intros Hm. destruct full; months m Hm; reflexivity.
Qed.

Lemma month_word_no_day (full : bool) (m : Z) (r : string) :
  1 <= m <= 12 -> group_d (month_word full m ++ String " " r) = [].
Proof.
  intros Hm. destruct full; months m Hm; reflexivity.
Qed.

Lemma spaces_before_month (full : bool) (m : Z) (r : string) (dt : date) :
  1 <= m <= 12 ->
  match_item Spaces (String " " (month_word full m ++ String " " r)) dt
  = [(dt, month_word full m ++ String " " r)].
Proof.
  intros Hm. destruct full; months m Hm; reflexivity.
Qed.


Lemma match_month_dir (full : bool) (s : string) (dt : date) :
  match_item (Dir (month_dir full)) s dt
  = map (fun vr => (set_month dt (fst vr), snd vr))
        (group_names (month_group full) s).
Proof. destruct full; reflexivity. Qed.

Lemma match_lit_same (c : ascii) (r : string) (dt : date) :
  match_item (Lit c) (String c r) dt = [(dt, r)].
Proof. cbn [match_item]. rewrite Ascii.eqb_refl. reflexivity. Qed.

Ltac step d s := apply match_items_first with (dt1 := d) (s1 := s).

Lemma ymd_head (c : ascii) (dt : date) :
  valid_date dt = true ->
  hd_error (match_items [Dir DY; Lit c; Dir Dm; Lit c; Dir Dd]
              (pad4 (year dt)
               ++ String c (pad2 (month dt) ++ String c (pad2 (day dt))))
              init)
  = Some (dt, EmptyString).
Proof.
  intros Hv. destruct (valid_date_bounds dt Hv) as (Hy & Hm & Hd).
  step (set_year init (year dt))
       (String c (pad2 (month dt) ++ String c (pad2 (day dt)))).
  { cbn [match_item]. rewrite group_Y_pad4 by lia. reflexivity. }
  step (set_year init (year dt)) (pad2 (month dt) ++ String c (pad2 (day dt))).
  { rewrite match_lit_same. reflexivity. }
  step (set_month (set_year init (year dt)) (month dt))
       (String c (pad2 (day dt))).
  { cbn [match_item].
    rewrite (hd_error_map _ _ _ (group_m_pad2 _ _ Hm)). reflexivity. }
  step (set_month (set_year init (year dt)) (month dt))
       (pad2 (day dt) ++ EmptyString).
  { rewrite match_lit_same. reflexivity. }
  step (set_day (set_month (set_year init (year dt)) (month dt)) (day dt))
       EmptyString.
  { cbn [match_item].
    rewrite (hd_error_map _ _ _ (group_d_pad2 _ _ Hd)). reflexivity. }
  destruct dt; reflexivity.
Qed.

Lemma dmy_head (c : ascii) (dt : date) :
  valid_date dt = true ->
  hd_error (match_items [Dir Dd; Lit c; Dir Dm; Lit c; Dir DY]
              (pad2 (day dt)
               ++ String c (pad2 (month dt) ++ String c (pad4 (year dt))))
              init)
  = Some (dt, EmptyString).
Proof.
  intros Hv. destruct (valid_date_bounds dt Hv) as (Hy & Hm & Hd).
  step (set_day init (day dt))
       (String c (pad2 (month dt) ++ String c (pad4 (year dt)))).
  { cbn [match_item].
    rewrite (hd_error_map _ _ _ (group_d_pad2 _ _ Hd)). reflexivity. }
  step (set_day init (day dt)) (pad2 (month dt) ++ String c (pad4 (year dt))).
  { rewrite match_lit_same. reflexivity. }
  step (set_month (set_day init (day dt)) (month dt))
       (String c (pad4 (year dt))).
  { cbn [match_item].
    rewrite (hd_error_map _ _ _ (group_m_pad2 _ _ Hm)). reflexivity. }
  step (set_month (set_day init (day dt)) (month dt)) (pad4 (year dt)).
  { rewrite match_lit_same. reflexivity. }
  step (set_year (set_month (set_day init (day dt)) (month dt)) (year dt))
       EmptyString.
  { cbn [match_item]. rewrite group_Y_end by lia. reflexivity. }
  destruct dt; reflexivity.
Qed.

Lemma month_day_year_head (full : bool) (dt : date) :
  valid_date dt = true ->
  hd_error (match_items
              [Dir (month_dir full); Spaces; Dir Dd; Lit ","; Spaces; Dir DY]
              (month_word full (month dt)
               ++ String " " (pad2 (day dt)
                              ++ String "," (String " " (pad4 (year dt)))))
              init)
  = Some (dt, EmptyString).
Proof.
  intros Hv. destruct (valid_date_bounds dt Hv) as (Hy & Hm & Hd).
  step (set_month init (month dt))
       (String " " (pad2 (day dt)
                    ++ String "," (String " " (pad4 (year dt))))).
  { rewrite match_month_dir, month_word_parses by exact Hm. reflexivity. }
  step (set_month init (month dt))
       (pad2 (day dt) ++ String "," (String " " (pad4 (year dt)))).
  { rewrite spaces_before_day. reflexivity. }
  step (set_day (set_month init (month dt)) (day dt))
       (String "," (String " " (pad4 (year dt)))).
  { cbn [match_item].
    rewrite (hd_error_map _ _ _ (group_d_pad2 _ _ Hd)). reflexivity. }
  step (set_day (set_month init (month dt)) (day dt))
       (String " " (pad4 (year dt))).
  { rewrite match_lit_same. reflexivity. }
  step (set_day (set_month init (month dt)) (day dt)) (pad4 (year dt)).
  { rewrite spaces_before_year. reflexivity. }
  step (set_year (set_day (set_month init (month dt)) (day dt)) (year dt))
       EmptyString.
  { cbn [match_item]. rewrite group_Y_end by lia. reflexivity. }
  destruct dt; reflexivity.
Qed.

Lemma day_month_year_head (full : bool) (dt : date) :
  valid_date dt = true ->
  hd_error (match_items
              [Dir Dd; Spaces; Dir (month_dir full); Spaces; Dir DY]
              (pad2 (day dt)
               ++ String " " (month_word full (month dt)
                              ++ String " " (pad4 (year dt))))
              init)
  = Some (dt, EmptyString).
Proof.
  intros Hv. destruct (valid_date_bounds dt Hv) as (Hy & Hm & Hd).
  step (set_day init (day dt))
       (String " " (month_word full (month dt)
                    ++ String " " (pad4 (year dt)))).
  { cbn [match_item].
    rewrite (hd_error_map _ _ _ (group_d_pad2 _ _ Hd)). reflexivity. }
  step (set_day init (day dt))
       (month_word full (month dt) ++ String " " (pad4 (year dt))).
  { rewrite spaces_before_month by exact Hm. reflexivity. }
  step (set_month (set_day init (day dt)) (month dt))
       (String " " (pad4 (year dt))).
  { rewrite match_month_dir, month_word_parses by exact Hm. reflexivity. }
  step (set_month (set_day init (day dt)) (month dt)) (pad4 (year dt)).
  { rewrite spaces_before_year. reflexivity. }
  step (set_year (set_month (set_day init (day dt)) (month dt)) (year dt))
       EmptyString.
  { cbn [match_item]. rewrite group_Y_end by lia. reflexivity. }
  destruct dt; reflexivity.
Qed.

(** The text [render st dt] in the shape the matcher walks. *)
Lemma render_shape (st : style) (dt : date) :
  render st dt
  = match st with
    | YmdDash =>
        pad4 (year dt)
        ++ String "-" (pad2 (month dt) ++ String "-" (pad2 (day dt)))
    | DmyDash =>
        pad2 (day dt)
        ++ String "-" (pad2 (month dt) ++ String "-" (pad4 (year dt)))
    | YmdSlash =>
        pad4 (year dt)
        ++ String "/" (pad2 (month dt) ++ String "/" (pad2 (day dt)))
    | DmySlash =>
        pad2 (day dt)
        ++ String "/" (pad2 (month dt) ++ String "/" (pad4 (year dt)))
    | MonthDayYear =>
        month_word true (month dt)
        ++ String " " (pad2 (day dt)
                       ++ String "," (String " " (pad4 (year dt))))
    | DayMonthYear =>
        pad2 (day dt)
        ++ String " " (month_word true (month dt)
                       ++ String " " (pad4 (year dt)))
    | AbbrDayYear =>
        month_word false (month dt)
        ++ String " " (pad2 (day dt)
                       ++ String "," (String " " (pad4 (year dt))))
    | DayAbbrYear =>
        pad2 (day dt)
        ++ String " " (month_word false (month dt)
                       ++ String " " (pad4 (year dt)))
    end.
Proof. destruct st; reflexivity. Qed.

(** Each way of writing a date parses under its own format. *)
Lemma render_parses (st : style) (dt : date) :
  valid_date dt = true ->
  strptime (render st dt) (style_format st) = Some dt.
Proof.
  intros Hv. rewrite render_shape.
  destruct st; cbn [style_format].
  - apply strptime_of_first
      with (its := [Dir DY; Lit "-"; Dir Dm; Lit "-"; Dir Dd]);
      [reflexivity|apply ymd_head, Hv|exact Hv].
  - apply strptime_of_first
      with (its := [Dir Dd; Lit "-"; Dir Dm; Lit "-"; Dir DY]);
      [reflexivity|apply dmy_head, Hv|exact Hv].
  - apply strptime_of_first
      with (its := [Dir DY; Lit "/"; Dir Dm; Lit "/"; Dir Dd]);
      [reflexivity|apply ymd_head, Hv|exact Hv].
  - apply strptime_of_first
      with (its := [Dir Dd; Lit "/"; Dir Dm; Lit "/"; Dir DY]);
      [reflexivity|apply dmy_head, Hv|exact Hv].
  - apply strptime_of_first
      with (its := [Dir DB; Spaces; Dir Dd; Lit ","; Spaces; Dir DY]);
      [reflexivity|apply (month_day_year_head true), Hv|exact Hv].
  - apply strptime_of_first
      with (its := [Dir Dd; Spaces; Dir DB; Spaces; Dir DY]);
      [reflexivity|apply (day_month_year_head true), Hv|exact Hv].
  - apply strptime_of_first
      with (its := [Dir Db; Spaces; Dir Dd; Lit ","; Spaces; Dir DY]);
      [reflexivity|apply (month_day_year_head false), Hv|exact Hv].
  - apply strptime_of_first
      with (its := [Dir Dd; Spaces; Dir Db; Spaces; Dir DY]);
      [reflexivity|apply (day_month_year_head false), Hv|exact Hv].
Qed.

(** A format that starts with a year or a day does not match a text
    that starts with the name of a month. *)
Lemma word_first_fails (it : item) (its : list item) (fmt : string)
      (full : bool) (m : Z) (r : string) :
  compile fmt = Some (it :: its) -> it = Dir DY \/ it = Dir Dd ->
  1 <= m <= 12 ->
  strptime (month_word full m ++ String " " r) fmt = None.
Proof.
  intros Hc Hit Hm. apply (strptime_no_match _ _ _ Hc).
  apply item_first_fails. destruct Hit as [-> | ->]; cbn [match_item].
  - rewrite month_word_no_year by exact Hm. reflexivity.
  - rewrite month_word_no_day by exact Hm. reflexivity.
Qed.

(** A format that starts with the name of a month does not match a
    text that starts with a two-digit day. *)
Lemma name_first_fails (full : bool) (its : list item) (fmt : string)
      (d : Z) (r : string) :
  compile fmt = Some (Dir (month_dir full) :: its) ->
  strptime (pad2 d ++ r) fmt = None.
Proof.
  intros Hc. apply (strptime_no_match _ _ _ Hc).
  apply item_first_fails. rewrite match_month_dir.
  unfold pad2. cbn [append].
  rewrite names_not_digit;
    [reflexivity|destruct full; auto|apply digit_bounds].
Qed.

Lemma render_not_empty (st : style) (dt : date) :
  1 <= month dt <= 12 -> String.eqb (render st dt) "" = false.
Proof.
  intros Hm. rewrite render_shape.
  destruct st; try reflexivity; destruct dt as [y m d]; cbn [month] in *;
    months m Hm; reflexivity.
Qed.


(** A year written first, then a slash, is not the dashed format. *)
Lemma slash_is_no_dash (y : Z) (r : string) :
  0 <= y <= 9999 ->
  strptime (pad4 y ++ String "/" r) "%Y-%m-%d" = None.
Proof.
  intros Hy.
  apply (strptime_no_match
           [Dir DY; Lit "-"; Dir Dm; Lit "-"; Dir Dd] _ "%Y-%m-%d" eq_refl).
  cbn [match_items match_item]. rewrite group_Y_pad4 by exact Hy.
  reflexivity.
Qed.

(** A day followed by an abbreviated month other than May is not the
    format with the full name. *)
Lemma abbr_is_no_full_format (d m : Z) (r : string) :
  1 <= m <= 12 -> m <> 5 ->
  strptime (pad2 d ++ String " " (month_word false m ++ String " " r))
           "%d %B %Y" = None.
Proof.
  intros Hm H5.
  apply (strptime_no_match
           [Dir Dd; Spaces; Dir DB; Spaces; Dir DY] _ "%d %B %Y" eq_refl).
  unfold pad2. cbn [append].
  apply day_first_fails; [apply digit_bounds| |]; intros dt'.
  - cbn [match_items]. rewrite spaces_before_month by exact Hm.
    cbn [flat_map fst snd match_items match_item month_word].
    rewrite abbr_is_no_full_name by assumption. reflexivity.
  - apply item_first_fails, separator_not_digit;
      [auto|apply digit_bounds].
Qed.

Lemma abbr_is_no_full_first (m : Z) (r : string) :
  1 <= m <= 12 -> m <> 5 ->
  strptime (month_word false m ++ String " " r) "%B %d, %Y" = None.
Proof.
  intros Hm H5.
  apply (strptime_no_match
           [Dir DB; Spaces; Dir Dd; Lit ","; Spaces; Dir DY] _
           "%B %d, %Y" eq_refl).
  apply item_first_fails. cbn [match_item month_word].
  rewrite abbr_is_no_full_name by assumption. reflexivity.
Qed.

(** X5. A calendar day written in any of the eight formats that
    [validate_date] lists, the year on four digits, day and month on
    two and the month named in English, parses under its format to
    that day, and [validate_date] returns what [strftime] prints for
    that day, no earlier format having taken the text for another
    date. For a year from 1000 on that is the day's YYYY-MM-DD text. *)
Theorem validate_date_accepts_every_style (st : style) (dt : date) :
  valid_date dt = true ->
  strptime (render st dt) (style_format st) = Some dt
  /\ validate_date (render st dt) = Some (strftime_Y_m_d dt)
  /\ (1000 <= year dt ->
      validate_date (render st dt) = Some (render YmdDash dt)).
Proof.
  intros Hv. split; [exact (render_parses st dt Hv)|].
  destruct (valid_date_bounds dt Hv) as (Hy & Hm & Hd).
  assert (Hiso : 1000 <= year dt -> strftime_Y_m_d dt = render YmdDash dt).
  { intros Hlong. unfold strftime_Y_m_d, render.
    rewrite str_of_int_pad4 by lia. reflexivity. }
  enough (Hmain : validate_date (render st dt) = Some (strftime_Y_m_d dt)).
  { split; [exact Hmain|]. intros Hlong. rewrite <- (Hiso Hlong).
    exact Hmain. }
  unfold validate_date. rewrite render_not_empty by exact Hm.
  pose proof (render_parses st dt Hv) as Hhit.
  rewrite render_shape in Hhit |- *. unfold formats.
  destruct st; cbn [style_format] in Hhit; cbn [first_parse].
  - rewrite Hhit. reflexivity.
  - rewrite (year_first_fails _ "%Y-%m-%d" _ _ _ eq_refl) by reflexivity.
    rewrite Hhit. reflexivity.
  - rewrite slash_is_no_dash by lia.
    rewrite (year_first_text _ _ "%d-%m-%Y" _ eq_refl) by (cbn; auto).
    rewrite Hhit. reflexivity.
  - rewrite (year_first_fails _ "%Y-%m-%d" _ _ _ eq_refl) by reflexivity.
    rewrite (other_separator_fails _ _ "%d-%m-%Y" _ _ _ eq_refl)
      by (try reflexivity; auto).
    rewrite (year_first_fails _ "%Y/%m/%d" _ _ _ eq_refl) by reflexivity.
    rewrite Hhit. reflexivity.
  - rewrite (word_first_fails _ _ "%Y-%m-%d" _ _ _ eq_refl) by auto.
    rewrite (word_first_fails _ _ "%d-%m-%Y" _ _ _ eq_refl) by auto.
    rewrite (word_first_fails _ _ "%Y/%m/%d" _ _ _ eq_refl) by auto.
    rewrite (word_first_fails _ _ "%d/%m/%Y" _ _ _ eq_refl) by auto.
    rewrite Hhit. reflexivity.
  - rewrite (year_first_fails _ "%Y-%m-%d" _ _ _ eq_refl) by reflexivity.
    rewrite (other_separator_fails _ _ "%d-%m-%Y" _ _ _ eq_refl)
      by (try reflexivity; auto).
    rewrite (year_first_fails _ "%Y/%m/%d" _ _ _ eq_refl) by reflexivity.
    rewrite (other_separator_fails _ _ "%d/%m/%Y" _ _ _ eq_refl)
      by (try reflexivity; auto).
    rewrite (name_first_fails true _ "%B %d, %Y" _ _ eq_refl).
    rewrite Hhit. reflexivity.
  - rewrite (word_first_fails _ _ "%Y-%m-%d" _ _ _ eq_refl) by auto.
    rewrite (word_first_fails _ _ "%d-%m-%Y" _ _ _ eq_refl) by auto.
    rewrite (word_first_fails _ _ "%Y/%m/%d" _ _ _ eq_refl) by auto.
    rewrite (word_first_fails _ _ "%d/%m/%Y" _ _ _ eq_refl) by auto.
    destruct (Z.eq_dec (month dt) 5) as [E5|N5].
    + pose proof (render_parses MonthDayYear dt Hv) as Hfull.
      rewrite render_shape in Hfull. cbn [style_format] in Hfull.
      rewrite E5 in Hfull |- *.
      change (month_word false 5) with (month_word true 5).
      rewrite Hfull. reflexivity.
    + rewrite abbr_is_no_full_first by assumption.
      rewrite (word_first_fails _ _ "%d %B %Y" _ _ _ eq_refl) by auto.
      rewrite Hhit. reflexivity.
  - rewrite (year_first_fails _ "%Y-%m-%d" _ _ _ eq_refl) by reflexivity.
    rewrite (other_separator_fails _ _ "%d-%m-%Y" _ _ _ eq_refl)
      by (try reflexivity; auto).
    rewrite (year_first_fails _ "%Y/%m/%d" _ _ _ eq_refl) by reflexivity.
    rewrite (other_separator_fails _ _ "%d/%m/%Y" _ _ _ eq_refl)
      by (try reflexivity; auto).
    rewrite (name_first_fails true _ "%B %d, %Y" _ _ eq_refl).
    destruct (Z.eq_dec (month dt) 5) as [E5|N5].
    + pose proof (render_parses DayMonthYear dt Hv) as Hfull.
      rewrite render_shape in Hfull. cbn [style_format] in Hfull.
      rewrite E5 in Hfull |- *.
      change (month_word false 5) with (month_word true 5).
      rewrite Hfull. reflexivity.
    + rewrite abbr_is_no_full_format by assumption.
      rewrite (name_first_fails false _ "%b %d, %Y" _ _ eq_refl).
      rewrite Hhit. reflexivity.
Qed.

Lemma has_year_tail (c : ascii) (r : string) :
  has_year (String c r) = false -> has_year r = false.
Proof.
  cbn [has_year]. destruct (group_Y (String c r)); [auto|discriminate].
Qed.

Lemma has_year_group_Y (s : string) : has_year s = false -> group_Y s = [].
Proof.
  destruct s as [|c r]; [reflexivity|]. cbn [has_year].
  destruct (group_Y (String c r)); [reflexivity|discriminate].
Qed.

Lemma two_rests (lo1 hi1 lo2 hi2 : Z) (s : string) :
  has_year s = false ->
  Forall (fun vr => has_year (snd vr) = false) (two lo1 hi1 lo2 hi2 s).
Proof.
  intros H. unfold two. destruct s as [|a [|b r]]; try constructor.
  destruct (in_range lo1 hi1 a), (in_range lo2 hi2 b); constructor;
    try constructor.
  exact (has_year_tail _ _ (has_year_tail _ _ H)).
Qed.

Lemma one_rests (lo hi : Z) (s : string) :
  has_year s = false ->
  Forall (fun vr => has_year (snd vr) = false) (one lo hi s).
Proof.
  intros H. unfold one. destruct s as [|a r]; try constructor.
  destruct (in_range lo hi a); constructor; try constructor.
  exact (has_year_tail _ _ H).
Qed.

Lemma spaces_rests (s : string) :
  has_year s = false -> Forall (fun r => has_year r = false) (spaces s).
Proof.
  induction s as [|c r IH]; intros H; [constructor|]. cbn [spaces].
  destruct (is_space c); [|constructor].
  pose proof (has_year_tail _ _ H) as Hr.
  apply Forall_app. split; [exact (IH Hr)|]. constructor; [exact Hr|constructor].
Qed.

Lemma match_name_rest (name s r : string) :
  has_year s = false -> match_name name s = Some r -> has_year r = false.
Proof.
  revert s. induction name as [|a n IH]; intros s H.
  - cbn [match_name]. now intros [= <-].
  - destruct s as [|b s']; cbn [match_name]; [discriminate|].
    destruct (lower_char b =? lower_char a)%char; [|discriminate].
    apply IH. exact (has_year_tail _ _ H).
Qed.

Lemma group_names_rests (names : list string) (s : string) :
  has_year s = false ->
  Forall (fun vr => has_year (snd vr) = false) (group_names names s).
Proof.
  intros H. unfold group_names.
  induction (longest_first (numbered 1 names)) as [|nk l IH];
    [constructor|].
  cbn [flat_map]. apply Forall_app. split; [|exact IH].
  destruct (match_name (fst nk) s) as [r|] eqn:Hm; constructor;
    [|constructor].
  exact (match_name_rest _ _ _ H Hm).
Qed.

(** What an item leaves of a text without four digits in a row has no
    four digits in a row. *)
Lemma match_item_rests (it : item) (s : string) (dt : date) :
  has_year s = false ->
  Forall (fun p => has_year (snd p) = false) (match_item it s dt).
Proof.
  intros H. destruct it as [c| |[| | | |]]; cbn [match_item].
  - destruct s as [|x r]; [constructor|].
    destruct (lower_char x =? lower_char c)%char; constructor;
      [exact (has_year_tail _ _ H)|constructor].
  - rewrite Forall_map. exact (spaces_rests s H).
  - rewrite (has_year_group_Y s H). constructor.
  - rewrite Forall_map. unfold group_m.
    repeat (apply Forall_app; split);
      first [apply two_rests | apply one_rests]; exact H.
  - rewrite Forall_map. unfold group_d.
    repeat (apply Forall_app; split);
      try (first [apply two_rests | apply one_rests]; exact H).
    destruct s as [|c r]; [constructor|].
    destruct c as [[|] [|] [|] [|] [|] [|] [|] [|]]; try constructor.
    apply one_rests. exact (has_year_tail _ _ H).
  - rewrite Forall_map. exact (group_names_rests _ s H).
  - rewrite Forall_map. exact (group_names_rests _ s H).
Qed.

(** A pattern that asks for a year matches no text without four
    digits in a row. *)
Lemma no_year_no_match (its : list item) :
  existsb is_year its = true ->
  forall s dt, has_year s = false -> match_items its s dt = [].
Proof.
  induction its as [|it its IH]; [discriminate|].
  intros Hy s dt H. cbn [match_items].
  destruct (is_year it) eqn:Hit.
  - destruct it as [c| |[| | | |]]; try discriminate Hit.
    cbn [match_item]. rewrite (has_year_group_Y s H). reflexivity.
  - cbn [existsb] in Hy. rewrite Hit in Hy. cbn [orb] in Hy.
    apply flat_map_nil.
    eapply Forall_impl; [|exact (match_item_rests it s dt H)].
    intros [dt' s'] Hs. cbn [fst snd] in *. exact (IH Hy s' dt' Hs).
Qed.

(** Every format of the server asks for a year: none accepts a text
    without four digits in a row. *)
Lemma validate_date_needs_year (s : string) :
  has_year s = false -> validate_date s = None.
Proof.
  intros H. unfold validate_date. destruct (String.eqb s ""); [reflexivity|].
  unfold formats. cbn [first_parse].
  rewrite (strptime_no_match _ s "%Y-%m-%d" eq_refl)
    by (apply no_year_no_match; [reflexivity|exact H]).
  rewrite (strptime_no_match _ s "%d-%m-%Y" eq_refl)
    by (apply no_year_no_match; [reflexivity|exact H]).
  rewrite (strptime_no_match _ s "%Y/%m/%d" eq_refl)
    by (apply no_year_no_match; [reflexivity|exact H]).
  rewrite (strptime_no_match _ s "%d/%m/%Y" eq_refl)
    by (apply no_year_no_match; [reflexivity|exact H]).
  rewrite (strptime_no_match _ s "%B %d, %Y" eq_refl)
    by (apply no_year_no_match; [reflexivity|exact H]).
  rewrite (strptime_no_match _ s "%d %B %Y" eq_refl)
    by (apply no_year_no_match; [reflexivity|exact H]).
  rewrite (strptime_no_match _ s "%b %d, %Y" eq_refl)
    by (apply no_year_no_match; [reflexivity|exact H]).
  rewrite (strptime_no_match _ s "%d %b %Y" eq_refl)
    by (apply no_year_no_match; [reflexivity|exact H]).
  reflexivity.
Qed.

(** A year below 1000 is printed on one, two or three digits. *)
Lemma str_of_int_short (y : Z) :
  1 <= y <= 999 ->
  str_of_int y
  = if y <? 10 then String (digit_char (y mod 10)) EmptyString
    else if y <? 100
         then String (digit_char (y / 10 mod 10))
                     (String (digit_char (y mod 10)) EmptyString)
         else String (digit_char (y / 100 mod 10))
                     (String (digit_char (y / 10 mod 10))
                             (String (digit_char (y mod 10)) EmptyString)).
Proof.
  intros Hy. unfold str_of_int.
  replace (y <? 0) with false by (symmetry; apply Z.ltb_ge; lia).
  rewrite Z.abs_eq by lia.
  destruct (y <? 10) eqn:H1; [|destruct (y <? 100) eqn:H2].
  - apply Z.ltb_lt in H1. rewrite digits_of_S.
    replace (y / 10 =? 0) with true
      by (symmetry; apply Z.eqb_eq; Z.div_mod_to_equations; lia).
    reflexivity.
  - apply Z.ltb_ge in H1. apply Z.ltb_lt in H2.
    assert (Hf : exists f, Z.to_nat (Z.log2 y) = S f).
    { assert (3 <= Z.log2 y)
        by (change 3 with (Z.log2 8); apply Z.log2_le_mono; lia).
      exists (Z.to_nat (Z.log2 y) - 1)%nat. lia. }
    destruct Hf as [f ->]. rewrite !digits_of_S.
    replace (y / 10 =? 0) with false
      by (symmetry; apply Z.eqb_neq; Z.div_mod_to_equations; lia).
    replace (y / 10 / 10 =? 0) with true
      by (symmetry; apply Z.eqb_eq; Z.div_mod_to_equations; lia).
    reflexivity.
  - apply Z.ltb_ge in H1. apply Z.ltb_ge in H2.
    assert (Hf : exists f, Z.to_nat (Z.log2 y) = S (S f)).
    { assert (6 <= Z.log2 y)
        by (change 6 with (Z.log2 64); apply Z.log2_le_mono; lia).
      exists (Z.to_nat (Z.log2 y) - 2)%nat. lia. }
    destruct Hf as [f ->]. rewrite !digits_of_S.
    replace (y / 10 =? 0) with false
      by (symmetry; apply Z.eqb_neq; Z.div_mod_to_equations; lia).
    replace (y / 10 / 10 =? 0) with false
      by (symmetry; apply Z.eqb_neq; Z.div_mod_to_equations; lia).
    replace (y / 10 / 10 / 10 =? 0) with true
      by (symmetry; apply Z.eqb_eq; Z.div_mod_to_equations; lia).
    rewrite !Z.div_div by lia. reflexivity.
Qed.

(** The text printed for a date of a year below 1000 has no four
    digits in a row. *)
Lemma short_year_text (dt : date) :
  1 <= year dt <= 999 ->
  has_year (strftime_Y_m_d dt) = false
  /\ (String.length (strftime_Y_m_d dt) < 10)%nat.
Proof.
  intros Hy. unfold strftime_Y_m_d. rewrite str_of_int_short by exact Hy.
  unfold pad2.
  destruct (year dt <? 10); [|destruct (year dt <? 100)];
    (split; [|cbn; lia]);
    cbn [append has_year group_Y];
    rewrite !digit_val_char by apply digit_bounds; reflexivity.
Qed.

(** X3. Whatever [validate_date] returns is the text of a day the
    calendar has: the year in decimal, then the month and the day on
    two digits each. For a year from 1000 on that text has ten
    characters, YYYY-MM-DD, parses back under the first format to that
    day, and [validate_date] returns it unchanged. For a year below
    1000 it has fewer than ten characters and [validate_date] does not
    accept it. *)
Theorem validate_date_returns_calendar_day (date_str r : string) :
  validate_date date_str = Some r ->
  exists y m d,
    1 <= y <= 9999 /\ 1 <= m <= 12 /\ 1 <= d <= days_in_month y m
    /\ r = str_of_int y ++ "-" ++ pad2 m ++ "-" ++ pad2 d
    /\ (1000 <= y ->
        String.length r = 10%nat
        /\ strptime r "%Y-%m-%d" = Some (mkDate y m d)
        /\ validate_date r = Some r)
    /\ (y < 1000 ->
        (String.length r < 10)%nat /\ validate_date r = None).
Proof.
  unfold validate_date at 1.
  destruct (String.eqb date_str ""); [discriminate|].
  intros H. destruct (first_parse_some _ _ _ H) as (dt & Hv & ->).
  pose proof (strptime_strftime dt Hv) as Hp.
  pose proof (short_year_text dt) as Hshort.
  destruct dt as [y m d]. exists y, m, d. cbn [year] in Hp, Hshort.
  pose proof Hv as Hb. unfold valid_date in Hb. cbn [year month day] in Hb.
  repeat (apply andb_prop in Hb; destruct Hb as [Hb ?]).
  split; [lia|]. split; [lia|]. split; [lia|]. split; [reflexivity|].
  split.
  - intros Hlong. specialize (Hp Hlong). split; [|split; [exact Hp|]].
    + unfold strftime_Y_m_d. cbn [year month day].
      rewrite str_of_int_pad4 by lia. reflexivity.
    + unfold validate_date.
      replace (String.eqb (strftime_Y_m_d (mkDate y m d)) "") with false
        by (unfold strftime_Y_m_d;
            destruct (str_of_int (year (mkDate y m d))); reflexivity).
      unfold formats. cbn [first_parse]. rewrite Hp. reflexivity.
  - intros Hlow. destruct Hshort as [Hno Hlen]; [lia|].
    split; [exact Hlen|]. apply validate_date_needs_year, Hno.
Qed.

End DateShapes.

(** ** The lookup tools and the raw query, whatever the store does *)

Section LookupProperties.
Import PyStr PyDate Py Json Effects Server.
Context {W : Type}.
Variable h : env storeE W.


(** X8. The query of a lookup tool constrains the carrier when one is
    given, as it is written; the flight number when it reads as an
    integer; the date when [validate_date] accepts it, as the
    normalised text. It constrains nothing else, and nothing at all
    when the three arguments are empty. *)
Theorem lookup_query_constraints
        (carrier flight_number date_of_origin : string) :
  make_query carrier (fn_of flight_number) (dob_of date_of_origin)
  = ((if (carrier =? "")%string then []
      else [("flightLegState.carrier", PStr carrier)])
     ++ match fn_of flight_number with
        | Some n => [("flightLegState.flightNumber", PInt n)]
        | None => []
        end
     ++ match validate_date date_of_origin with
        | Some d => [("flightLegState.dateOfOrigin", PStr d)]
        | None => []
        end)%list
  /\ make_query "" (fn_of "") (dob_of "") = [].
Proof.
  split; [|reflexivity].
  assert (Hd : dob_of date_of_origin = validate_date date_of_origin).
  { unfold dob_of, validate_date. cbn [truthy].
    destruct (String.eqb date_of_origin ""); reflexivity. }
  pose proof (dob_of_truthy date_of_origin) as Ht. rewrite Hd in Ht |- *.
  unfold make_query. cbn [truthy].
  destruct (validate_date date_of_origin) as [d|].
  - specialize (Ht d eq_refl). cbn [truthy] in Ht. rewrite Ht.
    destruct (String.eqb carrier ""), (fn_of flight_number); reflexivity.
  - destruct (String.eqb carrier ""), (fn_of flight_number); reflexivity.
Qed.

End LookupProperties.

Section RawOutcomes.
Import PyStr Py Json Effects Server.
Context {W : Type}.
Variable h : env storeE W.
Variable json_loads : string -> exn + value.

(** X9. Once its filter parses, the raw-query tool answers whatever the
    store does: a failure of the store is the 500 error "raw query
    failed: " with the cause, no document is the 404 error, and
    documents are returned in the order of the store with their
    number as [count], each without [_id] and [_class]. *)
Theorem raw_query_outcomes (query_json : string) (limit : Z) (g : globals)
        (w w1 : W) (query : value) (reply : exn + list dict) :
  json_loads query_json = inr query ->
  h _ (FindSortLimit query "flightLegState.dateOfOrigin" (-1)
                     (Z.min (Z.max 1 limit) 50)) w = (reply, w1) ->
  exists out,
    fst (exec h (raw_mongodb_query json_loads query_json limit g) w)
    = ((Ok out, Globals true), w1)
    /\ (forall cause, reply = inl cause ->
        out = response_error ("raw query failed: " ++ cause) 500)
    /\ (reply = inr [] ->
        out = response_error "No documents found for given query." 404)
    /\ (forall doc docs, reply = inr (doc :: docs) ->
        out = response_ok
                (PDict [("count", PInt (Z.of_nat (List.length (doc :: docs))));
                        ("documents",
                         PList (map (fun d => PDict (strip_internal d))
                                    (doc :: docs)))])
        /\ Forall (fun d => dict_get "_id" (strip_internal d) = None
                            /\ dict_get "_class" (strip_internal d) = None)
                  (doc :: docs)).
Proof.
  intros Hj Hh.
  rewrite (raw_query_exec h json_loads _ limit g w w1 query reply Hj Hh).
  eexists. split; [reflexivity|]. split; [|split].
  - intros cause ->. reflexivity.
  - intros ->. reflexivity.
  - intros doc docs ->. split.
    + cbn [map List.length]. rewrite length_map, map_map. reflexivity.
    + apply Forall_forall. intros d _. split;
        [apply strip_internal_no_id|apply strip_internal_no_class].
Qed.

End RawOutcomes.

(** ** The client when the server or the plan fails *)

Section ConnectionProperties.
Import PyStr Py Json Effects ToolRegistry Client Plan Faults.
Context {W : Type}.
Variable h : env clientE W.
Variable json_loads : string -> exn + value.
Variable GROQ_MODEL : string.

(** A transport that does not open leaves the session unset. *)
Lemma invoke_tool_unreachable (tool : value) (args : dict) (url : string)
      (w w1 : W) (e : exn) :
  h _ (OpenTransport url) w = (inl e, w1) ->
  exec h (invoke_tool json_loads tool args (Self url false)) w
  = ((Ok (PDict [("error", PStr e)]), Self url false), w1,
     [Call (OpenTransport url)]).
Proof.
  intros H1.
  cbv beta iota zeta delta
      [invoke_tool try_except bind get put ret await pbind fst snd session
       connect base_url].
  rewrite (exec_vis h _ _ _ w w1 _ H1). reflexivity.
Qed.

(** X10. A handshake that fails after the transport has opened leaves
    the session set: the caller gets the error as a value, and the
    next invocation does not connect again but calls the tool on that
    session. *)
Theorem failed_handshake_is_not_retried (tool tool' : value)
        (args args' : dict) (url : string) (w w1 w2 w3 : W) (e : exn)
        (reply : exn + list content_item) :
  h _ (OpenTransport url) w = (inr tt, w1) ->
  h _ InitSession w1 = (inl e, w2) ->
  h _ (CallTool tool' args') w2 = (reply, w3) ->
  exec h (invoke_tool json_loads tool args (Self url false)) w
  = ((Ok (PDict [("error", PStr e)]), Self url true), w2,
     [Call (OpenTransport url); Call InitSession])
  /\ exec h (invoke_tool json_loads tool' args' (Self url true)) w2
     = ((Ok match reply with
            | inl e' => PDict [("error", PStr e')]
            | inr content => tool_reply json_loads content
            end, Self url true), w3, [Call (CallTool tool' args')]).
Proof.
  intros H1 H2 H3. split.
  - cbv beta iota zeta delta
        [invoke_tool try_except bind get put ret await pbind fst snd session
         connect base_url].
    rewrite (exec_vis h _ _ _ w w1 _ H1). cbv beta iota.
    rewrite (exec_vis h _ _ _ w1 w2 _ H2). reflexivity.
  - exact (invoke_tool_connected h json_loads tool' args' (Self url true)
                                 w2 w3 reply eq_refl H3).
Qed.

(** With the server down, each call is one attempt to open the
    transport and gives an error value. *)
Lemma invoke_each_unreachable (url : string) (calls : list (value * dict)) :
  (forall w, exists e, fst (h _ (OpenTransport url) w) = inl e) ->
  forall w, exists resps w',
    exec h (invoke_each json_loads calls (Self url false)) w
    = ((Ok resps, Self url false), w',
       map (fun _ => Call (OpenTransport url)) calls)
    /\ Forall (fun r => exists e, r = PDict [("error", PStr e)]) resps.
Proof.
  intros Hdown. induction calls as [|[tool args] rest IH]; intros w.
  - exists [], w. split; [reflexivity|constructor].
  - destruct (Hdown w) as [e He].
    destruct (h _ (OpenTransport url) w) as [r w1] eqn:H1.
    cbn [fst] in He. subst r.
    destruct (IH w1) as (resps & w' & Hr & Hall).
    exists (PDict [("error", PStr e)] :: resps), w'. split.
    + cbn [invoke_each map].
      eapply exec_bind_ok;
        [exact (invoke_tool_unreachable tool args url w w1 e H1)| |
         reflexivity].
      eapply exec_bind_ok; [exact Hr|reflexivity|].
      rewrite app_nil_r. reflexivity.
    + constructor; [eexists; reflexivity|exact Hall].
Qed.

(** [run_query] once the plan is a non-empty list and its loop has
    returned. *)
Lemma run_query_summarises (user_query : string) (self self' : client)
      (w w1 w2 : W) (reply : exn + string) (d : dict) (steps : list value)
      (rs : results) (tr : list (call clientE)) (l : list value) :
  h _ (ChatCompletion GROQ_MODEL (plan_messages user_query) (1 # 10) 2048) w
  = (reply, w1) ->
  json_loads (completion_text reply) = inr (PDict d) ->
  dict_get "plan" d = Some (PList steps) ->
  steps <> [] ->
  serializable (PList steps) = true ->
  exec h (run_steps json_loads steps [] self) w1 = ((Ok rs, self'), w2, tr) ->
  results_value rs = Some l ->
  exec h (run_query json_loads GROQ_MODEL user_query self) w
  = ((Ok (RunResult
            (PList steps) rs
            (PDict [("summary",
                     PStr (completion_text
                             (fst (h _ (ChatCompletion GROQ_MODEL
                                          (summary_messages user_query
                                             (PList steps) l)
                                          (3 # 10) 2048) w2))))])),
      self'),
     snd (h _ (ChatCompletion GROQ_MODEL
                 (summary_messages user_query (PList steps) l)
                 (3 # 10) 2048) w2),
     (Call (ChatCompletion GROQ_MODEL (plan_messages user_query)
                           (1 # 10) 2048)
      :: tr ++ [Call (ChatCompletion GROQ_MODEL
                        (summary_messages user_query (PList steps) l)
                        (3 # 10) 2048)])%list).
Proof.
  intros Hh Hj Hplan Hne Hsp Hr Hrv.
  pose proof (plan_tools_exec h json_loads GROQ_MODEL user_query self w w1
                              reply Hh) as Hp.
  rewrite Hj in Hp.
  assert (Hin : dict_in "plan" d = true)
    by (unfold dict_in; rewrite Hplan; reflexivity).
  rewrite Hin in Hp.
  destruct (h _ (ChatCompletion GROQ_MODEL
                   (summary_messages user_query (PList steps) l)
                   (3 # 10) 2048) w2) as [reply2 w3] eqn:Hh2.
  unfold run_query.
  eapply exec_bind_ok; [exact Hp| |reflexivity].
  cbn beta iota. rewrite Hplan.
  destruct steps as [|s0 steps']; [congruence|].
  cbn [truthy negb iterate].
  eapply exec_bind_ok; [exact Hr| |reflexivity].
  eapply exec_bind_ok; [|reflexivity|].
  + unfold summarize_results. rewrite Hrv, Hsp.
    eapply exec_bind_ok;
      [exact (call_groq_exec h GROQ_MODEL _ _ _ self' w2 w3 reply2 Hh2)
      |reflexivity|reflexivity].
  + reflexivity.
Qed.

(** [run_query] once the plan is in hand and iterating it or running
    its loop raises. *)
Lemma run_query_raises (user_query : string) (self self' : client)
      (w w1 w2 : W) (reply : exn + string) (d : dict) (plan : value)
      (e : exn) (tr : list (call clientE)) :
  h _ (ChatCompletion GROQ_MODEL (plan_messages user_query) (1 # 10) 2048) w
  = (reply, w1) ->
  json_loads (completion_text reply) = inr (PDict d) ->
  dict_get "plan" d = Some plan ->
  truthy plan = true ->
  match iterate plan with
  | inr steps =>
      exec h (run_steps json_loads steps [] self) w1
      = ((Raise e, self'), w2, tr)
  | inl e' => e' = e /\ self' = self /\ w2 = w1 /\ tr = []
  end ->
  exec h (run_query json_loads GROQ_MODEL user_query self) w
  = ((Raise e, self'), w2,
     Call (ChatCompletion GROQ_MODEL (plan_messages user_query)
                          (1 # 10) 2048) :: tr).
Proof.
  intros Hh Hj Hplan Ht Hr.
  pose proof (plan_tools_exec h json_loads GROQ_MODEL user_query self w w1
                              reply Hh) as Hp.
  rewrite Hj in Hp.
  assert (Hin : dict_in "plan" d = true)
    by (unfold dict_in; rewrite Hplan; reflexivity).
  rewrite Hin in Hp.
  unfold run_query.
  eapply exec_bind_ok; [exact Hp| |reflexivity].
  cbn beta iota. rewrite Hplan, Ht. cbn [negb].
  destruct (iterate plan) as [e'|steps].
  - destruct Hr as (-> & -> & -> & ->). reflexivity.
  - eapply exec_bind_raise. exact Hr.
Qed.

(** X11. With the server down, [run_query] on a well-formed plan still
    runs to its end: each step that names a tool makes one attempt to
    open the transport and no other request, its result is an error
    value, and the summarizer is asked about these errors. *)
Theorem unreachable_server_is_summarised (user_query url : string)
        (w w1 : W) (reply : exn + string) (d : dict) (steps : list value) :
  loads_plain json_loads ->
  (forall w, exists e, fst (h _ (OpenTransport url) w) = inl e) ->
  h _ (ChatCompletion GROQ_MODEL (plan_messages user_query) (1 # 10) 2048) w
  = (reply, w1) ->
  json_loads (completion_text reply) = inr (PDict d) ->
  dict_get "plan" d = Some (PList steps) ->
  steps <> [] ->
  Forall (fun step => well_formed_step step = true) steps ->
  exists resps w2 l,
    let calls := executed_calls steps in
    let rs := combine (map fst calls) resps in
    let summarize :=
      ChatCompletion GROQ_MODEL (summary_messages user_query (PList steps) l)
                     (3 # 10) 2048 in
    Forall (fun r => exists e, r = PDict [("error", PStr e)]) resps
    /\ List.length resps = List.length calls
    /\ results_value rs = Some l
    /\ exec h (run_query json_loads GROQ_MODEL user_query (Self url false)) w
       = ((Ok (RunResult
                 (PList steps) rs
                 (PDict [("summary",
                          PStr (completion_text (fst (h _ summarize w2))))])),
           Self url false),
          snd (h _ summarize w2),
          (Call (ChatCompletion GROQ_MODEL (plan_messages user_query)
                                (1 # 10) 2048)
           :: map (fun _ => Call (OpenTransport url)) calls
           ++ [Call summarize])%list).
Proof.
  intros Hl Hdown Hh Hj Hplan Hne Hwf.
  destruct (run_steps_spec h json_loads steps Hl Hwf [] (Self url false) w1)
    as (resps & self' & w2 & tr & He & Hr & Hn & Hps & Hcs).
  destruct (invoke_each_unreachable url (executed_calls steps) Hdown w1)
    as (resps' & w2' & He' & Hall).
  rewrite He in He'. injection He' as -> -> -> ->.
  destruct (results_value_combine _ resps' (executed_tools_keyed steps Hwf)
                                  Hps) as [l Hrv].
  exists resps', w2', l. cbv zeta.
  split; [exact Hall|]. split; [exact Hn|]. split; [exact Hrv|].
  apply run_query_summarises with (w1 := w1) (reply := reply) (d := d);
    try assumption.
  exact (dict_get_plain _ _ _ (Hl _ _ Hj) Hplan).
Qed.

(** The loop on [pre ++ rest] is the loop on [pre], then the loop on
    [rest] with the results so far. *)
Lemma run_steps_app (pre rest : list value) :
  forall (rs rs1 : results) (self self1 : client) (w w1 : W)
         (tr1 : list (call clientE)),
    exec h (run_steps json_loads pre rs self) w = ((Ok rs1, self1), w1, tr1) ->
    exec h (run_steps json_loads (pre ++ rest) rs self) w
    = (fst (exec h (run_steps json_loads rest rs1 self1) w1),
       (tr1 ++ snd (exec h (run_steps json_loads rest rs1 self1) w1))%list).
Proof.
  induction pre as [|step pre IH]; intros rs rs1 self self1 w w1 tr1 H.
  - cbn in H. injection H as <- <- <- <-. cbn [app].
    destruct (exec h (run_steps json_loads rest rs self) w). reflexivity.
  - cbn [app run_steps] in H |- *. unfold bind in H |- *.
    rewrite exec_pbind in H |- *.
    destruct (exec h (run_step json_loads step rs self) w)
      as [[[o s'] w'] tr'] eqn:Hs.
    cbn [fst snd] in H |- *. destruct o as [rs'|e].
    + destruct (exec h (run_steps json_loads pre rs' s') w')
        as [[[o2 s2] w2] tr2] eqn:Hp.
      cbn [fst snd] in H. injection H as -> -> -> <-.
      rewrite (IH rs' rs1 s' self1 w' w1 tr2 Hp). cbn [fst snd].
      rewrite app_assoc.
      destruct (exec h (run_steps json_loads rest rs1 self1) w1) as [[? ?] ?].
      reflexivity.
    + cbn in H. discriminate H.
Qed.

Lemma run_step_malformed (step : value) (rs : results) (e : exn) :
  malformed step = Some e -> run_step json_loads step rs = raise e.
Proof.
  unfold malformed, run_step.
  destruct step; try (intros [= <-]; reflexivity).
  destruct (dict_get "arguments" d) as [[]|];
    try discriminate; intros [= <-]; reflexivity.
Qed.

(** X12. A step that is no object, or whose arguments are no object,
    makes [run_query] raise: the steps before it have been executed,
    the steps after it are not, the summarizer is not asked, and the
    results so far are lost with the exception. *)
Theorem malformed_step_aborts_run (user_query : string) (self : client)
        (w w1 : W) (reply : exn + string) (d : dict)
        (pre post : list value) (bad : value) (e : exn) :
  loads_plain json_loads ->
  h _ (ChatCompletion GROQ_MODEL (plan_messages user_query) (1 # 10) 2048) w
  = (reply, w1) ->
  json_loads (completion_text reply) = inr (PDict d) ->
  dict_get "plan" d = Some (PList (pre ++ bad :: post)) ->
  Forall (fun step => well_formed_step step = true) pre ->
  malformed bad = Some e ->
  exists resps self' w2 tr,
    exec h (invoke_each json_loads (executed_calls pre) self) w1
    = ((Ok resps, self'), w2, tr)
    /\ forallb (fun c => negb (is_chat c)) tr = true
    /\ exec h (run_query json_loads GROQ_MODEL user_query self) w
       = ((Raise e, self'), w2,
          Call (ChatCompletion GROQ_MODEL (plan_messages user_query)
                               (1 # 10) 2048) :: tr).
Proof.
  intros Hl Hh Hj Hplan Hwf Hbad.
  destruct (run_steps_spec h json_loads pre Hl Hwf [] self w1)
    as (resps & self' & w2 & tr & He & Hr & Hn & Hps & Hcs).
  exists resps, self', w2, tr.
  split; [exact He|]. split; [exact Hcs|].
  apply run_query_raises
    with (w1 := w1) (reply := reply) (d := d) (plan := PList (pre ++ bad :: post));
    try assumption.
  - destruct pre; reflexivity.
  - cbn [iterate].
    rewrite (run_steps_app pre (bad :: post) _ _ _ _ _ _ _ Hr).
    cbn [run_steps]. rewrite (run_step_malformed bad _ e Hbad).
    cbn. rewrite app_nil_r. reflexivity.
Qed.

(** X13. A plan that is not empty and not a list makes [run_query]
    raise before any tool is invoked: a text or an object is iterated
    and its first element, a str, has no [get]; any other value does
    not iterate. *)
Theorem plan_not_a_list_raises (user_query : string) (self : client)
        (w w1 : W) (reply : exn + string) (d : dict) (plan : value) :
  h _ (ChatCompletion GROQ_MODEL (plan_messages user_query) (1 # 10) 2048) w
  = (reply, w1) ->
  json_loads (completion_text reply) = inr (PDict d) ->
  dict_get "plan" d = Some plan ->
  truthy plan = true ->
  (forall steps, plan <> PList steps) ->
  exec h (run_query json_loads GROQ_MODEL user_query self) w
  = ((Raise (plan_error plan), self), w1,
     [Call (ChatCompletion GROQ_MODEL (plan_messages user_query)
                           (1 # 10) 2048)]).
Proof.
  intros Hh Hj Hplan Ht Hnl.
  apply run_query_raises with (w1 := w1) (reply := reply) (d := d)
                              (plan := plan);
    try assumption.
  destruct plan as [|b|n|r|s|l|kv|s r]; cbn [iterate];
    try (repeat split; reflexivity).
  - destruct s as [|c s]; [discriminate Ht|]. reflexivity.
  - exfalso. exact (Hnl l eq_refl).
  - destruct kv as [|[k v] kv]; [discriminate Ht|]. reflexivity.
Qed.

End ConnectionProperties.

(** ** Further properties at concrete inputs *)

Section FurtherExamples.
Import PyStr PyDate Py Json Effects Server Client Plan Shapes.

Lemma faults_loads_plain : loads_plain Faults.loads.
Proof.
  intros s v. unfold Faults.loads.
  destruct (String.eqb s Faults.name_plan_text); [intros [= <-]; reflexivity|].
  destruct (String.eqb s Faults.carrier_filter_text);
    [intros [= <-]; reflexivity|].
  destruct (String.eqb s Faults.mixed_plan_text);
    [intros [= <-]; reflexivity|].
  exact (demo_loads_plain s v).
Qed.

(** X1 on the flight number 215 between blanks. *)
Lemma normalize_flight_number_reads_decimal_witness :
  (count_digits (str_of_int 215) <=? max_str_digits)%nat = true
  /\ all_chars is_space " " = true
  /\ all_chars is_space "  " = true
  /\ normalize_flight_number (PStr " 215  ") = Some 215
  /\ fn_of " 215  " = Some 215.
Proof.
  split; [reflexivity|]. split; [reflexivity|]. split; [reflexivity|].
  apply (normalize_flight_number_reads_decimal 215 " " "  ");
    [apply Nat.leb_le; reflexivity|reflexivity|reflexivity].
Defined.

(** X2 on a flight number written with its carrier. *)
Lemma foreign_flight_number_is_ignored_witness :
  all_chars int_char "6E215" = false
  /\ normalize_flight_number (PStr "6E215") = None
  /\ forall (t : lookup_tool) (carrier date_of_origin : string),
       lookup t carrier "6E215" date_of_origin
       = lookup t carrier "" date_of_origin.
Proof.
  split; [reflexivity|].
  apply (foreign_flight_number_is_ignored "6E215"). reflexivity.
Defined.

(** X3 on the date "23 Jun 2024". *)
Lemma validate_date_returns_calendar_day_witness :
  validate_date "23 Jun 2024" = Some "2024-06-23"
  /\ exists y m d,
      1 <= y <= 9999 /\ 1 <= m <= 12 /\ 1 <= d <= days_in_month y m
      /\ "2024-06-23" = str_of_int y ++ "-" ++ pad2 m ++ "-" ++ pad2 d
      /\ (1000 <= y ->
          String.length "2024-06-23" = 10%nat
          /\ strptime "2024-06-23" "%Y-%m-%d" = Some (mkDate y m d)
          /\ validate_date "2024-06-23" = Some "2024-06-23")
      /\ (y < 1000 ->
          (String.length "2024-06-23" < 10)%nat
          /\ validate_date "2024-06-23" = None).
Proof.
  split; [vm_compute; reflexivity|].
  apply (validate_date_returns_calendar_day "23 Jun 2024" "2024-06-23").
  vm_compute. reflexivity.
Defined.

(** X4 on a date followed by a time of day. *)
Lemma validate_date_rejects_trailing_text_witness :
  valid_date (mkDate 2024 6 23) = true
  /\ validate_date "2024-06-23T10:00:00" = None.
Proof.
  split; [reflexivity|].
  apply (validate_date_rejects_trailing_text (mkDate 2024 6 23) "T"
                                             "10:00:00").
  reflexivity.
Defined.

(** X5 on the 23rd of June 2024 written with the abbreviated month. *)
Lemma validate_date_accepts_every_style_witness :
  valid_date (mkDate 2024 6 23) = true
  /\ strptime "23 Jun 2024" "%d %b %Y" = Some (mkDate 2024 6 23)
  /\ validate_date "23 Jun 2024" = Some "2024-06-23"
  /\ (1000 <= 2024 -> validate_date "23 Jun 2024" = Some "2024-06-23").
Proof.
  split; [reflexivity|].
  apply (validate_date_accepts_every_style DayAbbrYear (mkDate 2024 6 23)).
  reflexivity.
Defined.

(** X6 on the operation-times tool and a year on two digits. *)
Lemma checked_lookup_rejects_witness :
  checks_date OperationTimes = true
  /\ validate_date "23/06/24" = None
  /\ exists msg,
      msg <> ""
      /\ exec Demo.store
              (lookup OperationTimes "6E" "215" "23/06/24" (Globals false)) tt
         = ((Ok (response_error msg 400), Globals false), tt, []).
Proof.
  split; [reflexivity|]. split; [vm_compute; reflexivity|].
  apply (checked_lookup_rejects Demo.store OperationTimes "6E" "215"
                                "23/06/24" (Globals false) tt).
  - reflexivity.
  - discriminate.
  - vm_compute. reflexivity.
Defined.

(** X9 on a store that holds one flight. *)
Lemma raw_query_outcomes_witness :
  Faults.loads Faults.carrier_filter_text = inr Faults.carrier_filter
  /\ exists out,
      fst (exec Demo.store
                (raw_mongodb_query Faults.loads Faults.carrier_filter_text 10
                                   (Globals false)) tt)
      = ((Ok out, Globals true), tt)
      /\ (forall cause, @inr exn (list dict) [Demo.flight] = inl cause ->
          out = response_error ("raw query failed: " ++ cause) 500)
      /\ (@inr exn (list dict) [Demo.flight] = inr [] ->
          out = response_error "No documents found for given query." 404)
      /\ (forall doc docs,
            @inr exn (list dict) [Demo.flight] = inr (doc :: docs) ->
            out = response_ok
                    (PDict [("count",
                             PInt (Z.of_nat (List.length (doc :: docs))));
                            ("documents",
                             PList (map (fun d => PDict (strip_internal d))
                                        (doc :: docs)))])
            /\ Forall (fun d => dict_get "_id" (strip_internal d) = None
                                /\ dict_get "_class" (strip_internal d) = None)
                      (doc :: docs)).
Proof.
  split; [reflexivity|].
  apply (raw_query_outcomes Demo.store Faults.loads
                            Faults.carrier_filter_text 10 (Globals false)
                            tt tt Faults.carrier_filter (inr [Demo.flight]));
    reflexivity.
Defined.

(** X10 on a server that accepts the connection and fails the
    handshake. *)
Lemma failed_handshake_is_not_retried_witness :
  exec (Faults.half_open Demo.plan_text)
       (invoke_tool Demo.loads (PStr "get_fuel_summary") []
                    (Self "http://127.0.0.1:8000" false)) tt
  = ((Ok (PDict [("error", PStr "Session terminated")]),
      Self "http://127.0.0.1:8000" true), tt,
     [Call (OpenTransport "http://127.0.0.1:8000"); Call InitSession])
  /\ exec (Faults.half_open Demo.plan_text)
          (invoke_tool Demo.loads (PStr "get_delay_summary") []
                       (Self "http://127.0.0.1:8000" true)) tt
     = ((Ok (PDict [("error", PStr "Connection closed")]),
         Self "http://127.0.0.1:8000" true), tt,
        [Call (CallTool (PStr "get_delay_summary") [])]).
Proof.
  apply (failed_handshake_is_not_retried
           (Faults.half_open Demo.plan_text) Demo.loads
           (PStr "get_fuel_summary") (PStr "get_delay_summary") [] []
           "http://127.0.0.1:8000" tt tt tt tt "Session terminated"
           (inl "Connection closed"));
    reflexivity.
Defined.

(** X11 on the plan of four steps and a server that is down. *)
Lemma unreachable_server_is_summarised_witness :
  exists resps w2 l,
    let url := "http://127.0.0.1:8000" in
    let world := Faults.unreachable Demo.plan_text in
    let calls := executed_calls Demo.steps in
    let rs := combine (map fst calls) resps in
    let summarize :=
      ChatCompletion Demo.model
                     (summary_messages Demo.question (PList Demo.steps) l)
                     (3 # 10) 2048 in
    Forall (fun r => exists e, r = PDict [("error", PStr e)]) resps
    /\ List.length resps = List.length calls
    /\ results_value rs = Some l
    /\ exec world
            (run_query Demo.loads Demo.model Demo.question (Self url false))
            tt
       = ((Ok (RunResult
                 (PList Demo.steps) rs
                 (PDict [("summary",
                          PStr (completion_text
                                  (fst (world _ summarize w2))))])),
           Self url false),
          snd (world _ summarize w2),
          (Call (ChatCompletion Demo.model (plan_messages Demo.question)
                                (1 # 10) 2048)
           :: map (fun _ => Call (OpenTransport url)) calls
           ++ [Call summarize])%list).
Proof.
  apply (unreachable_server_is_summarised
           (Faults.unreachable Demo.plan_text) Demo.loads Demo.model
           Demo.question "http://127.0.0.1:8000" tt tt (inr Demo.plan_text)
           [("plan", Demo.plan)] Demo.steps).
  - exact demo_loads_plain.
  - intros w. exists "All connection attempts failed". reflexivity.
  - reflexivity.
  - reflexivity.
  - reflexivity.
  - discriminate.
  - repeat constructor.
Defined.

(** X12 on a plan whose second step is the name of a tool. *)
Lemma malformed_step_aborts_run_witness :
  Faults.malformed (PStr "get_delay_summary")
  = Some "'str' object has no attribute 'get'"
  /\ exists resps self' w2 tr,
      exec (Demo.world Faults.mixed_plan_text)
           (invoke_each Faults.loads
                        (executed_calls
                           [PDict [("tool", PStr "get_flight_basic_info");
                                   ("arguments",
                                    PDict [("flight_number", PStr "215")])]])
                        Demo.self) tt
      = ((Ok resps, self'), w2, tr)
      /\ forallb (fun c => negb (is_chat c)) tr = true
      /\ exec (Demo.world Faults.mixed_plan_text)
              (run_query Faults.loads Demo.model Demo.question Demo.self) tt
         = ((Raise "'str' object has no attribute 'get'", self'), w2,
            Call (ChatCompletion Demo.model (plan_messages Demo.question)
                                 (1 # 10) 2048) :: tr).
Proof.
  split; [reflexivity|].
  apply (malformed_step_aborts_run
           (Demo.world Faults.mixed_plan_text) Faults.loads Demo.model
           Demo.question Demo.self tt tt (inr Faults.mixed_plan_text)
           [("plan", PList Faults.mixed_steps)]
           [PDict [("tool", PStr "get_flight_basic_info");
                   ("arguments", PDict [("flight_number", PStr "215")])]]
           [PDict [("tool", PStr "get_fuel_summary")]]
           (PStr "get_delay_summary")).
  - exact faults_loads_plain.
  - reflexivity.
  - reflexivity.
  - reflexivity.
  - repeat constructor.
  - reflexivity.
Defined.

(** X13 on a plan that is the name of a tool. *)
Lemma plan_not_a_list_raises_witness :
  exec (Demo.world Faults.name_plan_text)
       (run_query Faults.loads Demo.model Demo.question Demo.self) tt
  = ((Raise "'str' object has no attribute 'get'", Demo.self), tt,
     [Call (ChatCompletion Demo.model (plan_messages Demo.question)
                           (1 # 10) 2048)]).
Proof.
  apply (plan_not_a_list_raises
           (Demo.world Faults.name_plan_text) Faults.loads Demo.model
           Demo.question Demo.self tt tt (inr Faults.name_plan_text)
           [("plan", Faults.name_plan)] Faults.name_plan).
  - reflexivity.
  - reflexivity.
  - reflexivity.
  - reflexivity.
  - discriminate.
Defined.

End FurtherExamples.
